(** * ErcotMCPExtension: normalisation, vintage selection and rolling splits

    A shallow embedding of the data-normalisation and cross-validation core
    of the ERCOT client ([server/utils.py], [server/load.py],
    [server/forecasting.py]) together with the properties its specification
    states about it.

    Conventions of the embedding.
    - A point in time ([datetime], [pd.Timestamp]) is an integer count of
      nanoseconds since the Unix epoch, the representation pandas itself
      uses; a [timedelta] is a count of nanoseconds.  The sums
      [parse_hour_ending] forms on one timestamp are checked against the
      range of the timestamp's type ([TimeRange]) and raise outside it, as
      Python's do.  The arithmetic pandas does on whole columns is written
      on unbounded integers: the properties stated about it bound the
      values to the 64-bit range in which pandas computes exactly.
    - The labels of a table are taken to be distinct.  A label is looked
      up at its first occurrence; what pandas does with a label that
      occurs twice (it hands out a table where a column is expected) is
      outside the model, and the properties that read columns assume
      distinct labels.
    - [CNull] stands for a missing value.  Where Python tells [None] from
      [NaN] and [NaT], it is read as [None].
    - Python strings are [string]s of ASCII characters; characters outside
      ASCII are treated as caseless, non-digit characters.  A printed line
      is given without the pictograph that opens it in the source, and the
      lines that only report progress are left out.
    - A function that can raise returns a value of [result]. *)

From Stdlib Require Import ZArith List String Ascii Bool Lia Arith DecimalString.
From Stdlib Require Import Sorting.Sorted Sorting.Permutation.
Import ListNotations.

Open Scope string_scope.
Open Scope list_scope.
Open Scope Z_scope.

(** ** Exceptions and fallible computations *)

Inductive exn : Type :=
| KeyError (key : string)
| ValueError (msg : string)
| IndexError
| TypeError
| OverflowError.

Inductive result (A : Type) : Type :=
| Ok (a : A)
| Raise (e : exn).

Arguments Ok {A} a.
Arguments Raise {A} e.

Definition bind {A B : Type} (m : result A) (f : A -> result B) : result B :=
  match m with
  | Ok a => f a
  | Raise e => Raise e
  end.

Notation "x <- m ;; k" := (bind m (fun x => k))
  (at level 61, m at next level, right associativity).

Fixpoint mapM {A B : Type} (f : A -> result B) (l : list A) : result (list B) :=
  match l with
  | [] => Ok []
  | x :: l' => y <- f x ;; ys <- mapM f l' ;; Ok (y :: ys)
  end.

(** ** Python string primitives *)

Module Py.

Definition is_upper (c : ascii) : bool :=
  let n := nat_of_ascii c in (65 <=? n)%nat && (n <=? 90)%nat.

Definition is_lower (c : ascii) : bool :=
  let n := nat_of_ascii c in (97 <=? n)%nat && (n <=? 122)%nat.

Definition is_digit (c : ascii) : bool :=
  let n := nat_of_ascii c in (48 <=? n)%nat && (n <=? 57)%nat.

(** The characters [int] skips around the literal in an ASCII string:
    tab, line feed, vertical tab, form feed, carriage return and space. *)
Definition is_space (c : ascii) : bool :=
  let n := nat_of_ascii c in
  ((9 <=? n)%nat && (n <=? 13)%nat) || (n =? 32)%nat.

Definition to_upper (c : ascii) : ascii :=
  if is_lower c then ascii_of_nat (nat_of_ascii c - 32) else c.

Definition to_lower (c : ascii) : ascii :=
  if is_upper c then ascii_of_nat (nat_of_ascii c + 32) else c.

Fixpoint map_string (f : ascii -> ascii) (s : string) : string :=
  match s with
  | EmptyString => EmptyString
  | String c s' => String (f c) (map_string f s')
  end.

(** [s.lower()] *)
Definition lower (s : string) : string := map_string to_lower s.

(** [s.capitalize()]: first character upper-cased, the rest lower-cased. *)
Definition capitalize (s : string) : string :=
  match s with
  | EmptyString => EmptyString
  | String c s' => String (to_upper c) (lower s')
  end.

(** [s.replace(a, b)] for one-character [a] and [b]. *)
Definition replace_char (a b : ascii) (s : string) : string :=
  map_string (fun c => if Ascii.eqb c a then b else c) s.

(** [c in s] for a one-character [c]. *)
Fixpoint contains_char (c : ascii) (s : string) : bool :=
  match s with
  | EmptyString => false
  | String d s' => Ascii.eqb c d || contains_char c s'
  end.

(** [s.split(sep)] for a one-character [sep]: never empty, the pieces
    between consecutive separators, empty pieces included. *)
Fixpoint split (sep : ascii) (s : string) : list string :=
  match s with
  | EmptyString => [EmptyString]
  | String c s' =>
      if Ascii.eqb c sep then EmptyString :: split sep s'
      else match split sep s' with
           | [] => [String c EmptyString]
           | p :: ps => String c p :: ps
           end
  end.

(** [''.join(parts)] *)
Definition join (parts : list string) : string :=
  fold_right String.append EmptyString parts.

Definition nonempty (s : string) : bool :=
  match s with EmptyString => false | _ => true end.

(** [sub in s]: substring test. *)
Fixpoint contains (sub s : string) : bool :=
  String.prefix sub s ||
  match s with
  | EmptyString => false
  | String _ s' => contains sub s'
  end.

(** *** [int(s)] on a string, base 10

    White space is stripped on both sides, one sign is allowed, then decimal
    digits in which single underscores may separate digits.  A literal of
    more than 4300 digits is refused (Python 3.11 and later). *)

Fixpoint lstrip (s : string) : string :=
  match s with
  | String c s' => if is_space c then lstrip s' else s
  | EmptyString => EmptyString
  end.

Fixpoint rstrip (s : string) : string :=
  match s with
  | EmptyString => EmptyString
  | String c s' =>
      match rstrip s' with
      | EmptyString => if is_space c then EmptyString else String c EmptyString
      | t => String c t
      end
  end.

Definition strip (s : string) : string := rstrip (lstrip s).

Definition digit_val (c : ascii) : Z := Z.of_nat (nat_of_ascii c - 48).

(** [digits acc prev_digit s]: reads the digit sequence [s]; [prev_digit]
    says whether the previous character was a digit, which an underscore and
    the end of the literal both require. *)
Fixpoint digits (acc : Z) (prev_digit : bool) (s : string) : option Z :=
  match s with
  | EmptyString => if prev_digit then Some acc else None
  | String c s' =>
      if is_digit c then digits (10 * acc + digit_val c) true s'
      else if Ascii.eqb c "_"%char then
        if prev_digit then digits acc false s' else None
      else None
  end.

Fixpoint count_digits (s : string) : nat :=
  match s with
  | EmptyString => O
  | String c s' => ((if is_digit c then 1 else 0) + count_digits s')%nat
  end.

Definition int_of_string (s : string) : result Z :=
  let body (t : string) :=
    if (4300 <? count_digits t)%nat then None else digits 0 false t in
  let r :=
    match strip s with
    | String "-"%char t => option_map Z.opp (body t)
    | String "+"%char t => body t
    | t => body t
    end in
  match r with
  | Some n => Ok n
  | None => Raise (ValueError "invalid literal for int() with base 10")
  end.

End Py.

(** ** Time *)

Definition datetime : Type := Z.
Definition timedelta : Type := Z.

Definition NS_PER_SECOND : Z := 1000000000.
Definition MINUTE : timedelta := 60 * NS_PER_SECOND.
Definition HOUR : timedelta := 60 * MINUTE.
Definition DAY : timedelta := 24 * HOUR.

(** [timedelta(days=d, hours=h)] and friends. *)
Definition timedelta_of (days hours minutes : Z) : timedelta :=
  days * DAY + hours * HOUR + minutes * MINUTE.

(** Days from 1970-01-01 to the civil date [y]-[m]-[d] (proleptic
    Gregorian calendar), used to write concrete timestamps. *)
Definition is_leap (y : Z) : bool :=
  ((y mod 4 =? 0) && negb (y mod 100 =? 0)) || (y mod 400 =? 0).

Definition days_before_year (y : Z) : Z :=
  let p := y - 1 in p * 365 + p / 4 - p / 100 + p / 400.

Definition days_before_month (y m : Z) : Z :=
  nth (Z.to_nat m) [0; 0; 31; 59; 90; 120; 151; 181; 212; 243; 273; 304; 334] 0
  + (if (2 <? m) && is_leap y then 1 else 0).

Definition ymd2ord (y m d : Z) : Z :=
  days_before_year y + days_before_month y m + d.

Definition mk_datetime (y m d hh mm : Z) : datetime :=
  (ymd2ord y m d - ymd2ord 1970 1 1) * DAY + hh * HOUR + mm * MINUTE.

(** The calendar day a timestamp falls on ([.dt.date]), as a day number. *)
Definition date_of (t : datetime) : Z := t / DAY.

(** *** The range of a timestamp type

    [date + timedelta(...)] is written once in the source and runs on
    whatever timestamp type it is given: [datetime.datetime], which holds
    the years 1 to 9999, or its subclass [pd.Timestamp], which holds the
    nanosecond counts of 64 bits.  Each type refuses a sum outside its
    range, and [pd.Timestamp] first turns the duration into one of its own,
    of 64 bits again. *)
Class TimeRange : Type := {
  min_time : datetime;
  max_time : datetime;
  max_delta : timedelta;
  (* what the type raises on a sum it cannot hold *)
  out_of_range : exn
}.

(** [datetime.min] is 0001-01-01T00:00:00, [datetime.max] is
    9999-12-31T23:59:59.999999; any [timedelta] can be added. *)
Definition datetime_range : TimeRange := {|
  min_time := mk_datetime 1 1 1 0 0;
  max_time := mk_datetime 10000 1 1 0 0 - 1000;
  max_delta := 1000000000 * DAY;
  out_of_range := OverflowError
|}.

(** [pd.Timestamp.min] and [pd.Timestamp.max] at nanosecond resolution;
    [OutOfBoundsDatetime] is a [ValueError]. *)
Definition Timestamp_range : TimeRange := {|
  min_time := - (2 ^ 63 - 1);
  max_time := 2 ^ 63 - 1;
  max_delta := 2 ^ 63 - 1;
  out_of_range := ValueError "Out of bounds nanosecond timestamp"
|}.

(** The durations [datetime.timedelta] holds: from -999999999 days up to,
    not including, 1000000000 days. *)
Definition timedelta_ok (td : timedelta) : bool :=
  (- 999999999 * DAY <=? td) && (td <? 1000000000 * DAY).

(** [timedelta(days=d, hours=h, minutes=m)], which raises outside these. *)
Definition py_timedelta (days hours minutes : Z) : result timedelta :=
  let td := timedelta_of days hours minutes in
  if timedelta_ok td then Ok td else Raise OverflowError.

Definition in_range {range : TimeRange} (t : datetime) : bool :=
  (min_time <=? t) && (t <=? max_time).

(** Whether [t + td] can be formed on a timestamp [t] of the type. *)
Definition can_add {range : TimeRange} (t : datetime) (td : timedelta) : bool :=
  (Z.abs td <=? max_delta) && in_range (t + td).

(** What the scalar [pd.to_datetime] hands to [parse_hour_ending]: a
    timestamp, [NaT], or [None] when it was given [None]. *)
Inductive instant : Type :=
| At (t : datetime)
| NaT
| NoTime.

(** ** Tables

    A [DataFrame] is held row by row: the column labels and, for each row,
    one cell per column.  Row labels (the pandas index) are the row
    positions.  A column is addressed by its first occurrence among the
    labels.  Numbers are exact integers: the rounding of floating-point
    columns is outside the model. *)

Inductive cell : Type :=
| CNull                    (* None, NaN, NaT *)
| CInt (n : Z)             (* a number *)
| CStr (s : string)
| CTime (t : datetime)     (* pd.Timestamp *)
| CDate (d : Z).           (* datetime.date, as a day number *)

Definition cell_eqb (a b : cell) : bool :=
  match a, b with
  | CNull, CNull => true
  | CInt x, CInt y => x =? y
  | CStr x, CStr y => String.eqb x y
  | CTime x, CTime y => x =? y
  | CDate x, CDate y => x =? y
  | _, _ => false
  end.

Definition is_null (c : cell) : bool :=
  match c with CNull => true | _ => false end.

Definition Series : Type := list cell.

Record DataFrame : Type := mkFrame {
  columns : list string;
  rows : list (list cell)
}.

Fixpoint col_index (name : string) (cols : list string) : option nat :=
  match cols with
  | [] => None
  | c :: cols' =>
      if String.eqb c name then Some O
      else option_map S (col_index name cols')
  end.

(** [name in df.columns] *)
Definition has_column (name : string) (df : DataFrame) : bool :=
  match col_index name (columns df) with Some _ => true | None => false end.

Definition cell_at (i : nat) (row : list cell) : cell := nth i row CNull.

(** [df[name]] *)
Definition getitem (df : DataFrame) (name : string) : result Series :=
  match col_index name (columns df) with
  | Some i => Ok (map (cell_at i) (rows df))
  | None => Raise (KeyError name)
  end.

Fixpoint set_nth {A : Type} (i : nat) (x : A) (l : list A) : list A :=
  match i, l with
  | _, [] => []
  | O, _ :: l' => x :: l'
  | S i', y :: l' => y :: set_nth i' x l'
  end.

Fixpoint zip_with {A B C : Type} (f : A -> B -> C) (l : list A) (m : list B)
  : list C :=
  match l, m with
  | a :: l', b :: m' => f a b :: zip_with f l' m'
  | _, _ => []
  end.

(** [df[name] = s]: replaces the column when the label exists, appends a
    new last column otherwise. *)
Definition setitem (df : DataFrame) (name : string) (s : Series) : DataFrame :=
  match col_index name (columns df) with
  | Some i => mkFrame (columns df) (zip_with (set_nth i) s (rows df))
  | None =>
      mkFrame (columns df ++ [name])
              (zip_with (fun c row => row ++ [c]) s (rows df))
  end.

(** [df[names]]: the sub-frame with the listed columns. *)
Definition select (df : DataFrame) (names : list string) : result DataFrame :=
  idx <- mapM (fun n => match col_index n (columns df) with
                        | Some i => Ok i
                        | None => Raise (KeyError n)
                        end) names ;;
  Ok (mkFrame names (map (fun row => map (fun i => cell_at i row) idx) (rows df))).

(** [df.empty]: some axis has length zero. *)
Definition empty (df : DataFrame) : bool :=
  match columns df, rows df with
  | [], _ | _, [] => true
  | _, _ => false
  end.

(** *** Conversions of pandas *)

(** The parser [pd.to_datetime] applies to a string; an external
    capability of pandas. *)
Class DatetimeParser : Type := parse_datetime : string -> option datetime.

Section Conversions.
Context {parser : DatetimeParser}.

(** The strings pandas reads as a missing time without parsing them: the
    empty string and its [nat_strings]. *)
Definition is_nat_string (s : string) : bool :=
  existsb (String.eqb s) [""; "NaT"; "nat"; "NAT"; "nan"; "NaN"; "NAN"].

(** [pd.to_datetime] on one element of a series; [None] is [NaT]. *)
Definition to_datetime (c : cell) : result (option datetime) :=
  match c with
  | CNull => Ok None
  | CTime t => Ok (Some t)
  | CDate d => Ok (Some (d * DAY))
  | CInt n => Ok (Some n)
  | CStr s =>
      if is_nat_string s then Ok None
      else
        match parse_datetime s with
        | Some t => Ok (Some t)
        | None => Raise (ValueError "unknown datetime string format")
        end
  end.

(** [pd.to_datetime] on one value: [None] comes back as it is. *)
Definition to_datetime_scalar (c : cell) : result instant :=
  match c with
  | CNull => Ok NoTime
  | _ =>
      t <- to_datetime c ;;
      Ok (match t with Some t => At t | None => NaT end)
  end.

Definition of_time (t : option datetime) : cell :=
  match t with Some t => CTime t | None => CNull end.

(** [pd.to_datetime(series)] *)
Definition to_datetime_series (s : Series) : result (list (option datetime)) :=
  mapM to_datetime s.

(** [pd.to_timedelta(series, unit=...)]: only numbers carry a unit. *)
Definition to_timedelta (unit : timedelta) (c : cell) : result (option timedelta) :=
  match c with
  | CNull => Ok None
  | CInt n => Ok (Some (n * unit))
  | CStr _ => Raise (ValueError "unit must not be specified if the input contains a str")
  | CTime _ | CDate _ => Raise TypeError
  end.

Definition to_timedelta_series (unit : timedelta) (s : Series)
  : result (list (option timedelta)) :=
  mapM (to_timedelta unit) s.

End Conversions.

(** [a + b] on timestamps and durations with [NaT]. *)
Definition add_opt (a b : option Z) : option Z :=
  match a, b with
  | Some x, Some y => Some (x + y)
  | _, _ => None
  end.

Fixpoint repeat_string (n : nat) (s : string) : string :=
  match n with
  | O => EmptyString
  | S n' => String.append s (repeat_string n' s)
  end.

(** [series * 5], element by element. *)
Definition times5 (c : cell) : result cell :=
  match c with
  | CNull => Ok CNull
  | CInt n => Ok (CInt (n * 5))
  | CStr s => Ok (CStr (repeat_string 5 s))
  | CTime _ | CDate _ => Raise TypeError
  end.

(** ** The interpreter state: frames on the heap and the printed lines

    A Python variable holds a reference to a frame; assignment to a column
    changes the frame every holder of the reference sees.  A raised
    exception keeps the state reached so far. *)

Definition ref : Type := nat.

Record state : Type := mkState {
  heap : list DataFrame;
  stdout : list string
}.

Definition M (A : Type) : Type := state -> result A * state.

Definition ret {A : Type} (a : A) : M A := fun st => (Ok a, st).

Definition raise {A : Type} (e : exn) : M A := fun st => (Raise e, st).

Definition bindM {A B : Type} (m : M A) (f : A -> M B) : M B :=
  fun st =>
    match m st with
    | (Ok a, st') => f a st'
    | (Raise e, st') => (Raise e, st')
    end.

Notation "'let*' x ':=' m 'in' k" := (bindM m (fun x => k))
  (at level 10, x name, m at level 100, k at level 200).

Definition lift {A : Type} (r : result A) : M A := fun st => (r, st).

(** Reading the frame a reference points to. *)
Definition deref (l : ref) : M DataFrame :=
  fun st =>
    match nth_error (heap st) l with
    | Some df => (Ok df, st)
    | None => (Raise TypeError, st)
    end.

(** A new frame object. *)
Definition new_frame (df : DataFrame) : M ref :=
  fun st => (Ok (List.length (heap st)), mkState (heap st ++ [df]) (stdout st)).

(** In-place update of the frame behind a reference. *)
Definition update (l : ref) (f : DataFrame -> DataFrame) : M unit :=
  fun st =>
    match nth_error (heap st) l with
    | Some df => (Ok tt, mkState (set_nth l (f df) (heap st)) (stdout st))
    | None => (Raise TypeError, st)
    end.

Definition print (line : string) : M unit :=
  fun st => (Ok tt, mkState (heap st) (stdout st ++ [line])).

(** [df.copy()] *)
Definition copy (l : ref) : M ref :=
  let* df := deref l in new_frame df.

(** [df[name]] through a reference. *)
Definition getitemM (l : ref) (name : string) : M Series :=
  let* df := deref l in lift (getitem df name).

(** [df[name] = s] through a reference. *)
Definition setitemM (l : ref) (name : string) (s : Series) : M unit :=
  update l (fun df => setitem df name s).

Definition has_columnM (name : string) (l : ref) : M bool :=
  let* df := deref l in ret (has_column name df).

Fixpoint forM {A B : Type} (f : A -> M B) (l : list A) : M (list B) :=
  match l with
  | [] => ret []
  | x :: l' => let* y := f x in let* ys := forM f l' in ret (y :: ys)
  end.

(** ** server/utils.py *)

Module utils.

(** [re.sub('([a-z0-9])([A-Z])', r'\1_\2', name)]: matches are found left
    to right and do not overlap. *)
Fixpoint camel_boundaries (s : string) : string :=
  match s with
  | EmptyString => EmptyString
  | String c s1 =>
      match s1 with
      | EmptyString => String c EmptyString
      | String d s2 =>
          if (Py.is_lower c || Py.is_digit c) && Py.is_upper d
          then String c (String "_"%char (String d (camel_boundaries s2)))
          else String c (camel_boundaries s1)
      end
  end.

Definition to_pascal_case (name : string) : string :=
  let name :=
    Py.replace_char " "%char "_"%char (Py.replace_char "-"%char "_"%char name) in
  if Py.nonempty name
     && match name with String c _ => Py.is_upper c | EmptyString => false end
     && negb (Py.contains_char "_"%char (Py.lower name))
  then name
  else
    let name := camel_boundaries name in
    let parts :=
      map Py.capitalize (filter Py.nonempty (Py.split "_"%char name)) in
    Py.join parts.

Definition normalize_column_names (df : ref) : M ref :=
  let* df := copy df in
  let* _ := update df (fun d => mkFrame (map to_pascal_case (columns d)) (rows d)) in
  ret df.

(** [hour_ending.split(":")[0]] *)
Definition before_colon (s : string) : string :=
  hd EmptyString (Py.split ":"%char s).

(** [int(x)] for a cell that is not a string. *)
Definition int_of_cell (c : cell) : result Z :=
  match c with
  | CInt n => Ok n
  | _ => Raise TypeError
  end.

Section HourEnding.
Context {range : TimeRange}.

(** [date + td] and [date - td] on what [pd.to_datetime] returned: a sum
    out of the range of the type raises, [NaT] stays [NaT], and [None] has
    no sum. *)
Definition add_timedelta (date : instant) (td : timedelta) : result instant :=
  match date with
  | At t => if can_add t td then Ok (At (t + td)) else Raise out_of_range
  | NaT => Ok NaT
  | NoTime => Raise TypeError
  end.

Definition sub_timedelta (date : instant) (td : timedelta) : result instant :=
  add_timedelta date (- td).

Definition parse_hour_ending (date : instant) (hour_ending : cell)
  : result instant :=
  match hour_ending with
  | CStr s =>
      if String.eqb s "24:00" then
        (* Hour 24 = end of day = next day at midnight - 1 hour = 11 PM today *)
        day <- py_timedelta 1 0 0 ;;
        t <- add_timedelta date day ;;
        one <- py_timedelta 0 1 0 ;;
        sub_timedelta t one
      else
        (* Parse time string like "13:00" *)
        hour <- Py.int_of_string (before_colon s) ;;
        td <- py_timedelta 0 hour 0 ;;
        t <- add_timedelta date td ;;
        one <- py_timedelta 0 1 0 ;;
        sub_timedelta t one
  | _ =>
      (* Integer hour ending *)
      hour <- int_of_cell hour_ending ;;
      td <- py_timedelta 0 hour 0 ;;
      t <- add_timedelta date td ;;
      one <- py_timedelta 0 1 0 ;;
      sub_timedelta t one
  end.

End HourEnding.

Definition of_instant (t : instant) : cell :=
  match t with At t => CTime t | NaT | NoTime => CNull end.

Section AddDatetime.
Context {parser : DatetimeParser}.

(** [df.apply(lambda row: parse_hour_ending(pd.to_datetime(row[base]),
    row["HourEnding"]), axis=1)] on a table that has rows; the timestamps
    are [pd.Timestamp]s. *)
Definition apply_hour_ending (base : string) (df : DataFrame) : result Series :=
  dates <- getitem df base ;;
  hours <- getitem df "HourEnding" ;;
  mapM (fun p : cell * cell =>
          d <- to_datetime_scalar (fst p) ;;
          t <- parse_hour_ending (range := Timestamp_range) d (snd p) ;;
          Ok (of_instant t))
       (combine dates hours).

(** On a table without rows [apply] calls the function on no row and
    returns a copy of the table, which cannot be assigned to one column. *)
Definition hour_ending_pattern (base : string) (df : ref) : M ref :=
  let* d := deref df in
  match rows d with
  | [] =>
      raise (ValueError
        "Cannot set a DataFrame with multiple columns to the single column DATETIME")
  | _ :: _ =>
      let* s := lift (apply_hour_ending base d) in
      let* _ := setitemM df "DATETIME" s in
      ret df
  end.

Definition direct_pattern (col : string) (df : ref) : M ref :=
  let* s := getitemM df col in
  let* ts := lift (to_datetime_series s) in
  let* _ := setitemM df "DATETIME" (map of_time ts) in
  ret df.

Definition add_datetime_column (df : ref) : M ref :=
  let* df := copy df in
  let* d := deref df in
  (* Pattern 1: DeliveryInterval (5-minute intervals) *)
  if has_column "DeliveryInterval" d then
    let* date := getitemM df "DeliveryDate" in
    let* date := lift (to_datetime_series date) in
    let* hour := getitemM df "DeliveryHour" in
    let* hour := lift (to_timedelta_series HOUR hour) in
    let* itv := getitemM df "DeliveryInterval" in
    let* itv := lift (mapM times5 itv) in
    let* itv := lift (to_timedelta_series MINUTE itv) in
    let* _ := setitemM df "DATETIME"
                (map of_time (zip_with add_opt (zip_with add_opt date hour) itv)) in
    ret df
  (* Pattern 2: IntervalEnding (direct timestamp) *)
  else if has_column "IntervalEnding" d then
    direct_pattern "IntervalEnding" df
  (* Pattern 3: OperatingDay + HourEnding *)
  else if has_column "OperatingDay" d && has_column "HourEnding" d then
    hour_ending_pattern "OperatingDay" df
  (* Pattern 4: OperatingDate + HourEnding *)
  else if has_column "OperatingDate" d && has_column "HourEnding" d then
    hour_ending_pattern "OperatingDate" df
  (* Pattern 5: DeliveryDate + DeliveryHour (hourly) *)
  else if has_column "DeliveryHour" d && has_column "DeliveryDate" d then
    let* date := getitemM df "DeliveryDate" in
    let* date := lift (to_datetime_series date) in
    let* hour := getitemM df "DeliveryHour" in
    let* hour := lift (to_timedelta_series HOUR hour) in
    let* _ := setitemM df "DATETIME" (map of_time (zip_with add_opt date hour)) in
    ret df
  (* Pattern 6: DeliveryDate + HourEnding *)
  else if has_column "DeliveryDate" d && has_column "HourEnding" d then
    hour_ending_pattern "DeliveryDate" df
  (* Pattern 7: SCEDTimestamp or SCEDTimeStamp *)
  else if has_column "SCEDTimestamp" d then
    direct_pattern "SCEDTimestamp" df
  else if has_column "SCEDTimeStamp" d then
    direct_pattern "SCEDTimeStamp" df
  else
    let* _ := print "Warning: No datetime columns found in DataFrame" in
    ret df.

Definition normalize_ercot_dataframe (df : ref) : M ref :=
  let* df := normalize_column_names df in
  add_datetime_column df.

End AddDatetime.

End utils.

(** A parser for the two ISO layouts the examples use, ["YYYY-MM-DD"] and
    ["YYYY-MM-DDTHH:MM:SS"]; it stands in for pandas' parser wherever a
    concrete table is evaluated. *)
Definition digits_of (s : string) : option Z := Py.digits 0 false s.

Definition iso_parse (s : string) : option datetime :=
  let field (a n : nat) := digits_of (String.substring a n s) in
  match field 0%nat 4%nat, field 5%nat 2%nat, field 8%nat 2%nat with
  | Some y, Some m, Some d =>
      if (String.length s =? 10)%nat then Some (mk_datetime y m d 0 0)
      else
        match field 11%nat 2%nat, field 14%nat 2%nat, field 17%nat 2%nat with
        | Some hh, Some mm, Some ss =>
            if (String.length s =? 19)%nat
            then Some (mk_datetime y m d hh mm + ss * NS_PER_SECOND)
            else None
        | _, _, _ => None
        end
  | _, _, _ => None
  end.

Definition iso : DatetimeParser := iso_parse.

Definition init (frames : list DataFrame) : state := mkState frames [].

Definition frame_of (st : state) (l : ref) : DataFrame :=
  nth l (heap st) (mkFrame [] []).


(** ** Sorting and grouping of pandas *)

(** The order [sort_values] and [groupby] use inside a column: missing
    values last; numbers, timestamps, dates and strings by their value.
    A column mixing kinds cannot be compared and raises [TypeError]. *)
Definition kind (c : cell) : nat :=
  match c with
  | CNull => 0 | CInt _ => 1 | CStr _ => 2 | CTime _ => 3 | CDate _ => 4
  end%nat.

Definition cell_leb (a b : cell) : bool :=
  match a, b with
  | _, CNull => true
  | CNull, _ => false
  | CInt x, CInt y => x <=? y
  | CTime x, CTime y => x <=? y
  | CDate x, CDate y => x <=? y
  | CStr x, CStr y => String.leb x y
  | _, _ => (kind a <=? kind b)%nat
  end.

Definition same_kind (s : Series) : bool :=
  match filter (fun c => negb (is_null c)) s with
  | [] => true
  | c :: s' => forallb (fun d => (kind d =? kind c)%nat) s'
  end.

Definition comparable (s : Series) : result unit :=
  if same_kind s then Ok tt else Raise TypeError.

Section Sort.
Context {A : Type} (leb : A -> A -> bool).

Fixpoint insert (x : A) (l : list A) : list A :=
  match l with
  | [] => [x]
  | y :: l' => if leb x y then x :: l else y :: insert x l'
  end.

(** A stable sort: among equal elements the earlier stays first. *)
Fixpoint sort (l : list A) : list A :=
  match l with
  | [] => []
  | x :: l' => insert x (sort l')
  end.

End Sort.

(** Rows compared on two columns, the first one deciding. *)
Definition row_leb (i j : nat) (r1 r2 : list cell) : bool :=
  let a1 := cell_at i r1 in
  let a2 := cell_at i r2 in
  if cell_leb a1 a2 then
    if cell_leb a2 a1 then cell_leb (cell_at j r1) (cell_at j r2) else true
  else false.

(** [df.sort_values([k1, k2])] *)
Definition sort_values2 (k1 k2 : string) (df : DataFrame) : result DataFrame :=
  match col_index k1 (columns df) with
  | None => Raise (KeyError k1)
  | Some i =>
      match col_index k2 (columns df) with
      | None => Raise (KeyError k2)
      | Some j =>
          _ <- comparable (map (cell_at i) (rows df)) ;;
          _ <- comparable (map (cell_at j) (rows df)) ;;
          Ok (mkFrame (columns df) (sort (row_leb i j) (rows df)))
      end
  end.

Fixpoint dedup (l : list cell) : list cell :=
  match l with
  | [] => []
  | c :: l' => c :: filter (fun d => negb (cell_eqb d c)) (dedup l')
  end.

(** The group labels of a key column: its distinct values, missing ones
    dropped, in ascending order. *)
Definition group_keys (s : Series) : list cell :=
  sort cell_leb (dedup (filter (fun c => negb (is_null c)) s)).

(** The last value of a column that is not missing. *)
Definition last_valid (s : Series) : cell :=
  fold_left (fun acc c => if is_null c then acc else c) s CNull.

Fixpoint remove_nth {A : Type} (i : nat) (l : list A) : list A :=
  match i, l with
  | _, [] => []
  | O, _ :: l' => l'
  | S i', x :: l' => x :: remove_nth i' l'
  end.

(** [df.groupby(key).last().reset_index()]: one row per group label; every
    other column holds the last non-missing value it has in the group. *)
Definition groupby_last (key : string) (df : DataFrame) : result DataFrame :=
  match col_index key (columns df) with
  | None => Raise (KeyError key)
  | Some i =>
      let keycol := map (cell_at i) (rows df) in
      _ <- comparable keycol ;;
      let others := remove_nth i (seq 0 (List.length (columns df))) in
      let group k := filter (fun r => cell_eqb (cell_at i r) k) (rows df) in
      Ok (mkFrame
            (key :: remove_nth i (columns df))
            (map (fun k =>
                    k :: map (fun j => last_valid (map (cell_at j) (group k))) others)
                 (group_keys keycol)))
  end.

(** *** Joining and arithmetic on columns *)

(** [df.rename(columns={old: new})] *)
Definition rename (old new : string) (df : DataFrame) : DataFrame :=
  mkFrame (map (fun c => if String.eqb c old then new else c) (columns df))
          (rows df).

Definition mem_string (c : string) (l : list string) : bool :=
  existsb (String.eqb c) l.

(** [left.merge(right, on=key, how="left")]: every left row, in order,
    once per right row with the same key, or once with missing values when
    there is none.  A label the two sides share outside the key gets the
    suffix [_x] on the left and [_y] on the right. *)
Definition merge_left (left right : DataFrame) (key : string) : result DataFrame :=
  match col_index key (columns left), col_index key (columns right) with
  | Some i, Some j =>
      let lnames := remove_nth i (columns left) in
      let ridx := remove_nth j (seq 0 (List.length (columns right))) in
      let rnames := remove_nth j (columns right) in
      let shared c := mem_string c lnames && mem_string c rnames in
      let lcols :=
        map (fun c => if negb (String.eqb c key) && shared c
                      then String.append c "_x" else c) (columns left) in
      let rcols :=
        map (fun c => if shared c then String.append c "_y" else c) rnames in
      let joined l :=
        match filter (fun r => cell_eqb (cell_at j r) (cell_at i l)) (rows right) with
        | [] => [l ++ map (fun _ => CNull) ridx]
        | ms => map (fun r => l ++ map (fun k => cell_at k r) ridx) ms
        end in
      Ok (mkFrame (lcols ++ rcols) (flat_map joined (rows left)))
  | _, _ => Raise (KeyError key)
  end.

(** The value a cell contributes to [sum(axis=1)]: missing values are
    skipped. *)
Definition summand (c : cell) : result Z :=
  match c with
  | CInt n => Ok n
  | CNull => Ok 0
  | _ => Raise TypeError
  end.

(** [df[names].sum(axis=1)] on one row. *)
Definition row_sum (df : DataFrame) (names : list string) (row : list cell)
  : result cell :=
  vs <- mapM (fun n => match col_index n (columns df) with
                       | Some i => summand (cell_at i row)
                       | None => Raise (KeyError n)
                       end) names ;;
  Ok (CInt (fold_right Z.add 0 vs)).

(** [a - b] on two cells of numeric columns. *)
Definition sub_cell (a b : cell) : result cell :=
  match a, b with
  | CInt x, CInt y => Ok (CInt (x - y))
  | CNull, (CInt _ | CNull) | CInt _, CNull => Ok CNull
  | _, _ => Raise TypeError
  end.

(** ** server/load.py *)

Module load.

Section Load.
Context {parser : DatetimeParser}.

Definition filter_forecast_by_posted (df : ref) : M ref :=
  let* d := deref df in
  if empty d then ret df
  else
    (* Ensure PostedDatetime is datetime type *)
    let* _ :=
      if has_column "PostedDatetime" d then
        let* s := getitemM df "PostedDatetime" in
        let* ts := lift (to_datetime_series s) in
        setitemM df "PostedDatetime" (map of_time ts)
      else ret tt in
    let* d := deref df in
    let* sorted := lift (sort_values2 "DATETIME" "PostedDatetime" d) in
    let* df := new_frame sorted in
    let* d := deref df in
    let* grouped := lift (groupby_last "DATETIME" d) in
    let* df := new_frame grouped in
    ret df.

(** The publication cutoff of [get_vintage_forecast]: 7am the day before
    [date_to].  It is sent to the server as [postedDatetimeTo]. *)
Definition posted_datetime_cutoff (end_date : datetime) : datetime :=
  end_date - timedelta_of 1 0 0 + timedelta_of 0 7 0.

End Load.

(** *** Net load

    [get_vintage_forecast] reaches the API and, for the load endpoint,
    takes a median over model columns; it is taken here by what it
    returns.  Every frame below is a fresh object no caller holds, so the
    frames are handled as values. *)

Section NetLoad.

Variable get_vintage_forecast : string -> string -> option string -> M DataFrame.

Definition is_cop_hsl (col : string) : bool :=
  Py.contains "COPHSL" col && Py.contains "SystemWide" col.

Definition get_net_load_forecast (date_from : string) (date_to : option string)
  : M DataFrame :=
  (* Log what we're fetching *)
  let* _ :=
    (* [if date_to:] holds for a string that is not empty *)
    match date_to with
    | Some (String _ _ as d) =>
        print ("Getting net load forecast for range: " ++ date_from ++ " to " ++ d)
    | _ => print ("Getting net load forecast for: " ++ date_from)
    end in
  (* Get solar forecast *)
  let* solar_gen := get_vintage_forecast "solar_system_forecast" date_from date_to in
  let solar_cols := filter is_cop_hsl (columns solar_gen) in
  let* solar_gen :=
    match solar_cols with
    | c0 :: _ =>
        let* g := lift (select solar_gen ("DATETIME" :: solar_cols)) in
        ret (rename c0 "SolarHSLSystemWide" g)
    | [] =>
        let* _ := print "Warning: Could not find COPHSLSystemWide column in solar data" in
        let* g := lift (select solar_gen ["DATETIME"]) in
        ret (setitem g "SolarHSLSystemWide" (map (fun _ => CInt 0) (rows g)))
    end in
  (* Get wind forecast *)
  let* wind_gen := get_vintage_forecast "wind_system_forecast" date_from date_to in
  let wind_cols := filter is_cop_hsl (columns wind_gen) in
  let* wind_gen :=
    match wind_cols with
    | c0 :: _ =>
        let* g := lift (select wind_gen ("DATETIME" :: wind_cols)) in
        ret (rename c0 "WindHSLSystemWide" g)
    | [] =>
        let* _ := print "Warning: Could not find COPHSLSystemWide column in wind data" in
        let* g := lift (select wind_gen ["DATETIME"]) in
        ret (setitem g "WindHSLSystemWide" (map (fun _ => CInt 0) (rows g)))
    end in
  (* Get load forecast *)
  let* load_forecast :=
    get_vintage_forecast "ercot_zone_load_forecast" date_from date_to in
  (* Join all forecasts by DATETIME *)
  let* dat := lift (merge_left solar_gen wind_gen "DATETIME") in
  let* dat := lift (merge_left dat load_forecast "DATETIME") in
  (* Calculate total renewables (solar + wind) *)
  let hsl_cols := filter (Py.contains "HSLSystemWide") (columns dat) in
  let* renewables := lift (mapM (row_sum dat hsl_cols) (rows dat)) in
  let dat := setitem dat "Renewables" renewables in
  (* Calculate net load (load - renewables) *)
  let* median := lift (getitem dat "MedianLoadForecast") in
  let* renewables := lift (getitem dat "Renewables") in
  let* net := lift (mapM (fun p => sub_cell (fst p) (snd p)) (combine median renewables)) in
  ret (setitem dat "NetLoad" net).

End NetLoad.

End load.

(** ** Python sequences *)

(** [str(n)] for an integer. *)
Definition str_of_int (n : Z) : string := NilZero.string_of_int (Z.to_int n).

(** [l[i]]: a negative index counts from the end. *)
Definition py_index {A : Type} (l : list A) (i : Z) : result A :=
  let n := Z.of_nat (List.length l) in
  let j := if i <? 0 then n + i else i in
  if (0 <=? j) && (j <? n) then
    match nth_error l (Z.to_nat j) with
    | Some x => Ok x
    | None => Raise IndexError
    end
  else Raise IndexError.

(** The position a slice bound denotes in a list of length [n]. *)
Definition slice_bound (n i : Z) : Z :=
  if i <? 0 then Z.max 0 (n + i) else Z.min i n.

(** [l[a:b]] *)
Definition py_slice {A : Type} (l : list A) (a b : Z) : list A :=
  let n := Z.of_nat (List.length l) in
  let a' := slice_bound n a in
  let b' := slice_bound n b in
  firstn (Z.to_nat (b' - a')) (skipn (Z.to_nat a') l).

(** [range(a, b)] *)
Definition py_range (a b : Z) : list Z :=
  map (fun j => a + Z.of_nat j) (seq 0 (Z.to_nat (b - a))).

(** [sorted(l)]: the elements must be comparable with each other. *)
Definition py_sorted (l : list cell) : result (list cell) :=
  match l with
  | [] => Ok []
  | c :: l' =>
      if forallb (fun d => (kind d =? kind c)%nat) l'
      then Ok (sort cell_leb l)
      else Raise TypeError
  end.

(** [series.unique()]: the distinct values in order of first appearance. *)
Definition unique (s : Series) : list cell := dedup s.

(** [x in l] *)
Definition cell_in (x : cell) (l : list cell) : bool :=
  existsb (cell_eqb x) l.

(** ** server/forecasting.py *)

Module forecasting.

Section Forecasting.
Context {parser : DatetimeParser}.

(** [.dt.date] *)
Definition dt_date (t : option datetime) : cell :=
  match t with
  | Some t => CDate (date_of t)
  | None => CNull
  end.

(** [data[mask]] for a mask computed from the [Date] column. *)
Definition rows_where (p : cell -> bool) (df : DataFrame) : result DataFrame :=
  match col_index "Date" (columns df) with
  | None => Raise (KeyError "Date")
  | Some i => Ok (mkFrame (columns df) (filter (fun r => p (cell_at i r)) (rows df)))
  end.

Definition split : Type := ref * ref * cell.

(** The body of the loop for the index [i]; [None] when the split is not
    appended. *)
Definition split_at (data : ref) (unique_dates : list cell)
    (initial_training_days : Z) (expanding_window : bool) (i : Z)
  : M (option split) :=
  let* test_date := lift (py_index unique_dates i) in
  let train_dates :=
    if expanding_window then
      (* Expanding window: use all data from start to day before test *)
      py_slice unique_dates 0 i
    else
      (* Fixed window: use last initial_training_days before test *)
      let start_idx := Z.max 0 (i - initial_training_days) in
      py_slice unique_dates start_idx i in
  let* d := deref data in
  let* train := lift (rows_where (fun c => cell_in c train_dates) d) in
  let* train_data := new_frame train in
  let* d := deref data in
  let* test := lift (rows_where (fun c => cell_eqb c test_date) d) in
  let* test_data := new_frame test in
  if (0 <? List.length (rows train))%nat && (0 <? List.length (rows test))%nat
  then ret (Some (train_data, test_data, test_date))
  else ret None.

Fixpoint somes {A : Type} (l : list (option A)) : list A :=
  match l with
  | [] => []
  | Some x :: l' => x :: somes l'
  | None :: l' => somes l'
  end.

Definition create_rolling_splits (data : ref) (initial_training_days : Z)
    (expanding_window : bool) : M (list split) :=
  (* Ensure data has Date column *)
  let* d := deref data in
  let* _ :=
    if negb (has_column "Date" d) then
      let* s := getitemM data "DATETIME" in
      let* ts := lift (to_datetime_series s) in
      setitemM data "Date" (map dt_date ts)
    else ret tt in
  let* dates := getitemM data "Date" in
  let* unique_dates := lift (py_sorted (unique dates)) in
  let n_dates := Z.of_nat (List.length unique_dates) in
  if n_dates <=? initial_training_days then
    raise (ValueError
      ("Not enough days in data. Need more than "
       ++ str_of_int initial_training_days ++ " days, but only have "
       ++ str_of_int n_dates ++ " days."))
  else
    let* splits :=
      forM (split_at data unique_dates initial_training_days expanding_window)
           (py_range initial_training_days n_dates) in
    ret (somes splits).

End Forecasting.

(** *** Rolling cross-validation

    The data source, the regression and the error measures are external
    capabilities; the loop over the splits is the code's own. *)

Section RollingCV.
Context {parser : DatetimeParser}.

(** Lines 292-310: the net-load and price series, joined on [DATETIME],
    with a [Date] column, sorted; fetched through the API client. *)
Variable load_all_data : M ref.

(** The regression capability: the polynomial features of [NetLoad]
    ([np.column_stack] of its powers), [LinearRegression().fit] and
    [model.predict]. *)
Variable features : Type.
Variable model : Type.
Variable polynomial_features : DataFrame -> result features.
Variable fit : features -> Series -> result model.
Variable predict : model -> features -> result Series.

(** MAE, RMSE and R-squared of predictions against observations. *)
Variable metrics : Type.
Variable score : Series -> Series -> result metrics.

Definition exn_text (e : exn) : string :=
  match e with
  | KeyError k => k
  | ValueError m => m
  | IndexError => "list index out of range"
  | TypeError => "unsupported operand type(s)"
  | OverflowError => "date value out of range"
  end.

Record daily_metric : Type := mkDaily {
  dm_date : cell;
  dm_metrics : metrics;
  dm_hours : nat
}.

(** The statements of the [try] block up to and including
    [test_results["PredictedLambda"] = y_pred]. *)
Definition predict_split (s : split) : M (ref * Series * Series) :=
  let '(train_data, test_data, _) := s in
  let* train := deref train_data in
  let* test := deref test_data in
  let* X_train := lift (polynomial_features train) in
  let* y_train := lift (getitem train "SystemLambda") in
  let* model := lift (fit X_train y_train) in
  let* X_test := lift (polynomial_features test) in
  let* y_test := lift (getitem test "SystemLambda") in
  let* y_pred := lift (predict model X_test) in
  let* sel := lift (select test ["DATETIME"; "Date"; "SystemLambda"; "NetLoad"]) in
  let* test_results := new_frame sel in
  let* _ := setitemM test_results "PredictedLambda" y_pred in
  ret (test_results, y_test, y_pred).

(** One iteration: [all_predictions] and [daily_metrics] are the two lists
    the loop appends to.  An exception leaves the lists as they are at the
    point where it is raised, prints it, and the loop continues. *)
Definition cv_step (acc : list ref * list daily_metric) (s : split)
  : M (list ref * list daily_metric) :=
  fun st =>
    let '(all_predictions, daily_metrics) := acc in
    match predict_split s st with
    | (Raise e, st1) =>
        (let* _ := print ("Error: " ++ exn_text e) in ret acc) st1
    | (Ok (test_results, y_test, y_pred), st1) =>
        let all_predictions := all_predictions ++ [test_results] in
        match score y_test y_pred with
        | Raise e =>
            (let* _ := print ("Error: " ++ exn_text e) in
             ret (all_predictions, daily_metrics)) st1
        | Ok m =>
            let '(_, test_data, test_date) := s in
            (let* test := deref test_data in
             ret (all_predictions,
                  daily_metrics ++ [mkDaily test_date m (List.length (rows test))]))
              st1
        end
    end.

Fixpoint foldM {A B : Type} (f : A -> B -> M A) (a : A) (l : list B) : M A :=
  match l with
  | [] => ret a
  | x :: l' => let* a' := f a x in foldM f a' l'
  end.

(** [pd.concat(frames, ignore_index=True)] for frames with the same
    columns. *)
Definition concat (frames : list DataFrame) : result DataFrame :=
  match frames with
  | [] => Raise (ValueError "No objects to concatenate")
  | df :: _ => Ok (mkFrame (columns df) (flat_map rows frames))
  end.

Record cv_result : Type := mkCV {
  predictions : ref;
  cv_daily_metrics : list daily_metric;
  overall_performance : metrics;
  total_hours : nat;
  forecast_days : nat
}.

Definition rolling_forecast_cv (initial_training_days : Z)
    (expanding_window : bool) : M cv_result :=
  let* all_data := load_all_data in
  (* Create rolling splits *)
  let* splits :=
    create_rolling_splits all_data initial_training_days expanding_window in
  (* Run cross-validation *)
  let* acc := foldM cv_step ([], []) splits in
  let '(all_predictions, daily_metrics) := acc in
  (* Combine all predictions *)
  let* frames := forM deref all_predictions in
  let* all_predictions_df := lift (concat frames) in
  let* out := new_frame all_predictions_df in
  (* Calculate overall performance *)
  let* y := lift (getitem all_predictions_df "SystemLambda") in
  let* y_hat := lift (getitem all_predictions_df "PredictedLambda") in
  let* overall := lift (score y y_hat) in
  ret (mkCV out daily_metrics overall
            (List.length (rows all_predictions_df))
            (List.length daily_metrics)).

End RollingCV.

End forecasting.

(** ** Python dictionaries

    A [dict] keeps its keys in insertion order; assigning to a key it has
    replaces the value where the key stands. *)

Definition dict (V : Type) : Type := list (string * V).

Fixpoint dict_get {V : Type} (k : string) (d : dict V) : option V :=
  match d with
  | [] => None
  | (k', v) :: d' => if String.eqb k' k then Some v else dict_get k d'
  end.

(** [d[k] = v] *)
Fixpoint dict_set {V : Type} (k : string) (v : V) (d : dict V) : dict V :=
  match d with
  | [] => [(k, v)]
  | (k', v') :: d' =>
      if String.eqb k' k then (k, v) :: d' else (k', v') :: dict_set k v d'
  end.

Definition dict_keys {V : Type} (d : dict V) : list string := map fst d.

(** [sep.join(parts)] *)
Fixpoint join_with (sep : string) (parts : list string) : string :=
  match parts with
  | [] => EmptyString
  | [p] => p
  | p :: ps => String.append p (String.append sep (join_with sep ps))
  end.

(** The values passed as keyword arguments. *)
Inductive pyval : Type :=
| VNone
| VStr (s : string)
| VInt (n : Z).

(** [str(v)] *)
Definition py_str (v : pyval) : string :=
  match v with
  | VNone => "None"
  | VStr s => s
  | VInt n => str_of_int n
  end.

(** ** server/utils.py: query parameters *)

Module query.

Definition validate_parameters (endpoint_name : string) (params : dict string)
    (valid_params : list string) : M (dict string) :=
  let '(filtered, skipped) :=
    fold_left
      (fun (acc : dict string * list string) (kv : string * string) =>
         let '(filtered, skipped) := acc in
         let '(key, value) := kv in
         (* size/offset are always valid *)
         if mem_string key valid_params || mem_string key ["size"; "offset"]
         then (dict_set key value filtered, skipped)
         else (filtered, skipped ++ [key]))
      params ([], []) in
  let* _ :=
    match skipped with
    | [] => ret tt
    | _ =>
        print ("Warning: Skipped invalid parameters for " ++ endpoint_name
               ++ ": " ++ join_with ", " skipped)
    end in
  ret filtered.

Definition build_query_params (endpoint_name date_key date_from : string)
    (date_to : option string) (kwargs : dict pyval) : dict string :=
  let params := [] in
  (* Add date parameters based on date_key *)
  let date_from_param := String.append date_key "From" in
  let date_to_param := String.append date_key "To" in
  let params := dict_set date_from_param date_from params in
  let params :=
    dict_set date_to_param
      (match date_to with
       | Some d => if Py.nonempty d then d else date_from
       | None => date_from
       end) params in
  (* Add any additional parameters *)
  fold_left
    (fun params (kv : string * pyval) =>
       match snd kv with
       | VNone => params
       | value => dict_set (fst kv) (py_str value) params
       end)
    kwargs params.

End query.

(** ** server/endpoints.py *)

Module endpoints.

Record EndpointSpec : Type := mkSpec {
  name : string;
  date_key : string;
  url : string;
  summary : string;
  category : string;
  valid_parameters : list string
}.

Definition ANNOTATED_ENDPOINTS : dict (string * string) :=
  [ ("da_prices",
     ("deliveryDate",
      "https://api.ercot.com/api/public-reports/np4-190-cd/dam_stlmnt_pnt_prices"));
    ("rt_prices",
     ("deliveryDate",
      "https://api.ercot.com/api/public-reports/np6-905-cd/spp_node_zone_hub"));
    ("ancillary_prices",
     ("deliveryDate",
      "https://api.ercot.com/api/public-reports/np4-188-cd/dam_clear_price_for_cap"));
    ("da_system_lambda",
     ("deliveryDate",
      "https://api.ercot.com/api/public-reports/np4-523-cd/dam_system_lambda"));
    ("rt_system_lambda",
     ("SCEDTimestamp",
      "https://api.ercot.com/api/public-reports/np6-322-cd/sced_system_lambda"));
    ("ercot_load_forecast",
     ("deliveryDate",
      "https://api.ercot.com/api/public-reports/np3-566-cd/lf_by_model_study_area"));
    ("ercot_zone_load_forecast",
     ("deliveryDate",
      "https://api.ercot.com/api/public-reports/np3-565-cd/lf_by_model_weather_zone"));
    ("solar_system_forecast",
     ("deliveryDate",
      "https://api.ercot.com/api/public-reports/np4-737-cd/spp_hrly_avrg_actl_fcast"));
    ("wind_system_forecast",
     ("deliveryDate",
      "https://api.ercot.com/api/public-reports/np4-732-cd/wpp_hrly_avrg_actl_fcast"));
    ("ercot_outages",
     ("operatingDate",
      "https://api.ercot.com/api/public-reports/np3-233-cd/hourly_res_outage_cap"));
    ("binding_constraints",
     ("deliveryDate",
      "https://api.ercot.com/api/public-reports/np6-86-cd/shdw_prices_bnd_trns_const"));
    ("ercot_actual_load",
     ("operatingDay",
      "https://api.ercot.com/api/public-reports/np6-345-cd/act_sys_load_by_wzn"));
    ("wind_prod_5min",
     ("intervalEnding",
      "https://api.ercot.com/api/public-reports/np4-733-cd/wpp_actual_5min_avg_values"));
    ("solar_prod_5min",
     ("intervalEnding",
      "https://api.ercot.com/api/public-reports/np4-738-cd/spp_actual_5min_avg_values"));
    ("sixty_dam_energy_only_offers",
     ("deliveryDate",
      "https://api.ercot.com/api/public-reports/np3-966-er/60_dam_energy_only_offers"));
    ("sixty_dam_awards",
     ("deliveryDate",
      "https://api.ercot.com/api/public-reports/np3-966-er/60_dam_energy_only_offer_awards"));
    ("energybids",
     ("deliveryDate",
      "https://api.ercot.com/api/public-reports/np3-966-er/60_dam_energy_bids"));
    ("gen_data",
     ("deliveryDate",
      "https://api.ercot.com/api/public-reports/np3-966-er/60_dam_gen_res_data"));
    ("twodayAS",
     ("deliveryDate",
      "https://api.ercot.com/api/public-reports/np3-911-er/2d_agg_as_offers_ecrsm"));
    ("sced_gen_data",
     ("SCEDTimestamp",
      "https://api.ercot.com/api/public-reports/np3-965-er/60_sced_gen_res_data"));
    ("sced_energy_only_offers",
     ("deliveryDate",
      "https://api.ercot.com/api/public-reports/np3-966-er/60_dam_energy_only_offers"));
    ("sced_gen_as_data",
     ("deliveryDate",
      "https://api.ercot.com/api/public-reports/np3-966-er/60_dam_gen_res_as_offers"));
    ("sced_load_data",
     ("deliveryDate",
      "https://api.ercot.com/api/public-reports/np3-966-er/60_dam_load_res_data")) ].

Definition ENDPOINT_CATEGORIES : dict (list string) :=
  [ ("prices",
     ["da_prices"; "rt_prices"; "ancillary_prices"; "da_system_lambda";
      "rt_system_lambda"]);
    ("forecasts",
     ["ercot_load_forecast"; "ercot_zone_load_forecast"; "solar_system_forecast";
      "wind_system_forecast"]);
    ("actuals", ["ercot_actual_load"; "wind_prod_5min"; "solar_prod_5min"]);
    ("market_data",
     ["sixty_dam_energy_only_offers"; "sixty_dam_awards"; "energybids";
      "gen_data"; "twodayAS"; "sced_gen_data"; "sced_energy_only_offers";
      "sced_gen_as_data"; "sced_load_data"]);
    ("other", ["ercot_outages"; "binding_constraints"]) ].

Definition ENDPOINT_SUMMARIES : dict string :=
  [ ("da_prices", "Day-ahead market settlement point prices (hourly)");
    ("rt_prices", "Real-time settlement point prices (5-minute)");
    ("ancillary_prices", "Day-ahead ancillary service clearing prices");
    ("da_system_lambda", "Day-ahead system-wide lambda (energy price)");
    ("rt_system_lambda", "Real-time SCED system lambda (5-minute)");
    ("ercot_load_forecast", "System-wide load forecast by model");
    ("ercot_zone_load_forecast", "Weather zone load forecast by model");
    ("solar_system_forecast", "System-wide solar generation forecast and actuals");
    ("wind_system_forecast", "System-wide wind generation forecast and actuals");
    ("ercot_outages", "Hourly resource outage capacity");
    ("binding_constraints", "Shadow prices for binding transmission constraints");
    ("ercot_actual_load", "Actual system load by weather zone");
    ("wind_prod_5min", "Actual wind production (5-minute averages)");
    ("solar_prod_5min", "Actual solar production (5-minute averages)");
    ("sixty_dam_energy_only_offers", "60-day DAM energy-only offers");
    ("sixty_dam_awards", "60-day DAM energy-only offer awards");
    ("energybids", "60-day DAM energy bids");
    ("gen_data", "60-day DAM generation resource data (includes virtual awards)");
    ("twodayAS", "2-day aggregated ancillary service offers");
    ("sced_gen_data", "60-day SCED generation resource data");
    ("sced_energy_only_offers", "60-day SCED energy-only offers");
    ("sced_gen_as_data", "60-day DAM generation resource AS offers");
    ("sced_load_data", "60-day DAM load resource data") ].

Definition COMMON_PARAMETERS : dict (list string) :=
  [ ("deliveryDate",
     ["deliveryDateFrom"; "deliveryDateTo"; "settlementPoint"; "size";
      "postedDatetimeFrom"; "postedDatetimeTo"]);
    ("operatingDay", ["operatingDayFrom"; "operatingDayTo"; "size"]);
    ("operatingDate", ["operatingDateFrom"; "operatingDateTo"; "size"]);
    ("SCEDTimestamp",
     ["SCEDTimestampFrom"; "SCEDTimestampTo"; "resourceType"; "size"]);
    ("intervalEnding", ["intervalEndingFrom"; "intervalEndingTo"; "size"]) ].

Definition get_endpoint_spec (endpoint_name : string) : result EndpointSpec :=
  match dict_get endpoint_name ANNOTATED_ENDPOINTS with
  | None =>
      Raise (ValueError
        ("Unknown endpoint: " ++ endpoint_name ++ ". Available: "
         ++ join_with ", " (dict_keys ANNOTATED_ENDPOINTS)))
  | Some (date_key, url) =>
      let category :=
        match find (fun ce : string * list string => mem_string endpoint_name (snd ce))
                   ENDPOINT_CATEGORIES with
        | Some (cat, _) => cat
        | None => "other"
        end in
      Ok (mkSpec endpoint_name date_key url
            (match dict_get endpoint_name ENDPOINT_SUMMARIES with
             | Some s => s
             | None => EmptyString
             end)
            category
            (match dict_get date_key COMMON_PARAMETERS with
             | Some ps => ps
             | None => []
             end))
  end.

Definition list_endpoints (category : string) : result (list EndpointSpec) :=
  endpoint_names <-
    (if String.eqb category "all" then Ok (dict_keys ANNOTATED_ENDPOINTS)
     else
       match dict_get category ENDPOINT_CATEGORIES with
       | Some names => Ok names
       | None =>
           Raise (ValueError
             ("Unknown category: " ++ category ++ ". Available: "
              ++ join_with ", " (dict_keys ENDPOINT_CATEGORIES ++ ["all"])))
       end) ;;
  mapM get_endpoint_spec endpoint_names.

Definition validate_endpoint (endpoint_name : string) : bool :=
  match dict_get endpoint_name ANNOTATED_ENDPOINTS with
  | Some _ => true
  | None => false
  end.

Definition get_date_key (endpoint_name : string) : result string :=
  match dict_get endpoint_name ANNOTATED_ENDPOINTS with
  | Some (date_key, _) => Ok date_key
  | None => Raise (ValueError ("Unknown endpoint: " ++ endpoint_name))
  end.

Definition get_url (endpoint_name : string) : result string :=
  match dict_get endpoint_name ANNOTATED_ENDPOINTS with
  | Some (_, url) => Ok url
  | None => Raise (ValueError ("Unknown endpoint: " ++ endpoint_name))
  end.

End endpoints.

(** ** server/client.py *)

Module client.

(** The JSON object the API answers with: the rows under ["data"] and the
    column names under ["fields"], either of which may be absent. *)
Record response : Type := mkResponse {
  fields : option (list string);
  data : option (list (list cell))
}.

Definition pad (width : nat) (row : list cell) : list cell :=
  row ++ repeat CNull (width - List.length row).

Definition width_of (data : list (list cell)) : nat :=
  fold_right (fun row w => Nat.max (List.length row) w) O data.

(** [pd.DataFrame(data, columns=columns)]: short rows are filled with
    missing values; the number of labels must be the width of the data. *)
Definition frame_with_columns (data : list (list cell)) (columns : list string)
  : result DataFrame :=
  if (width_of data =? List.length columns)%nat
  then Ok (mkFrame columns (map (pad (width_of data)) data))
  else Raise (ValueError "columns passed do not match the data").

(** [pd.DataFrame(data)]: the labels are the positions. *)
Definition frame_default (data : list (list cell)) : DataFrame :=
  mkFrame (map (fun i => str_of_int (Z.of_nat i)) (seq 0 (width_of data)))
          (map (pad (width_of data)) data).

Section Client.
Context {parser : DatetimeParser}.

(** The authenticated GET request; it raises on an HTTP error or a
    timeout. *)
Variable ercot_api_call : string -> dict string -> M response.

Definition parse_ercot_response (resp : response) : M ref :=
  (* Check for data key; the message goes on with the keys the response
     has, which the record does not keep *)
  match data resp with
  | None => raise (ValueError "Expected 'data' key in response.")
  | Some [] =>
      (* Handle empty response *)
      new_frame (mkFrame [] [])
  | Some rows =>
      (* Extract column names from fields metadata *)
      let* df :=
        match fields resp with
        | Some columns =>
            let* d := lift (frame_with_columns rows columns) in new_frame d
        | None => new_frame (frame_default rows)
        end in
      (* Normalize the DataFrame *)
      utils.normalize_ercot_dataframe df
  end.

(** The keywords [fetch_data] itself passes to [build_query_params]; one of
    them given again among the extra keywords is a [TypeError]. *)
Definition reserved_keywords : list string :=
  ["endpoint_name"; "date_key"; "date_from"; "date_to"; "settlementPoint";
   "resourceType"; "size"].

Definition opt_str (s : option string) : pyval :=
  match s with Some s => VStr s | None => VNone end.

Definition fetch_data (endpoint_name date_from : string) (date_to : option string)
    (settlement_point resource_type : option string) (size : Z)
    (kwargs : dict pyval) : M ref :=
  (* Validate endpoint *)
  if negb (endpoints.validate_endpoint endpoint_name) then
    raise (ValueError
      ("Unknown endpoint: " ++ endpoint_name
       ++ ". Use list_endpoints() to see available endpoints."))
  else
    (* Get endpoint specification *)
    let* spec := lift (endpoints.get_endpoint_spec endpoint_name) in
    (* Build query parameters *)
    let* params :=
      if existsb (fun k => mem_string k reserved_keywords) (dict_keys kwargs)
      then raise TypeError
      else ret (query.build_query_params endpoint_name
                  (endpoints.date_key spec) date_from date_to
                  ([("settlementPoint", opt_str settlement_point);
                    ("resourceType", opt_str resource_type);
                    ("size", VInt size)] ++ kwargs)) in
    (* Validate parameters *)
    let* params :=
      query.validate_parameters endpoint_name params
        (endpoints.valid_parameters spec) in
    (* Make API call *)
    let* resp := ercot_api_call (endpoints.url spec) params in
    (* Parse response *)
    parse_ercot_response resp.

End Client.

End client.

(** ** server/auth.py

    The clock and the number of token requests sent are part of the
    world; the token endpoint is taken by what it answers and by the time
    the request takes. *)

Module auth.

Record ErcotToken : Type := mkToken {
  expires_in : string;
  token_type : string;
  refresh_token : string;
  id_token : string;
  access_token : string;
  acquired_at : datetime
}.

Record ErcotAuth : Type := mkAuth {
  _token : option ErcotToken;
  now : datetime;            (* what [datetime.now()] reads *)
  requests_sent : nat        (* POST requests to the token endpoint *)
}.

Definition TOKEN_LIFETIME : timedelta := timedelta_of 0 1 0.

Section Auth.

(** What the token endpoint answers to the n-th request, without the time
    stamp, and how long the request takes. *)
Variable token_response : nat -> result ErcotToken.
Variable latency : nat -> timedelta.

Definition get_auth_token (a : ErcotAuth) : result ErcotToken * ErcotAuth :=
  let n := requests_sent a in
  (token_response n, mkAuth (_token a) (now a + latency n) (S n)).

Definition fetch_new_token (a : ErcotAuth) : result ErcotToken * ErcotAuth :=
  match get_auth_token a with
  | (Ok token_data, a') =>
      (Ok (mkToken (expires_in token_data) (token_type token_data)
                   (refresh_token token_data) (id_token token_data)
                   (access_token token_data) (now a')), a')
  | (Raise e, a') => (Raise e, a')
  end.

Definition is_token_valid (a : ErcotAuth) : bool :=
  match _token a with
  | None => false
  | Some t =>
      if negb (Py.nonempty (id_token t)) then false
      else
        let time_since_acquired := now a - acquired_at t in
        time_since_acquired <? TOKEN_LIFETIME
  end.

Definition get_valid_token (a : ErcotAuth) : result string * ErcotAuth :=
  if negb (is_token_valid a) then
    match fetch_new_token a with
    | (Ok t, a') =>
        (Ok (id_token t), mkAuth (Some t) (now a') (requests_sent a'))
    | (Raise e, a') => (Raise e, a')
    end
  else
    match _token a with
    | Some t => (Ok (id_token t), a)
    | None => (Raise TypeError, a)
    end.

Definition get_auth_headers (a : ErcotAuth) : result (dict string) * ErcotAuth :=
  match get_valid_token a with
  | (Ok tok, a') => (Ok [("Authorization", String.append "Bearer " tok)], a')
  | (Raise e, a') => (Raise e, a')
  end.

End Auth.

End auth.

(** ** server/main.py: the table sent back to the caller *)

Module main.

(** The object [df_to_json_string] serialises; [json.dumps] itself is not
    modelled. *)
Record json_table : Type := mkJson {
  warning : option string;
  shape_rows : nat;
  shape_columns : nat;
  json_columns : list string;
  json_data : list (list cell)
}.

(** [df.head(n)] *)
Definition head (n : Z) (df : DataFrame) : list (list cell) :=
  py_slice (rows df) 0 n.

Definition df_to_json_string (df : DataFrame) (max_rows : Z) : json_table :=
  let len := List.length (rows df) in
  if Z.of_nat len >? max_rows then
    mkJson
      (Some ("Result truncated to " ++ str_of_int max_rows ++ " rows (total: "
             ++ str_of_int (Z.of_nat len) ++ " rows)")%string)
      len (List.length (columns df)) (columns df) (head max_rows df)
  else
    mkJson None len (List.length (columns df)) (columns df) (rows df).

End main.

(** ** server/load.py: the vintage forecast

    [get_vintage_forecast] with the keywords [settlement_point],
    [resource_type] and [size], which Python binds to the parameters of
    [fetch_data], taken apart from the other keywords. *)

Module vintage.

(** The elements of [l] at the positions where [mask] holds. *)
Fixpoint keep_where {A : Type} (mask : list bool) (l : list A) : list A :=
  match mask, l with
  | b :: mask', x :: l' =>
      if b then x :: keep_where mask' l' else keep_where mask' l'
  | _, _ => []
  end.

(** [df.drop(columns=names)]: every column with one of the labels goes. *)
Definition drop (names : list string) (df : DataFrame) : DataFrame :=
  let mask := map (fun c => negb (mem_string c names)) (columns df) in
  mkFrame (keep_where mask (columns df)) (map (keep_where mask) (rows df)).

Section Vintage.
Context {parser : DatetimeParser}.

Variable ercot_api_call : string -> dict string -> M client.response.

(** [datetime.strptime(s, "%Y-%m-%d")] and
    [.strftime("%Y-%m-%dT%H:%M:%S")] of the standard library. *)
Variable strptime : string -> result datetime.
Variable strftime : datetime -> string.

(** Lines 113-145: the median over the load models, a pivot and a median
    of pandas on floating-point numbers. *)
Variable median_load_forecast : ref -> M ref.

(** What [get_vintage_forecast] does with the table fetched. *)
Definition select_vintage (endpoint_name : string) (dat : ref) : M ref :=
  let* d := deref dat in
  if empty d then ret dat
  (* Special handling for load forecast endpoint *)
  else if String.eqb endpoint_name "ercot_zone_load_forecast" then
    median_load_forecast dat
  else
    (* For solar and wind, just filter by posted datetime *)
    let* datout := load.filter_forecast_by_posted dat in
    (* Drop unnecessary columns if they exist *)
    let* d := deref datout in
    let drop_cols := ["DSTFlag"; "HourEnding"; "DeliveryDate"] in
    let cols_to_drop := filter (fun col => has_column col d) drop_cols in
    match cols_to_drop with
    | [] => ret datout
    | _ => new_frame (drop cols_to_drop d)
    end.

Definition get_vintage_forecast (endpoint_name date_from : string)
    (date_to : option string) (settlement_point resource_type : option string)
    (size : Z) (kwargs : dict pyval) : M ref :=
  let date_to := match date_to with Some d => d | None => date_from end in
  (* Calculate posted datetime cutoff (7am the day before date_to) *)
  let* end_date := lift (strptime date_to) in
  let posted_datetime_cutoff := strftime (load.posted_datetime_cutoff end_date) in
  (* Fetch the data with postedDatetimeTo filter *)
  let* dat :=
    if existsb (fun k => mem_string k
                  ["endpoint_name"; "date_from"; "date_to"; "postedDatetimeTo"])
               (dict_keys kwargs)
    then raise TypeError
    else
      client.fetch_data ercot_api_call endpoint_name date_from (Some date_to)
        settlement_point resource_type size
        (("postedDatetimeTo", VStr posted_datetime_cutoff) :: kwargs) in
  select_vintage endpoint_name dat.

End Vintage.

End vintage.
(** * Properties *)

(** ** Evaluation on the tables of the test suite *)

Example parse_hour_ending_13 :
  utils.parse_hour_ending (range := datetime_range)
    (At (mk_datetime 2024 1 1 0 0)) (CStr "13:00")
  = Ok (At (mk_datetime 2024 1 1 12 0)).
Proof. vm_compute. reflexivity. Qed.

Example to_pascal_case_examples :
  map utils.to_pascal_case
    ["settlementPointPrice"; "delivery_date"; "Hour Ending"; "Column One-Two";
     "DeliveryDate"; "SCEDTimestamp"; "1_a_b"; "1AB"]
  = ["SettlementPointPrice"; "DeliveryDate"; "HourEnding"; "ColumnOneTwo";
     "DeliveryDate"; "SCEDTimestamp"; "1AB"; "1Ab"].
Proof. vm_compute. reflexivity. Qed.

Example add_datetime_delivery_interval :
  let df := mkFrame ["DeliveryDate"; "DeliveryHour"; "DeliveryInterval"]
                    [[CStr "2024-01-01"; CInt 1; CInt 0]] in
  let '(r, st) := utils.add_datetime_column (parser := iso) 0%nat (init [df]) in
  r = Ok 1%nat /\
  getitem (frame_of st 1%nat) "DATETIME" = Ok [CTime (mk_datetime 2024 1 1 1 0)] /\
  frame_of st 0%nat = df.
Proof. vm_compute. auto. Qed.

Example add_datetime_delivery_hour :
  let df := mkFrame ["DeliveryDate"; "DeliveryHour"]
                    [[CStr "2024-01-01"; CInt 13]] in
  let '(r, st) := utils.add_datetime_column (parser := iso) 0%nat (init [df]) in
  getitem (frame_of st 1%nat) "DATETIME" = Ok [CTime (mk_datetime 2024 1 1 13 0)].
Proof. vm_compute. auto. Qed.

Example add_datetime_no_columns :
  let df := mkFrame ["SomeColumn"] [[CInt 1]; [CInt 2]; [CInt 3]] in
  let '(r, st) := utils.add_datetime_column (parser := iso) 0%nat (init [df]) in
  has_column "DATETIME" (frame_of st 1%nat) = false /\
  stdout st = ["Warning: No datetime columns found in DataFrame"].
Proof. vm_compute. auto. Qed.

Example filter_forecast_by_posted_small :
  let df := mkFrame ["DATETIME"; "PostedDatetime"; "COPHSLSystemWide"]
    [[CTime 20; CStr "2024-01-01T05:00:00"; CInt 7];
     [CTime 10; CStr "2024-01-01T06:00:00"; CInt 1];
     [CTime 10; CStr "2024-01-01T07:00:00"; CNull];
     [CTime 20; CStr "2024-01-01T04:00:00"; CInt 8]] in
  let '(r, st) := load.filter_forecast_by_posted (parser := iso) 0%nat (init [df]) in
  r = Ok 2%nat /\
  frame_of st 2%nat =
    mkFrame ["DATETIME"; "PostedDatetime"; "COPHSLSystemWide"]
      [[CTime 10; CTime (mk_datetime 2024 1 1 7 0); CInt 1];
       [CTime 20; CTime (mk_datetime 2024 1 1 5 0); CInt 7]].
Proof. vm_compute. auto. Qed.

Definition five_days : DataFrame :=
  mkFrame ["DATETIME"; "NetLoad"]
    [[CTime (mk_datetime 2024 2 1 1 0); CInt 10];
     [CTime (mk_datetime 2024 2 1 2 0); CInt 11];
     [CTime (mk_datetime 2024 2 2 1 0); CInt 20];
     [CTime (mk_datetime 2024 2 3 1 0); CInt 30];
     [CTime (mk_datetime 2024 2 4 1 0); CInt 40];
     [CTime (mk_datetime 2024 2 5 1 0); CInt 50]].

Example create_rolling_splits_fixed :
  let '(r, st) :=
    forecasting.create_rolling_splits (parser := iso) 0%nat 2 false (init [five_days]) in
  exists d3 d4 d5,
  r = Ok [(1, 2, CDate d3); (3, 4, CDate d4); (5, 6, CDate d5)]%nat /\
  getitem (frame_of st 3%nat) "NetLoad" = Ok [CInt 20; CInt 30] /\
  getitem (frame_of st 4%nat) "NetLoad" = Ok [CInt 40] /\
  getitem (frame_of st 5%nat) "NetLoad" = Ok [CInt 30; CInt 40].
Proof. vm_compute. eauto 10. Qed.

Example create_rolling_splits_insufficient :
  fst (forecasting.create_rolling_splits (parser := iso) 0%nat 10 true (init [five_days]))
  = Raise (ValueError
      "Not enough days in data. Need more than 10 days, but only have 5 days.").
Proof. vm_compute. reflexivity. Qed.

Definition sample_vintage (endpoint : string) (_ : string) (_ : option string)
  : M DataFrame :=
  if String.eqb endpoint "solar_system_forecast" then
    ret (mkFrame ["DATETIME"; "COPHSLSystemWide"; "GenerationSystemWide"]
                 [[CTime 1; CInt 3000; CInt 5]; [CTime 2; CInt 100; CNull]])
  else if String.eqb endpoint "wind_system_forecast" then
    ret (mkFrame ["COPHSLSystemWide"; "DATETIME"]
                 [[CInt 7000; CTime 1]])
  else
    ret (mkFrame ["DATETIME"; "MedianLoadForecast"]
                 [[CTime 1; CInt 50000]; [CTime 2; CInt 40000]]).

Example get_net_load_forecast_sample :
  fst (load.get_net_load_forecast sample_vintage "2024-02-01" None (init []))
  = Ok (mkFrame
          ["DATETIME"; "SolarHSLSystemWide"; "WindHSLSystemWide";
           "MedianLoadForecast"; "Renewables"; "NetLoad"]
          [[CTime 1; CInt 3000; CInt 7000; CInt 50000; CInt 10000; CInt 40000];
           [CTime 2; CInt 100; CNull; CInt 40000; CInt 100; CInt 39900]]).
Proof. vm_compute. reflexivity. Qed.

(** ** Hour-ending resolution *)

Lemma timedelta_hours (n : Z) : timedelta_of 0 n 0 = n * HOUR.
Proof. unfold timedelta_of. lia. Qed.

Lemma timedelta_day : timedelta_of 1 0 0 = 24 * HOUR.
Proof. unfold timedelta_of, DAY. lia. Qed.

Lemma py_timedelta_hour : py_timedelta 0 1 0 = Ok HOUR.
Proof. vm_compute. reflexivity. Qed.

Section HourEndingFacts.
Context {range : TimeRange}.

(** The two steps of [d + td - 1 hour] can be taken on a timestamp [d] of
    the type: [td] is a [timedelta], and neither sum leaves the range. *)
Definition resolvable (d : datetime) (td : timedelta) : Prop :=
  timedelta_ok td = true /\
  can_add d td = true /\
  can_add (d + td) (- HOUR) = true.

(** [date + timedelta(...) - timedelta(hours=1)] *)
Definition add_then_back (d : datetime) (td : result timedelta) : result instant :=
  td <- td ;;
  t <- utils.add_timedelta (At d) td ;;
  one <- py_timedelta 0 1 0 ;;
  utils.sub_timedelta t one.

Lemma add_then_back_ok (d : datetime) (days hours : Z) :
  resolvable d (timedelta_of days hours 0) ->
  add_then_back d (py_timedelta days hours 0)
  = Ok (At (d + timedelta_of days hours 0 - HOUR)).
Proof.
  intros (H1 & H2 & H3). unfold add_then_back. unfold py_timedelta at 1.
  rewrite H1. cbn [bind utils.add_timedelta]. rewrite H2. cbn [bind].
  rewrite py_timedelta_hour. cbn [bind].
  unfold utils.sub_timedelta, utils.add_timedelta. rewrite H3.
  reflexivity.
Qed.

(** The hour an [HourEnding] cell denotes. *)
Inductive hour_ending_value : cell -> Z -> Prop :=
| hev_int (n : Z) : hour_ending_value (CInt n) n
| hev_24 : hour_ending_value (CStr "24:00") 24
| hev_str (s : string) (n : Z) :
    s <> "24:00" ->
    Py.int_of_string (utils.before_colon s) = Ok n ->
    hour_ending_value (CStr s) n.

Lemma parse_hour_ending_steps (d : datetime) (c : cell) (n : Z) :
  hour_ending_value c n ->
  utils.parse_hour_ending (At d) c = add_then_back d (py_timedelta 0 n 0).
Proof.
  intros [m | | s m Hs Hm].
  - reflexivity.
  - reflexivity.
  - unfold utils.parse_hour_ending.
    destruct (String.eqb_spec s "24:00") as [E | _]; [contradiction |].
    rewrite Hm. reflexivity.
Qed.

Lemma parse_hour_ending_value (d : datetime) (c : cell) (n : Z) :
  hour_ending_value c n ->
  resolvable d (n * HOUR) ->
  utils.parse_hour_ending (At d) c = Ok (At (d + (n - 1) * HOUR)).
Proof.
  intros Hv Hr. rewrite (parse_hour_ending_steps d c n Hv).
  rewrite <- timedelta_hours in Hr. rewrite (add_then_back_ok d 0 n Hr).
  rewrite timedelta_hours. do 2 f_equal. lia.
Qed.

End HourEndingFacts.

(** C2, as amended.  On a timestamp [d] of any type, [datetime] or
    [pd.Timestamp]: an integer hour-ending [n] resolves to [d + (n - 1)]
    hours when the two steps the code takes, [d + n hours] and then
    [- 1 hour], stay in the range of the type; the literal ["24:00"]
    resolves to [d + 23] hours, which is not midnight of the next day and,
    counted from the midnight that starts a day, falls on that same day,
    when [d + 1 day] is in range; any other string whose part before the
    colon reads as the integer [hr] resolves like [hr].  The three
    resolutions of the test suite follow. *)
Theorem parse_hour_ending_resolution {range : TimeRange} (d : datetime) :
  (forall n : Z,
      resolvable d (n * HOUR) ->
      utils.parse_hour_ending (At d) (CInt n) = Ok (At (d + (n - 1) * HOUR))) /\
  ((resolvable d DAY ->
    utils.parse_hour_ending (At d) (CStr "24:00") = Ok (At (d + 23 * HOUR))) /\
   d + 23 * HOUR <> d + DAY /\
   forall day : Z, date_of (day * DAY + 23 * HOUR) = day) /\
  (forall (s : string) (hr : Z),
      s <> "24:00" ->
      Py.int_of_string (utils.before_colon s) = Ok hr ->
      resolvable d (hr * HOUR) ->
      utils.parse_hour_ending (At d) (CStr s) = Ok (At (d + (hr - 1) * HOUR))) /\
  (let day := mk_datetime 2024 1 1 0 0 in
   utils.parse_hour_ending (range := datetime_range) (At day) (CInt 1)
     = Ok (At (mk_datetime 2024 1 1 0 0)) /\
   utils.parse_hour_ending (range := datetime_range) (At day) (CStr "24:00")
     = Ok (At (mk_datetime 2024 1 1 23 0)) /\
   utils.parse_hour_ending (range := datetime_range) (At day) (CStr "13:00")
     = Ok (At (mk_datetime 2024 1 1 12 0))).
Proof.
  assert (HD : DAY = 24 * HOUR) by (unfold DAY; lia).
  split; [| split; [| split]].
  - intros n H. now apply parse_hour_ending_value; [constructor |].
  - split; [| split].
    + intros H. rewrite HD in H.
      rewrite (parse_hour_ending_value d _ 24 hev_24 H). do 2 f_equal.
    + unfold DAY. cbv [HOUR MINUTE NS_PER_SECOND]. lia.
    + intros day. unfold date_of.
      assert (0 < DAY) by (cbv; reflexivity).
      rewrite Z.add_comm, Z.div_add by lia.
      rewrite Z.div_small; [lia |].
      cbv [DAY HOUR MINUTE NS_PER_SECOND]. lia.
  - intros s hr Hs Hint H. now apply parse_hour_ending_value; [constructor |].
  - repeat split; vm_compute; reflexivity.
Qed.

(** The claim C2 as the specification words it, for every base date, fails
    on the last day [datetime] holds.  Hour-ending 25 has no timestamp to
    resolve to, and the call raises.  Hour-ending ["24:00"] has one, 23:00
    on that day, but the code goes through midnight of the next day, which
    does not exist, and raises as well. *)
Lemma parse_hour_ending_last_day :
  let d := mk_datetime 9999 12 31 0 0 in
  in_range (range := datetime_range) d = true /\
  (in_range (range := datetime_range) (d + (25 - 1) * HOUR) = false /\
   utils.parse_hour_ending (range := datetime_range) (At d) (CInt 25)
   = Raise OverflowError) /\
  (in_range (range := datetime_range) (d + 23 * HOUR) = true /\
   utils.parse_hour_ending (range := datetime_range) (At d) (CStr "24:00")
   = Raise OverflowError /\
   utils.parse_hour_ending (range := datetime_range) (At d) (CStr "24:00")
   <> Ok (At (d + 23 * HOUR))).
Proof.
  cbv zeta. repeat split; try (vm_compute; reflexivity).
  vm_compute. discriminate.
Qed.

Lemma parse_hour_ending_resolution_witness :
  utils.parse_hour_ending (range := datetime_range)
    (At (mk_datetime 2024 1 1 0 0)) (CStr "07:30")
  = Ok (At (mk_datetime 2024 1 1 0 0 + (7 - 1) * HOUR)).
Proof.
  apply (proj1 (proj2 (proj2 (parse_hour_ending_resolution (range := datetime_range)
                                (mk_datetime 2024 1 1 0 0)))) "07:30" 7).
  - discriminate.
  - vm_compute. reflexivity.
  - repeat split; vm_compute; reflexivity.
Defined.

(** ** Column normalisation *)

(** C4.  Normalising twice differs from normalising once on the label
    ["1_a_b"]: the first pass gives ["1AB"], which does not begin with an
    upper-case letter and is therefore taken apart again, giving ["1Ab"].
    The same holds for a table that has this column. *)
Theorem to_pascal_case_twice_differs :
  utils.to_pascal_case "1_a_b" = "1AB" /\
  utils.to_pascal_case (utils.to_pascal_case "1_a_b") = "1Ab" /\
  utils.to_pascal_case (utils.to_pascal_case "1_a_b")
    <> utils.to_pascal_case "1_a_b" /\
  (let df := mkFrame ["1_a_b"] [[CInt 1]] in
   let '(r1, st1) := utils.normalize_column_names 0%nat (init [df]) in
   let '(r2, st2) := utils.normalize_column_names 1%nat st1 in
   r1 = Ok 1%nat /\ r2 = Ok 2%nat /\
   columns (frame_of st2 1%nat) = ["1AB"] /\
   columns (frame_of st2 2%nat) = ["1Ab"] /\
   frame_of st2 2%nat <> frame_of st2 1%nat).
Proof.
  split; [vm_compute; reflexivity |].
  split; [vm_compute; reflexivity |].
  split; [vm_compute; discriminate |].
  vm_compute. repeat split; discriminate.
Qed.

(** ** The interpreter state *)

Lemma nth_error_snoc {A : Type} (h : list A) (x : A) :
  nth_error (h ++ [x]) (List.length h) = Some x.
Proof. rewrite nth_error_app2, Nat.sub_diag by lia. reflexivity. Qed.

Lemma nth_error_old {A : Type} (h : list A) (x : A) (l : nat) (y : A) :
  nth_error h l = Some y -> nth_error (h ++ [x]) l = Some y.
Proof.
  intros E. rewrite nth_error_app1; [exact E |].
  apply nth_error_Some. congruence.
Qed.

Lemma set_nth_snoc {A : Type} (h : list A) (x y : A) :
  set_nth (List.length h) y (h ++ [x]) = h ++ [y].
Proof. induction h as [| a h IH]; cbn; [reflexivity | now rewrite IH]. Qed.

Lemma copy_run (st : state) (l : ref) (df : DataFrame) :
  nth_error (heap st) l = Some df ->
  copy l st = (Ok (List.length (heap st)), mkState (heap st ++ [df]) (stdout st)).
Proof. intros E. unfold copy, bindM, deref, new_frame. now rewrite E. Qed.

Lemma deref_snoc (h : list DataFrame) (out : list string) (df : DataFrame) :
  deref (List.length h) (mkState (h ++ [df]) out)
  = (Ok df, mkState (h ++ [df]) out).
Proof. unfold deref. cbn [heap]. now rewrite nth_error_snoc. Qed.

Lemma getitemM_snoc (h : list DataFrame) (out : list string) (df : DataFrame)
    (name : string) :
  getitemM (List.length h) name (mkState (h ++ [df]) out)
  = (getitem df name, mkState (h ++ [df]) out).
Proof. unfold getitemM, bindM. rewrite deref_snoc. reflexivity. Qed.

Lemma setitemM_snoc (h : list DataFrame) (out : list string) (df : DataFrame)
    (name : string) (s : Series) :
  setitemM (List.length h) name s (mkState (h ++ [df]) out)
  = (Ok tt, mkState (h ++ [setitem df name s]) out).
Proof.
  unfold setitemM, update. cbn [heap stdout].
  now rewrite nth_error_snoc, set_nth_snoc.
Qed.

Lemma frame_of_snoc (h : list DataFrame) (out : list string) (df : DataFrame) :
  frame_of (mkState (h ++ [df]) out) (List.length h) = df.
Proof.
  unfold frame_of. cbn [heap].
  rewrite app_nth2, Nat.sub_diag by lia. reflexivity.
Qed.

Lemma frame_of_old (h : list DataFrame) (out : list string) (df x : DataFrame)
    (l : ref) :
  nth_error h l = Some x -> frame_of (mkState (h ++ [df]) out) l = x.
Proof.
  intros E. unfold frame_of. cbn [heap].
  rewrite app_nth1 by (apply nth_error_Some; congruence).
  now apply nth_error_nth.
Qed.

(** ** Reading columns *)

(** The cell a row has under a label. *)
Definition cell_of (df : DataFrame) (name : string) (row : list cell) : cell :=
  match col_index name (columns df) with
  | Some i => cell_at i row
  | None => CNull
  end.

Lemma getitem_has_column (df : DataFrame) (name : string) :
  has_column name df = true ->
  getitem df name = Ok (map (cell_of df name) (rows df)).
Proof.
  unfold has_column, getitem, cell_of.
  destruct (col_index name (columns df)); [reflexivity | discriminate].
Qed.

Lemma getitem_no_column (df : DataFrame) (name : string) :
  has_column name df = false -> getitem df name = Raise (KeyError name).
Proof.
  unfold has_column, getitem.
  destruct (col_index name (columns df)); [discriminate | reflexivity].
Qed.

Lemma mapM_Forall2 {A B : Type} (f : A -> result B) (P : A -> B -> Prop)
    (l : list A) :
  Forall (fun x => exists y, f x = Ok y /\ P x y) l ->
  exists ys, mapM f l = Ok ys /\ Forall2 P l ys.
Proof.
  induction 1 as [| x l [y [Hy HP]] _ [ys [Hys HF]]]; cbn.
  - exists []. split; [reflexivity | constructor].
  - exists (y :: ys). rewrite Hy, Hys. split; [reflexivity | now constructor].
Qed.

Lemma mapM_map {A B C : Type} (f : B -> result C) (g : A -> B) (l : list A) :
  mapM f (map g l) = mapM (fun x => f (g x)) l.
Proof.
  induction l as [| x l IH]; cbn; [reflexivity |].
  destruct (f (g x)); cbn; [now rewrite IH | reflexivity].
Qed.

Lemma mapM_Ok_Forall2 {A B : Type} (f : A -> result B) (l : list A)
    (ys : list B) :
  mapM f l = Ok ys -> Forall2 (fun x y => f x = Ok y) l ys.
Proof.
  revert ys. induction l as [| x l IH]; cbn; intros ys E.
  - injection E as <-. constructor.
  - destruct (f x) as [y | e] eqn:Ex; cbn in E; [| discriminate].
    destruct (mapM f l) as [ys' | e]; cbn in E; [| discriminate].
    injection E as <-. constructor; auto.
Qed.

(** ** The timestamp resolver *)

Section Resolver.
Context {parser : DatetimeParser}.

(** What [add_datetime_column] assigns to [DATETIME]: [Ok (Some s)] for the
    series of the first pattern whose guard holds, [Ok None] when no guard
    holds. *)
Definition pattern1 (df : DataFrame) : result Series :=
  date <- getitem df "DeliveryDate" ;;
  date <- to_datetime_series date ;;
  hour <- getitem df "DeliveryHour" ;;
  hour <- to_timedelta_series HOUR hour ;;
  itv <- getitem df "DeliveryInterval" ;;
  itv <- mapM times5 itv ;;
  itv <- to_timedelta_series MINUTE itv ;;
  Ok (map of_time (zip_with add_opt (zip_with add_opt date hour) itv)).

Definition pattern5 (df : DataFrame) : result Series :=
  date <- getitem df "DeliveryDate" ;;
  date <- to_datetime_series date ;;
  hour <- getitem df "DeliveryHour" ;;
  hour <- to_timedelta_series HOUR hour ;;
  Ok (map of_time (zip_with add_opt date hour)).

Definition direct (col : string) (df : DataFrame) : result Series :=
  s <- getitem df col ;;
  ts <- to_datetime_series s ;;
  Ok (map of_time ts).

(** [apply] with the assignment of what it returns. *)
Definition hour_ending (base : string) (df : DataFrame) : result Series :=
  match rows df with
  | [] =>
      Raise (ValueError
        "Cannot set a DataFrame with multiple columns to the single column DATETIME")
  | _ :: _ => utils.apply_hour_ending base df
  end.

Definition datetime_series (d : DataFrame) : result (option Series) :=
  if has_column "DeliveryInterval" d then s <- pattern1 d ;; Ok (Some s)
  else if has_column "IntervalEnding" d then
    s <- direct "IntervalEnding" d ;; Ok (Some s)
  else if has_column "OperatingDay" d && has_column "HourEnding" d then
    s <- hour_ending "OperatingDay" d ;; Ok (Some s)
  else if has_column "OperatingDate" d && has_column "HourEnding" d then
    s <- hour_ending "OperatingDate" d ;; Ok (Some s)
  else if has_column "DeliveryHour" d && has_column "DeliveryDate" d then
    s <- pattern5 d ;; Ok (Some s)
  else if has_column "DeliveryDate" d && has_column "HourEnding" d then
    s <- hour_ending "DeliveryDate" d ;; Ok (Some s)
  else if has_column "SCEDTimestamp" d then
    s <- direct "SCEDTimestamp" d ;; Ok (Some s)
  else if has_column "SCEDTimeStamp" d then
    s <- direct "SCEDTimeStamp" d ;; Ok (Some s)
  else Ok None.

Definition no_datetime_warning : string :=
  "Warning: No datetime columns found in DataFrame".

Lemma hour_ending_pattern_run (base : string) (h : list DataFrame)
    (out : list string) (df : DataFrame) :
  utils.hour_ending_pattern base (List.length h) (mkState (h ++ [df]) out)
  = match hour_ending base df with
    | Ok s => (Ok (List.length h), mkState (h ++ [setitem df "DATETIME" s]) out)
    | Raise e => (Raise e, mkState (h ++ [df]) out)
    end.
Proof.
  unfold utils.hour_ending_pattern, hour_ending, bindM. rewrite deref_snoc.
  destruct (rows df); [reflexivity |].
  unfold lift. destruct (utils.apply_hour_ending base df); [| reflexivity].
  now rewrite setitemM_snoc.
Qed.

Lemma direct_pattern_run (col : string) (h : list DataFrame)
    (out : list string) (df : DataFrame) :
  utils.direct_pattern col (List.length h) (mkState (h ++ [df]) out)
  = match direct col df with
    | Ok s => (Ok (List.length h), mkState (h ++ [setitem df "DATETIME" s]) out)
    | Raise e => (Raise e, mkState (h ++ [df]) out)
    end.
Proof.
  unfold utils.direct_pattern, direct, bindM. rewrite getitemM_snoc.
  destruct (getitem df col) as [s | e]; [| reflexivity].
  unfold lift. cbn [bind].
  destruct (to_datetime_series s); [| reflexivity].
  cbn [bind]. now rewrite setitemM_snoc.
Qed.

(** The run of [add_datetime_column]: it works on a copy, which becomes the
    last frame of the heap; nothing else changes. *)
Lemma add_datetime_column_run (st : state) (l : ref) (df : DataFrame) :
  nth_error (heap st) l = Some df ->
  let n := List.length (heap st) in
  utils.add_datetime_column l st =
  match datetime_series df with
  | Ok (Some s) =>
      (Ok n, mkState (heap st ++ [setitem df "DATETIME" s]) (stdout st))
  | Ok None =>
      (Ok n, mkState (heap st ++ [df]) (stdout st ++ [no_datetime_warning]))
  | Raise e => (Raise e, mkState (heap st ++ [df]) (stdout st))
  end.
Proof.
  intros E n. unfold utils.add_datetime_column.
  unfold bindM at 1. rewrite (copy_run _ _ _ E).
  unfold bindM at 1. rewrite deref_snoc. fold n.
  unfold datetime_series.
  destruct (has_column "DeliveryInterval" df).
  { unfold pattern1, bindM, lift. subst n. rewrite !getitemM_snoc.
    destruct (getitem df "DeliveryDate") as [a | e]; [| reflexivity]. cbn [bind].
    destruct (to_datetime_series a) as [a' | e]; [| reflexivity]. cbn [bind].
    rewrite ?getitemM_snoc.
    destruct (getitem df "DeliveryHour") as [b | e]; [| reflexivity]. cbn [bind].
    destruct (to_timedelta_series HOUR b) as [b' | e]; [| reflexivity]. cbn [bind].
    rewrite ?getitemM_snoc.
    destruct (getitem df "DeliveryInterval") as [c | e]; [| reflexivity]. cbn [bind].
    destruct (mapM times5 c) as [c' | e]; [| reflexivity]. cbn [bind].
    destruct (to_timedelta_series MINUTE c') as [c'' | e]; [| reflexivity]. cbn [bind].
    now rewrite setitemM_snoc. }
  destruct (has_column "IntervalEnding" df).
  { subst n. rewrite direct_pattern_run.
    destruct (direct "IntervalEnding" df); reflexivity. }
  destruct (has_column "OperatingDay" df && has_column "HourEnding" df).
  { subst n. rewrite hour_ending_pattern_run.
    destruct (hour_ending "OperatingDay" df); reflexivity. }
  destruct (has_column "OperatingDate" df && has_column "HourEnding" df).
  { subst n. rewrite hour_ending_pattern_run.
    destruct (hour_ending "OperatingDate" df); reflexivity. }
  destruct (has_column "DeliveryHour" df && has_column "DeliveryDate" df).
  { unfold pattern5, bindM, lift. subst n. rewrite !getitemM_snoc.
    destruct (getitem df "DeliveryDate") as [a | e]; [| reflexivity]. cbn [bind].
    destruct (to_datetime_series a) as [a' | e]; [| reflexivity]. cbn [bind].
    rewrite ?getitemM_snoc.
    destruct (getitem df "DeliveryHour") as [b | e]; [| reflexivity]. cbn [bind].
    destruct (to_timedelta_series HOUR b) as [b' | e]; [| reflexivity]. cbn [bind].
    now rewrite setitemM_snoc. }
  destruct (has_column "DeliveryDate" df && has_column "HourEnding" df).
  { subst n. rewrite hour_ending_pattern_run.
    destruct (hour_ending "DeliveryDate" df); reflexivity. }
  destruct (has_column "SCEDTimestamp" df).
  { subst n. rewrite direct_pattern_run.
    destruct (direct "SCEDTimestamp" df); reflexivity. }
  destruct (has_column "SCEDTimeStamp" df).
  { subst n. rewrite direct_pattern_run.
    destruct (direct "SCEDTimeStamp" df); reflexivity. }
  reflexivity.
Qed.

End Resolver.

Section ResolverPriority.
Context {parser : DatetimeParser}.

Definition of_int (n : option Z) : cell :=
  match n with Some n => CInt n | None => CNull end.

Definition scaled (n : option Z) (unit : timedelta) : option timedelta :=
  option_map (fun n => n * unit) n.

(** What pandas holds in 64 bits: a timestamp and a duration.  A missing
    one always fits. *)
Definition within (t : option datetime) : Prop :=
  match t with
  | Some t => in_range (range := Timestamp_range) t = true
  | None => True
  end.

Definition spans (td : option timedelta) : Prop :=
  match td with
  | Some td => (Z.abs td <=? @max_delta Timestamp_range) = true
  | None => True
  end.

(** The sums pandas forms from left to right on a column stay in 64 bits. *)
Fixpoint exact_sum (t : option datetime) (tds : list (option timedelta)) : Prop :=
  within t /\
  match tds with
  | [] => True
  | td :: tds' => spans td /\ exact_sum (add_opt t td) tds'
  end.

(** A cell that is not a number.  A date column that mixes numbers with
    text is converted as a whole by pandas, not cell by cell. *)
Definition not_number (c : cell) : Prop := forall n, c <> CInt n.

(** A row of the five-minute layout, and the timestamp it denotes. *)
Definition interval_row (df : DataFrame) (row : list cell)
    (d h k : option Z) : Prop :=
  to_datetime (cell_of df "DeliveryDate" row) = Ok d /\
  cell_of df "DeliveryHour" row = of_int h /\
  cell_of df "DeliveryInterval" row = of_int k.

(** A row of the hourly layout. *)
Definition hourly_row (df : DataFrame) (row : list cell) (d h : option Z) : Prop :=
  to_datetime (cell_of df "DeliveryDate" row) = Ok d /\
  cell_of df "DeliveryHour" row = of_int h.

(** A row of an hour-ending layout: the date under [base], not given as
    a number, is a timestamp and the hour-ending can be taken from it. *)
Definition hour_ending_row (df : DataFrame) (base : string) (row : list cell)
    (d n : Z) : Prop :=
  to_datetime (cell_of df base row) = Ok (Some d) /\
  not_number (cell_of df base row) /\
  within (Some d) /\
  hour_ending_value (cell_of df "HourEnding" row) n /\
  resolvable (range := Timestamp_range) d (n * HOUR).

(** A row whose timestamp stands in the column [col]. *)
Definition direct_row (df : DataFrame) (col : string) (row : list cell)
    (t : option datetime) : Prop :=
  to_datetime (cell_of df col row) = Ok t /\ within t /\
  not_number (cell_of df col row).

Lemma to_datetime_scalar_some (c : cell) (d : datetime) :
  to_datetime c = Ok (Some d) -> to_datetime_scalar c = Ok (At d).
Proof.
  intros H. destruct c; try discriminate;
    unfold to_datetime_scalar; rewrite H; reflexivity.
Qed.

Lemma to_timedelta_of_int (unit : timedelta) (n : option Z) :
  to_timedelta unit (of_int n) = Ok (scaled n unit).
Proof. destruct n; reflexivity. Qed.

Lemma times5_of_int (n : option Z) :
  times5 (of_int n) = Ok (of_int (option_map (fun n => n * 5) n)).
Proof. destruct n; reflexivity. Qed.

Lemma pattern1_rows (df : DataFrame) :
  has_column "DeliveryDate" df = true ->
  has_column "DeliveryHour" df = true ->
  has_column "DeliveryInterval" df = true ->
  Forall (fun row => exists d h k, interval_row df row d h k) (rows df) ->
  exists s,
    pattern1 df = Ok s /\
    Forall2 (fun row c =>
               forall d h k, interval_row df row d h k ->
                 c = of_time (add_opt (add_opt d (scaled h HOUR))
                                      (scaled k (5 * MINUTE))))
            (rows df) s.
Proof.
  intros H1 H2 H3 HT. unfold pattern1.
  rewrite (getitem_has_column _ _ H1), (getitem_has_column _ _ H2),
    (getitem_has_column _ _ H3).
  unfold to_datetime_series, to_timedelta_series.
  induction HT as [| row rs (d & h & k & Hd & Hh & Hk) _ IH].
  - exists []. cbn. split; [reflexivity | constructor].
  - destruct IH as (s & Hs & HF). cbn [map mapM bind] in *.
    rewrite Hd, Hh, Hk. rewrite to_timedelta_of_int, times5_of_int. cbn [bind].
    destruct (mapM to_datetime _) as [ds |]; [| discriminate]. cbn [bind] in *.
    destruct (mapM (to_timedelta HOUR) _) as [hs |]; [| discriminate].
    cbn [bind] in *.
    destruct (mapM times5 _) as [ks |]; [| discriminate].
    cbn [bind mapM] in *. rewrite to_timedelta_of_int. cbn [bind].
    destruct (mapM (to_timedelta MINUTE) ks) as [ks' |]; [| discriminate].
    cbn [bind zip_with map] in *. injection Hs as <-.
    eexists. split; [reflexivity |]. constructor; [| exact HF].
    intros d' h' k' (Hd' & Hh' & Hk').
    assert (d' = d) by congruence.
    assert (h' = h) by (destruct h, h'; cbn in *; congruence).
    assert (k' = k) by (destruct k, k'; cbn in *; congruence).
    subst. destruct k as [k |]; cbn [scaled option_map]; [| reflexivity].
    now rewrite <- Z.mul_assoc.
Qed.

Lemma pattern5_rows (df : DataFrame) :
  has_column "DeliveryDate" df = true ->
  has_column "DeliveryHour" df = true ->
  Forall (fun row => exists d h, hourly_row df row d h) (rows df) ->
  exists s,
    pattern5 df = Ok s /\
    Forall2 (fun row c =>
               forall d h, hourly_row df row d h ->
                 c = of_time (add_opt d (scaled h HOUR)))
            (rows df) s.
Proof.
  intros H1 H2 HT. unfold pattern5.
  rewrite (getitem_has_column _ _ H1), (getitem_has_column _ _ H2).
  unfold to_datetime_series, to_timedelta_series.
  induction HT as [| row rs (d & h & Hd & Hh) _ IH].
  - exists []. cbn. split; [reflexivity | constructor].
  - destruct IH as (s & Hs & HF). cbn [map mapM bind] in *.
    rewrite Hd, Hh. rewrite to_timedelta_of_int. cbn [bind].
    destruct (mapM to_datetime _) as [ds |]; [| discriminate]. cbn [bind] in *.
    destruct (mapM (to_timedelta HOUR) _) as [hs |]; [| discriminate].
    cbn [bind zip_with map] in *. injection Hs as <-.
    eexists. split; [reflexivity |]. constructor; [| exact HF].
    intros d' h' (Hd' & Hh').
    assert (d' = d) by congruence.
    assert (h' = h) by (destruct h, h'; cbn in *; congruence).
    subst. reflexivity.
Qed.

Lemma hour_ending_rows (base : string) (df : DataFrame) :
  has_column base df = true ->
  has_column "HourEnding" df = true ->
  Forall (fun row => exists d n, hour_ending_row df base row d n) (rows df) ->
  exists s,
    utils.apply_hour_ending base df = Ok s /\
    Forall2 (fun row c =>
               forall d n, hour_ending_row df base row d n ->
                 c = CTime (d + (n - 1) * HOUR))
            (rows df) s.
Proof.
  intros H1 H2 HT. unfold utils.apply_hour_ending.
  rewrite (getitem_has_column _ _ H1), (getitem_has_column _ _ H2).
  cbn [bind].
  induction HT as [| row rs (d & n & Hd & _ & _ & Hn & Hr) _ IH].
  - exists []. cbn. split; [reflexivity | constructor].
  - destruct IH as (s & Hs & HF). cbn [map combine mapM fst snd bind] in *.
    rewrite (to_datetime_scalar_some _ _ Hd). cbn [bind].
    rewrite (parse_hour_ending_value _ _ _ Hn Hr).
    cbn [bind utils.of_instant]. rewrite Hs. cbn [bind].
    eexists. split; [reflexivity |]. constructor; [| exact HF].
    intros d' n' (Hd' & _ & _ & Hn' & Hr').
    assert (d' = d) by congruence. subst d'.
    pose proof (parse_hour_ending_value d _ _ Hn Hr) as E1.
    pose proof (parse_hour_ending_value d _ _ Hn' Hr') as E2.
    rewrite E1 in E2. injection E2 as E2. now rewrite E2.
Qed.

Lemma direct_rows (col : string) (df : DataFrame) :
  has_column col df = true ->
  Forall (fun row => exists t, direct_row df col row t) (rows df) ->
  exists s,
    direct col df = Ok s /\
    Forall2 (fun row c => forall t, direct_row df col row t -> c = of_time t)
            (rows df) s.
Proof.
  intros H1 HT. unfold direct.
  rewrite (getitem_has_column _ _ H1). cbn [bind].
  unfold to_datetime_series.
  induction HT as [| row rs (t & Ht & _) _ IH].
  - exists []. cbn. split; [reflexivity | constructor].
  - destruct IH as (s & Hs & HF). cbn [map mapM bind] in *.
    rewrite Ht. cbn [bind].
    destruct (mapM to_datetime _) as [ts |]; [| discriminate].
    cbn [bind map] in *. injection Hs as <-.
    eexists. split; [reflexivity |]. constructor; [| exact HF].
    intros t' (Ht' & _). congruence.
Qed.

(** *** The seven patterns

    Pattern 7 has two spellings, tried one after the other. *)
Inductive pattern : Type := P1 | P2 | P3 | P4 | P5 | P6 | P7 | P7b.

(** The place of a pattern in the order of the docstring. *)
Definition rank (p : pattern) : nat :=
  match p with
  | P1 => 1 | P2 => 2 | P3 => 3 | P4 => 4 | P5 => 5 | P6 => 6 | P7 => 7 | P7b => 8
  end%nat.

(** The columns a pattern reads. *)
Definition reads (p : pattern) : list string :=
  match p with
  | P1 => ["DeliveryDate"; "DeliveryHour"; "DeliveryInterval"]
  | P2 => ["IntervalEnding"]
  | P3 => ["OperatingDay"; "HourEnding"]
  | P4 => ["OperatingDate"; "HourEnding"]
  | P5 => ["DeliveryHour"; "DeliveryDate"]
  | P6 => ["DeliveryDate"; "HourEnding"]
  | P7 => ["SCEDTimestamp"]
  | P7b => ["SCEDTimeStamp"]
  end.

(** The columns whose presence selects it: all it reads, except that
    pattern 1 is selected by [DeliveryInterval] alone. *)
Definition guard (p : pattern) : list string :=
  match p with
  | P1 => ["DeliveryInterval"]
  | _ => reads p
  end.

Definition holds (df : DataFrame) (p : pattern) : bool :=
  forallb (fun c => has_column c df) (guard p).

(** [p] is the first pattern, in the order 1 to 7, whose guard holds. *)
Definition first_match (df : DataFrame) (p : pattern) : Prop :=
  holds df p = true /\ forall q, (rank q < rank p)%nat -> holds df q = false.

Definition no_match (df : DataFrame) : Prop := forall q, holds df q = false.

(** The patterns computed row by row with [parse_hour_ending]. *)
Definition by_row (p : pattern) : bool :=
  match p with
  | P3 | P4 | P6 => true
  | _ => false
  end.

(** The timestamp a pattern gives a row. *)
Inductive stamp (df : DataFrame) (row : list cell) : pattern -> cell -> Prop :=
| stamp1 (d h : option Z) (k : Z) :
    interval_row df row d h (Some k) ->
    not_number (cell_of df "DeliveryDate" row) ->
    exact_sum d [scaled h HOUR; Some (k * (5 * MINUTE))] ->
    stamp df row P1
      (of_time (add_opt (add_opt d (scaled h HOUR)) (Some (k * (5 * MINUTE)))))
| stamp2 (t : option datetime) :
    direct_row df "IntervalEnding" row t -> stamp df row P2 (of_time t)
| stamp3 (d n : Z) :
    hour_ending_row df "OperatingDay" row d n ->
    stamp df row P3 (CTime (d + (n - 1) * HOUR))
| stamp4 (d n : Z) :
    hour_ending_row df "OperatingDate" row d n ->
    stamp df row P4 (CTime (d + (n - 1) * HOUR))
| stamp5 (d h : option Z) :
    hourly_row df row d h ->
    not_number (cell_of df "DeliveryDate" row) ->
    exact_sum d [scaled h HOUR] ->
    stamp df row P5 (of_time (add_opt d (scaled h HOUR)))
| stamp6 (d n : Z) :
    hour_ending_row df "DeliveryDate" row d n ->
    stamp df row P6 (CTime (d + (n - 1) * HOUR))
| stamp7 (t : option datetime) :
    direct_row df "SCEDTimestamp" row t -> stamp df row P7 (of_time t)
| stamp7b (t : option datetime) :
    direct_row df "SCEDTimeStamp" row t -> stamp df row P7b (of_time t).

(** The series the branch of a pattern computes. *)
Definition series_of (p : pattern) (df : DataFrame) : result Series :=
  match p with
  | P1 => pattern1 df
  | P2 => direct "IntervalEnding" df
  | P3 => hour_ending "OperatingDay" df
  | P4 => hour_ending "OperatingDate" df
  | P5 => pattern5 df
  | P6 => hour_ending "DeliveryDate" df
  | P7 => direct "SCEDTimestamp" df
  | P7b => direct "SCEDTimeStamp" df
  end.

Ltac guard_of Hq q :=
  try (let G := fresh "G" in
       assert (G := Hq q ltac:(cbn; lia));
       unfold holds in G; cbn [guard reads forallb] in G;
       rewrite ?andb_true_r in G; rewrite G).

Ltac earlier_guards Hq :=
  guard_of Hq P1; guard_of Hq P2; guard_of Hq P3; guard_of Hq P4;
  guard_of Hq P5; guard_of Hq P6; guard_of Hq P7; guard_of Hq P7b.

Lemma datetime_series_first_match (df : DataFrame) (p : pattern) :
  first_match df p ->
  datetime_series df = (s <- series_of p df ;; Ok (Some s)).
Proof.
  intros [Hp Hq]. unfold datetime_series. unfold holds in Hp.
  destruct p; cbn [guard reads forallb] in Hp; rewrite ?andb_true_r in Hp;
    earlier_guards Hq; rewrite Hp; reflexivity.
Qed.

Lemma datetime_series_no_match (df : DataFrame) :
  no_match df -> datetime_series df = Ok None.
Proof.
  intros H. unfold datetime_series.
  assert (Hq : forall q, (rank q < 9)%nat -> holds df q = false) by (intros; apply H).
  earlier_guards Hq. reflexivity.
Qed.

Lemma Forall2_refine {A B : Type} (P : A -> Prop) (Q R : A -> B -> Prop)
    (l : list A) (s : list B) :
  (forall x y, P x -> Q x y -> R x y) ->
  Forall P l -> Forall2 Q l s -> Forall2 R l s.
Proof.
  intros H HP HQ. induction HQ as [| x y l s Hxy _ IH]; constructor.
  - apply H; [now inversion HP | exact Hxy].
  - apply IH. now inversion HP.
Qed.

Lemma has_all (df : DataFrame) (names : list string) (c : string) :
  Forall (fun c => has_column c df = true) names -> In c names ->
  has_column c df = true.
Proof. intros H Hin. rewrite Forall_forall in H. now apply H. Qed.

Ltac stamped :=
  intros row c [c0 H] HQ; inversion H; subst;
  match goal with
  | Hrow : interval_row _ _ _ _ _ |- _ => rewrite (HQ _ _ _ Hrow)
  | Hrow : hourly_row _ _ _ _ |- _ => rewrite (HQ _ _ Hrow)
  | Hrow : hour_ending_row _ _ _ _ _ |- _ => rewrite (HQ _ _ Hrow)
  | Hrow : direct_row _ _ _ _ |- _ => rewrite (HQ _ Hrow)
  end; exact H.

Lemma series_of_rows (df : DataFrame) (p : pattern) :
  Forall (fun c => has_column c df = true) (reads p) ->
  (by_row p = true -> rows df <> []) ->
  Forall (fun row => exists c, stamp df row p c) (rows df) ->
  exists s,
    series_of p df = Ok s /\
    Forall2 (fun row c => stamp df row p c) (rows df) s.
Proof.
  intros Hc Hrows HT.
  assert (Hcol : forall c, In c (reads p) -> has_column c df = true)
    by (intros c; now apply has_all).
  assert (Happly : forall base, by_row p = true ->
            hour_ending base df = utils.apply_hour_ending base df).
  { intros base Hb. specialize (Hrows Hb). unfold hour_ending.
    destruct (rows df); [contradiction | reflexivity]. }
  destruct p; cbn [series_of reads In by_row] in *.
  - destruct (pattern1_rows df) as (s & Hs & HF); auto 6.
    { eapply Forall_impl; [| exact HT]. intros row [c H].
      inversion H; subst; eauto. }
    exists s. split; [exact Hs |].
    eapply Forall2_refine; [| exact HT | exact HF].
    stamped.
  - destruct (direct_rows "IntervalEnding" df) as (s & Hs & HF); auto.
    { eapply Forall_impl; [| exact HT]. intros row [c H].
      inversion H; subst; eauto. }
    exists s. split; [exact Hs |].
    eapply Forall2_refine; [| exact HT | exact HF].
    stamped.
  - destruct (hour_ending_rows "OperatingDay" df) as (s & Hs & HF); auto.
    { eapply Forall_impl; [| exact HT]. intros row [c H].
      inversion H; subst; eauto. }
    exists s. split; [now rewrite Happly |].
    eapply Forall2_refine; [| exact HT | exact HF].
    stamped.
  - destruct (hour_ending_rows "OperatingDate" df) as (s & Hs & HF); auto.
    { eapply Forall_impl; [| exact HT]. intros row [c H].
      inversion H; subst; eauto. }
    exists s. split; [now rewrite Happly |].
    eapply Forall2_refine; [| exact HT | exact HF].
    stamped.
  - destruct (pattern5_rows df) as (s & Hs & HF); auto.
    { eapply Forall_impl; [| exact HT]. intros row [c H].
      inversion H; subst; eauto. }
    exists s. split; [exact Hs |].
    eapply Forall2_refine; [| exact HT | exact HF].
    stamped.
  - destruct (hour_ending_rows "DeliveryDate" df) as (s & Hs & HF); auto.
    { eapply Forall_impl; [| exact HT]. intros row [c H].
      inversion H; subst; eauto. }
    exists s. split; [now rewrite Happly |].
    eapply Forall2_refine; [| exact HT | exact HF].
    stamped.
  - destruct (direct_rows "SCEDTimestamp" df) as (s & Hs & HF); auto.
    { eapply Forall_impl; [| exact HT]. intros row [c H].
      inversion H; subst; eauto. }
    exists s. split; [exact Hs |].
    eapply Forall2_refine; [| exact HT | exact HF].
    stamped.
  - destruct (direct_rows "SCEDTimeStamp" df) as (s & Hs & HF); auto.
    { eapply Forall_impl; [| exact HT]. intros row [c H].
      inversion H; subst; eauto. }
    exists s. split; [exact Hs |].
    eapply Forall2_refine; [| exact HT | exact HF].
    stamped.
Qed.



Lemma to_datetime_series_raises (s : Series) (e : exn) :
  to_datetime_series s = Raise e -> exists msg, e = ValueError msg.
Proof.
  unfold to_datetime_series. induction s as [| c s IH]; cbn [mapM]; [discriminate |].
  destruct (to_datetime c) as [t |] eqn:Ec; cbn [bind].
  - destruct (mapM to_datetime s) as [ts |]; cbn [bind]; [discriminate |].
    intros [= <-]. now apply IH.
  - intros [= <-]. destruct c as [| n | str | t | d]; try discriminate.
    cbn [to_datetime] in Ec.
    destruct (is_nat_string str); [discriminate |].
    destruct (parse_datetime str); [discriminate |].
    injection Ec as <-. eauto.
Qed.

(** C10, as amended.  A table with a [DeliveryInterval] column takes the
    branch of pattern 1 whatever else it has.  Without [DeliveryDate] the
    call raises [KeyError].  With [DeliveryDate], under a label that occurs
    once and not given as numbers, and without [DeliveryHour], the
    [DeliveryDate] column is read and converted first: the call raises
    [KeyError] once the column has been converted, and the [ValueError] of
    the conversion when it cannot be.  No later pattern is tried, no
    warning is printed, and the copy gets no [DATETIME]. *)
Theorem delivery_interval_alone_selects_pattern1 (st : state) (l : ref)
    (df : DataFrame) :
  nth_error (heap st) l = Some df ->
  has_column "DeliveryInterval" df = true ->
  (has_column "DeliveryDate" df = false ->
   utils.add_datetime_column l st
   = (Raise (KeyError "DeliveryDate"),
      mkState (heap st ++ [df]) (stdout st))) /\
  (has_column "DeliveryHour" df = false ->
   NoDup (columns df) ->
   forall dates,
     getitem df "DeliveryDate" = Ok dates ->
     Forall not_number dates ->
     (forall ts,
        to_datetime_series dates = Ok ts ->
        utils.add_datetime_column l st
        = (Raise (KeyError "DeliveryHour"),
           mkState (heap st ++ [df]) (stdout st))) /\
     (forall e,
        to_datetime_series dates = Raise e ->
        exists msg,
          utils.add_datetime_column l st
          = (Raise (ValueError msg), mkState (heap st ++ [df]) (stdout st)))).
Proof.
  intros E HI. pose proof (add_datetime_column_run st l df E) as R.
  cbv zeta in R. unfold datetime_series in R. rewrite HI in R.
  unfold pattern1 in R. split.
  - intros H1. rewrite (getitem_no_column _ _ H1) in R. exact R.
  - intros H2 _ dates Hd _.
    rewrite Hd in R. cbn [bind] in R. split.
    + intros ts Ht. rewrite Ht in R. cbn [bind] in R.
      rewrite (getitem_no_column _ _ H2) in R. exact R.
    + intros e He. destruct (to_datetime_series_raises dates e He) as [msg ->].
      rewrite He in R. cbn [bind] in R. eauto.
Qed.

End ResolverPriority.

(** C3.  A table that has [DeliveryInterval] and [SCEDTimestamp] but no
    [DeliveryDate]: the claim has it resolved, and the docstring lists
    pattern 1 with its three columns and promises nothing worse than a
    warning, but the guard of pattern 1 looks for [DeliveryInterval] alone
    and the call raises [KeyError]: no [DATETIME] is computed, from
    [SCEDTimestamp] or otherwise. *)
Theorem add_datetime_column_interval_without_date :
  let df := mkFrame ["DeliveryInterval"; "SCEDTimestamp"]
                    [[CInt 3; CStr "2024-01-01T12:05:00"]] in
  has_column "DeliveryInterval" df = true /\
  has_column "SCEDTimestamp" df = true /\
  utils.add_datetime_column (parser := iso) 0%nat (init [df])
  = (Raise (KeyError "DeliveryDate"), mkState [df; df] []) /\
  ~ (exists l' st',
       utils.add_datetime_column (parser := iso) 0%nat (init [df]) = (Ok l', st')).
Proof.
  cbv zeta. repeat split; try (vm_compute; reflexivity).
  intros (l' & st' & E). vm_compute in E. discriminate.
Qed.



Definition interval_only_frame : DataFrame :=
  mkFrame ["DeliveryInterval"; "SCEDTimestamp"]
          [[CInt 3; CStr "2024-01-01T12:05:00"]].

Definition interval_date_frame : DataFrame :=
  mkFrame ["DeliveryInterval"; "DeliveryDate"] [[CInt 3; CStr "2024-01-01"]].

(** The claim C10 as worded, [KeyError] whenever [DeliveryDate] or
    [DeliveryHour] is lacking, fails on a table that lacks [DeliveryHour]
    and whose [DeliveryDate] cannot be read as a date: the conversion comes
    first and raises [ValueError]. *)
Lemma add_datetime_column_unreadable_date :
  let df := mkFrame ["DeliveryInterval"; "DeliveryDate"] [[CInt 3; CStr "unknown"]] in
  has_column "DeliveryInterval" df = true /\
  has_column "DeliveryHour" df = false /\
  (exists msg,
     utils.add_datetime_column (parser := iso) 0%nat (init [df])
     = (Raise (ValueError msg), mkState [df; df] [])) /\
  forall key,
    fst (utils.add_datetime_column (parser := iso) 0%nat (init [df]))
    <> Raise (KeyError key).
Proof.
  cbv zeta. split; [reflexivity |]. split; [reflexivity |]. split.
  - eexists. vm_compute. reflexivity.
  - intros key. vm_compute. discriminate.
Qed.

Lemma delivery_interval_alone_selects_pattern1_witness :
  utils.add_datetime_column (parser := iso) 0%nat (init [interval_only_frame])
  = (Raise (KeyError "DeliveryDate"),
     mkState ([interval_only_frame] ++ [interval_only_frame]) []) /\
  utils.add_datetime_column (parser := iso) 0%nat (init [interval_date_frame])
  = (Raise (KeyError "DeliveryHour"),
     mkState ([interval_date_frame] ++ [interval_date_frame]) []).
Proof.
  split.
  - apply (proj1 (delivery_interval_alone_selects_pattern1 (parser := iso)
                    (init [interval_only_frame]) 0%nat interval_only_frame
                    eq_refl eq_refl)).
    reflexivity.
  - assert (ND : NoDup (columns interval_date_frame))
      by (repeat constructor; cbn; intuition discriminate).
    assert (HT : Forall not_number [CStr "2024-01-01"])
      by (constructor; [intros n; discriminate | constructor]).
    apply (proj1 (proj2 (delivery_interval_alone_selects_pattern1 (parser := iso)
                           (init [interval_date_frame]) 0%nat interval_date_frame
                           eq_refl eq_refl) eq_refl ND [CStr "2024-01-01"]
                    eq_refl HT) [Some (mk_datetime 2024 1 1 0 0)]).
    reflexivity.
Defined.

(** ** Sorting and distinct values *)

Section SortFacts.
Context {A : Type} (leb : A -> A -> bool).
Hypothesis leb_total : forall x y, leb x y = true \/ leb y x = true.
Hypothesis leb_trans : forall x y z, leb x y = true -> leb y z = true -> leb x z = true.

Lemma insert_perm (x : A) (l : list A) : Permutation (insert leb x l) (x :: l).
Proof.
  induction l as [| y l IH]; cbn; [reflexivity |].
  destruct (leb x y); [reflexivity |].
  rewrite IH. apply perm_swap.
Qed.

Lemma sort_perm (l : list A) : Permutation (sort leb l) l.
Proof.
  induction l as [| x l IH]; cbn; [reflexivity |].
  rewrite insert_perm. now constructor.
Qed.

Lemma insert_sorted (x : A) (l : list A) :
  StronglySorted (fun a b => leb a b = true) l ->
  StronglySorted (fun a b => leb a b = true) (insert leb x l).
Proof.
  induction 1 as [| y l HS IH HF]; cbn.
  - repeat constructor.
  - destruct (leb x y) eqn:E.
    + constructor; [now constructor |].
      constructor; [exact E |].
      eapply Forall_impl; [| exact HF]. intros z Hz. eauto.
    + constructor; [exact IH |].
      assert (Hyx : leb y x = true) by (destruct (leb_total x y); congruence).
      rewrite (Forall_forall). intros z Hz.
      apply (Permutation_in _ (insert_perm x l)) in Hz.
      destruct Hz as [<- | Hz]; [exact Hyx |].
      rewrite Forall_forall in HF. auto.
Qed.

Lemma sort_sorted (l : list A) :
  StronglySorted (fun a b => leb a b = true) (sort leb l).
Proof.
  induction l as [| x l IH]; cbn; [constructor | now apply insert_sorted].
Qed.

End SortFacts.

Lemma sort_map {A B : Type} (leA : A -> A -> bool) (leB : B -> B -> bool)
    (f : A -> B) (l : list A) :
  (forall x y, leB (f x) (f y) = leA x y) ->
  sort leB (map f l) = map f (sort leA l).
Proof.
  intros Hf. induction l as [| x l IH]; cbn; [reflexivity |].
  rewrite IH. generalize (sort leA l) as m. clear IH.
  induction m as [| y m IH]; cbn; [reflexivity |].
  rewrite Hf. destruct (leA x y); cbn; [reflexivity | now rewrite IH].
Qed.

(** The distinct values of a list of integers, by first appearance. *)
Fixpoint distinct (l : list Z) : list Z :=
  match l with
  | [] => []
  | x :: l' => x :: filter (fun y => negb (y =? x)) (distinct l')
  end.

Lemma distinct_In (l : list Z) (x : Z) : In x (distinct l) <-> In x l.
Proof.
  induction l as [| y l IH]; cbn; [tauto |].
  rewrite filter_In, IH, negb_true_iff, Z.eqb_neq.
  destruct (Z.eq_dec y x); intuition congruence.
Qed.

Lemma distinct_NoDup (l : list Z) : NoDup (distinct l).
Proof.
  induction l as [| y l IH]; cbn; constructor.
  - rewrite filter_In, negb_true_iff, Z.eqb_neq. tauto.
  - now apply NoDup_filter.
Qed.

Lemma filter_map_comm {A B : Type} (f : A -> B) (p : B -> bool) (l : list A) :
  filter p (map f l) = map f (filter (fun x => p (f x)) l).
Proof.
  induction l as [| x l IH]; cbn; [reflexivity |].
  destruct (p (f x)); cbn; now rewrite IH.
Qed.

Lemma dedup_map (f : Z -> cell) (l : list Z) :
  (forall x y, cell_eqb (f x) (f y) = (x =? y)) ->
  dedup (map f l) = map f (distinct l).
Proof.
  intros Hf. induction l as [| x l IH]; cbn; [reflexivity |].
  rewrite IH, filter_map_comm. do 2 f_equal.
  apply filter_ext. intros y. now rewrite Hf.
Qed.

(** The calendar dates in ascending order, without repetition. *)
Definition sorted_dates (ds : list Z) : list Z := sort Z.leb (distinct ds).

Lemma sorted_dates_In (ds : list Z) (x : Z) : In x (sorted_dates ds) <-> In x ds.
Proof.
  unfold sorted_dates. rewrite <- (distinct_In ds x).
  split; apply Permutation_in; [| symmetry]; apply sort_perm.
Qed.

Lemma sorted_dates_length (ds : list Z) :
  List.length (sorted_dates ds) = List.length (distinct ds).
Proof. apply Permutation_length, sort_perm. Qed.

Lemma sorted_dates_increasing (ds : list Z) : StronglySorted Z.lt (sorted_dates ds).
Proof.
  unfold sorted_dates.
  assert (HS : StronglySorted (fun a b => (a <=? b) = true) (sort Z.leb (distinct ds))).
  { apply sort_sorted; intros; lia. }
  assert (HN : NoDup (sort Z.leb (distinct ds))).
  { eapply Permutation_NoDup; [symmetry; apply sort_perm | apply distinct_NoDup]. }
  induction HS as [| x l HS IH HF]; constructor.
  - apply IH. now inversion HN.
  - inversion HN as [| ? ? Hx _]; subst.
    rewrite Forall_forall in *. intros y Hy.
    specialize (HF y Hy). assert (x <> y) by (intros ->; contradiction). lia.
Qed.

Lemma increasing_nth (l : list Z) (p q : nat) (a b : Z) :
  StronglySorted Z.lt l ->
  nth_error l p = Some a -> nth_error l q = Some b -> (p < q)%nat -> a < b.
Proof.
  intros HS. revert p q. induction HS as [| x l HS IH HF]; intros p q Hp Hq Hlt.
  - destruct p; discriminate.
  - destruct q as [| q]; [lia |]. destruct p as [| p]; cbn in *.
    + injection Hp as <-. rewrite Forall_forall in HF.
      apply HF. eapply nth_error_In; eauto.
    + eapply IH; eauto. lia.
Qed.

Lemma py_sorted_dates (ds : list Z) :
  py_sorted (unique (map CDate ds)) = Ok (map CDate (sorted_dates ds)).
Proof.
  unfold unique. rewrite dedup_map by reflexivity.
  unfold py_sorted, sorted_dates.
  destruct (distinct ds) as [| x l] eqn:E; [reflexivity |].
  cbn [map]. rewrite <- (map_cons CDate).
  replace (forallb _ _) with true.
  - now rewrite (sort_map Z.leb cell_leb CDate).
  - symmetry. apply forallb_forall. intros c Hc.
    apply in_map_iff in Hc as (y & <- & _). reflexivity.
Qed.

(** ** Rectangular frames *)

Definition well_formed (df : DataFrame) : Prop :=
  Forall (fun row => List.length row = List.length (columns df)) (rows df).

Lemma col_index_lt (name : string) (cols : list string) (i : nat) :
  col_index name cols = Some i -> (i < List.length cols)%nat.
Proof.
  revert i. induction cols as [| c cols IH]; cbn; intros i E; [discriminate |].
  destruct (String.eqb c name).
  - injection E as <-. lia.
  - destruct (col_index name cols) as [j |]; [| discriminate].
    injection E as <-. specialize (IH j eq_refl). lia.
Qed.

Lemma col_index_snoc_new (name : string) (cols : list string) :
  col_index name cols = None ->
  col_index name (cols ++ [name]) = Some (List.length cols).
Proof.
  induction cols as [| c cols IH]; cbn; intros E.
  - now rewrite String.eqb_refl.
  - destruct (String.eqb c name); [discriminate |].
    destruct (col_index name cols); [discriminate |].
    now rewrite IH.
Qed.

Lemma col_index_snoc_old (name other : string) (cols : list string) (i : nat) :
  col_index name cols = Some i -> col_index name (cols ++ [other]) = Some i.
Proof.
  revert i. induction cols as [| c cols IH]; cbn; intros i E; [discriminate |].
  destruct (String.eqb c name); [exact E |].
  destruct (col_index name cols) as [j |]; [| discriminate].
  now rewrite (IH j eq_refl).
Qed.

Lemma cell_at_set_nth (i : nat) (c : cell) (row : list cell) :
  (i < List.length row)%nat -> cell_at i (set_nth i c row) = c.
Proof.
  unfold cell_at. revert i. induction row as [| x row IH]; intros [| i] H;
    cbn in *; try lia; [reflexivity | apply IH; lia].
Qed.

Lemma cell_at_set_nth_other (i j : nat) (c : cell) (row : list cell) :
  i <> j -> cell_at j (set_nth i c row) = cell_at j row.
Proof.
  unfold cell_at. revert i j. induction row as [| x row IH]; intros [| i] [| j] H;
    cbn; try reflexivity; try lia. apply IH. lia.
Qed.

Lemma cell_at_snoc (row : list cell) (c : cell) :
  cell_at (List.length row) (row ++ [c]) = c.
Proof.
  unfold cell_at. rewrite app_nth2, Nat.sub_diag by lia. reflexivity.
Qed.

Lemma cell_at_snoc_old (row : list cell) (c : cell) (i : nat) :
  (i < List.length row)%nat -> cell_at i (row ++ [c]) = cell_at i row.
Proof. intros H. unfold cell_at. now rewrite app_nth1. Qed.

(** Reading back the column just assigned. *)
Lemma getitem_setitem (df : DataFrame) (name : string) (s : Series) :
  well_formed df ->
  List.length s = List.length (rows df) ->
  getitem (setitem df name s) name = Ok s.
Proof.
  unfold well_formed, getitem, setitem. intros WF HL.
  destruct (col_index name (columns df)) as [i |] eqn:E; cbn [columns rows].
  - rewrite E. f_equal. pose proof (col_index_lt _ _ _ E) as Hi.
    revert s HL. induction WF as [| row rs Hrow _ IH]; intros [| c s] HL;
      cbn in *; try discriminate; [reflexivity |].
    rewrite IH by lia. f_equal.
    apply (cell_at_set_nth i c row). lia.
  - rewrite (col_index_snoc_new _ _ E). f_equal.
    revert s HL. induction WF as [| row rs Hrow _ IH]; intros [| c s] HL;
      cbn in *; try discriminate; [reflexivity |].
    rewrite IH by lia. f_equal.
    rewrite <- Hrow. apply (cell_at_snoc row c).
Qed.

Lemma mapM_length {A B : Type} (f : A -> result B) (l : list A) (ys : list B) :
  mapM f l = Ok ys -> List.length ys = List.length l.
Proof.
  intros E. apply mapM_Ok_Forall2 in E.
  symmetry. eapply Forall2_length; eauto.
Qed.

Lemma set_nth_same {A : Type} (h : list A) (l : nat) (x : A) :
  nth_error h l = Some x -> set_nth l x h = h.
Proof.
  revert l. induction h as [| y h IH]; intros [| l] E; cbn in *;
    try discriminate.
  - now injection E as ->.
  - now rewrite IH.
Qed.

Lemma nth_error_set_nth {A : Type} (h : list A) (l : nat) (x y : A) :
  nth_error h l = Some x -> nth_error (set_nth l y h) l = Some y.
Proof.
  revert l. induction h as [| z h IH]; intros [| l] E; cbn in *;
    try discriminate; [reflexivity | now apply IH].
Qed.

Lemma set_nth_length {A : Type} (h : list A) (l : nat) (y : A) :
  List.length (set_nth l y h) = List.length h.
Proof.
  revert l. induction h as [| z h IH]; intros [| l]; cbn; auto.
Qed.

(** ** The rolling split generator *)

Section Splits.
Context {parser : DatetimeParser}.

(** The [Date] column [create_rolling_splits] works with: the one the frame
    has, or the calendar days of [DATETIME]. *)
Definition date_column (df : DataFrame) : result Series :=
  if has_column "Date" df then getitem df "Date"
  else
    s <- getitem df "DATETIME" ;;
    ts <- to_datetime_series s ;;
    Ok (map forecasting.dt_date ts).

(** The frame behind the caller's reference once the column is ensured. *)
Definition with_date (df : DataFrame) (dates : Series) : DataFrame :=
  if has_column "Date" df then df else setitem df "Date" dates.

(** A rectangular frame whose rows carry the calendar dates [ds]. *)
Definition dated (df : DataFrame) (ds : list Z) : Prop :=
  well_formed df /\ date_column df = Ok (map CDate ds).

Definition train_dates (U : list cell) (k : Z) (expanding : bool) (i : Z)
  : list cell :=
  if expanding then py_slice U 0 i else py_slice U (Z.max 0 (i - k)) i.

Definition train_frame (df : DataFrame) (U : list cell) (k : Z)
    (expanding : bool) (i : Z) : DataFrame :=
  mkFrame (columns df)
    (filter (fun r => cell_in (cell_of df "Date" r) (train_dates U k expanding i))
            (rows df)).

Definition test_frame (df : DataFrame) (test_date : cell) : DataFrame :=
  mkFrame (columns df)
    (filter (fun r => cell_eqb (cell_of df "Date" r) test_date) (rows df)).

Lemma rows_where_date (p : cell -> bool) (df : DataFrame) :
  has_column "Date" df = true ->
  forecasting.rows_where p df
  = Ok (mkFrame (columns df) (filter (fun r => p (cell_of df "Date" r)) (rows df))).
Proof.
  unfold has_column, forecasting.rows_where, cell_of.
  destruct (col_index "Date" (columns df)); [reflexivity | discriminate].
Qed.

Lemma has_column_with_date (df : DataFrame) (dates : Series) :
  has_column "Date" (with_date df dates) = true.
Proof.
  unfold with_date. destruct (has_column "Date" df) eqn:E; [exact E |].
  unfold has_column in *. unfold setitem.
  destruct (col_index "Date" (columns df)) eqn:E'; [discriminate |].
  cbn [columns]. now rewrite (col_index_snoc_new _ _ E').
Qed.

Lemma getitem_with_date (df : DataFrame) (dates : Series) :
  well_formed df -> date_column df = Ok dates ->
  getitem (with_date df dates) "Date" = Ok dates.
Proof.
  unfold date_column, with_date. intros WF E.
  destruct (has_column "Date" df); [exact E |].
  destruct (getitem df "DATETIME") as [s |] eqn:Es; [| discriminate].
  cbn [bind] in E.
  destruct (to_datetime_series s) as [ts |] eqn:Et; [| discriminate].
  cbn [bind] in E. injection E as <-.
  apply getitem_setitem; [exact WF |].
  rewrite length_map, (mapM_length _ _ _ Et).
  unfold getitem in Es. destruct (col_index "DATETIME" (columns df)); [| discriminate].
  injection Es as <-. apply length_map.
Qed.

(** The state once the [Date] column is ensured: the caller's frame is
    replaced in place. *)
Definition dated_state (st : state) (l : ref) (df : DataFrame) (dates : Series)
  : state :=
  mkState (set_nth l (with_date df dates) (heap st)) (stdout st).

Lemma split_at_run (s : state) (l : ref) (df : DataFrame) (U : list cell)
    (k : Z) (e : bool) (i : Z) (td : cell) :
  nth_error (heap s) l = Some df ->
  has_column "Date" df = true ->
  py_index U i = Ok td ->
  let train := train_frame df U k e i in
  let test := test_frame df td in
  let n := List.length (heap s) in
  forecasting.split_at l U k e i s
  = (Ok (if (0 <? List.length (rows train))%nat && (0 <? List.length (rows test))%nat
         then Some (n, S n, td) else None),
     mkState ((heap s ++ [train]) ++ [test]) (stdout s)).
Proof.
  intros E HD Hi train test n. unfold forecasting.split_at.
  unfold bindM at 1. unfold lift at 1. rewrite Hi.
  unfold bindM at 1. unfold deref at 1. rewrite E.
  unfold bindM at 1. unfold lift at 1.
  rewrite (rows_where_date _ df HD).
  fold (train_dates U k e i). fold (train_frame df U k e i). fold train.
  unfold bindM at 1. unfold new_frame at 1. cbn [heap stdout].
  unfold bindM at 1. unfold deref at 1. cbn [heap].
  rewrite (nth_error_old _ _ _ _ E).
  unfold bindM at 1. unfold lift at 1.
  rewrite (rows_where_date _ df HD). fold (test_frame df td). fold test.
  unfold bindM at 1. unfold new_frame at 1. cbn [heap stdout].
  rewrite length_app. cbn [List.length]. fold n.
  replace (n + 1)%nat with (S n) by lia.
  destruct ((0 <? List.length (rows train))%nat && (0 <? List.length (rows test))%nat);
    reflexivity.
Qed.

(** What holds of an emitted split in a state: its index, and the frames
    behind its two references. *)
Definition split_of (df : DataFrame) (U : list cell) (k : Z) (e : bool)
    (s : state) (i : Z) (sp : forecasting.split) : Prop :=
  let '(tr, te, td) := sp in
  py_index U i = Ok td /\
  nth_error (heap s) tr = Some (train_frame df U k e i) /\
  nth_error (heap s) te = Some (test_frame df td) /\
  rows (train_frame df U k e i) <> [] /\
  rows (test_frame df td) <> [].

Lemma split_of_grow (df : DataFrame) (U : list cell) (k : Z) (e : bool)
    (h extra : list DataFrame) (out out' : list string) (i : Z)
    (sp : forecasting.split) :
  split_of df U k e (mkState h out) i sp ->
  split_of df U k e (mkState (h ++ extra) out') i sp.
Proof.
  destruct sp as [[tr te] td]. cbn [split_of heap].
  intros (H1 & H2 & H3 & H4 & H5). repeat split; auto.
  - rewrite nth_error_app1; [exact H2 | apply nth_error_Some; congruence].
  - rewrite nth_error_app1; [exact H3 | apply nth_error_Some; congruence].
Qed.

Lemma forM_split_at (l : ref) (df : DataFrame) (U : list cell) (k : Z)
    (e : bool) (idxs : list Z) :
  has_column "Date" df = true ->
  (forall i, In i idxs -> exists td, py_index U i = Ok td) ->
  forall s, nth_error (heap s) l = Some df ->
  exists res extra,
    forM (forecasting.split_at l U k e) idxs s
    = (Ok res, mkState (heap s ++ extra) (stdout s)) /\
    forall sp, In sp (forecasting.somes res) ->
      exists i, In i idxs /\
        split_of df U k e (mkState (heap s ++ extra) (stdout s)) i sp.
Proof.
  intros HD. induction idxs as [| i idxs IH]; intros Hidx s E.
  - exists [], []. cbn. rewrite app_nil_r. destruct s; cbn. split; [reflexivity |].
    intros sp [].
  - destruct (Hidx i (or_introl eq_refl)) as [td Htd].
    cbn [forM]. unfold bindM at 1.
    rewrite (split_at_run s l df U k e i td E HD Htd).
    set (train := train_frame df U k e i). set (test := test_frame df td).
    set (s1 := mkState ((heap s ++ [train]) ++ [test]) (stdout s)).
    assert (E1 : nth_error (heap s1) l = Some df).
    { cbn [s1 heap]. rewrite <- app_assoc.
      rewrite nth_error_app1; [exact E | apply nth_error_Some; congruence]. }
    destruct (IH (fun j Hj => Hidx j (or_intror Hj)) s1 E1)
      as (res & extra & Hrun & Hres).
    unfold bindM at 1. rewrite Hrun. cbn [s1 heap stdout].
    exists ((if (0 <? List.length (rows train))%nat && (0 <? List.length (rows test))%nat
             then Some (List.length (heap s), S (List.length (heap s)), td)
             else None) :: res), ([train; test] ++ extra).
    split.
    { unfold ret. rewrite <- !app_assoc. reflexivity. }
    intros sp Hsp.
    replace (heap s ++ [train; test] ++ extra)
      with (((heap s ++ [train]) ++ [test]) ++ extra)
      by (rewrite <- !app_assoc; reflexivity).
    destruct ((0 <? List.length (rows train))%nat && (0 <? List.length (rows test))%nat)
      eqn:Hne; cbn [forecasting.somes] in Hsp.
    + destruct Hsp as [<- | Hsp].
      * exists i. split; [now left |].
        apply andb_prop in Hne as [Hn1 Hn2].
        apply Nat.ltb_lt in Hn1, Hn2.
        apply (split_of_grow df U k e ((heap s ++ [train]) ++ [test]) extra
                 (stdout s) (stdout s)).
        cbn [split_of heap]. repeat split; auto.
        -- rewrite nth_error_app1 by (rewrite length_app; cbn; lia).
           apply nth_error_snoc.
        -- replace (S (List.length (heap s)))
             with (List.length (heap s ++ [train]))
             by (rewrite length_app; cbn; lia).
           apply nth_error_snoc.
        -- fold train. destruct (rows train); [cbn in Hn1; lia | discriminate].
        -- fold test. destruct (rows test); [cbn in Hn2; lia | discriminate].
      * destruct (Hres sp Hsp) as (j & Hj & Hsplit).
        exists j. split; [now right | exact Hsplit].
    + destruct (Hres sp Hsp) as (j & Hj & Hsplit).
      exists j. split; [now right | exact Hsplit].
Qed.

Lemma py_index_spec {A : Type} (U : list A) (i : Z) :
  let n := Z.of_nat (List.length U) in
  - n <= i < n ->
  exists x, py_index U i = Ok x /\
            nth_error U (Z.to_nat (if i <? 0 then n + i else i)) = Some x.
Proof.
  intros n Hi. unfold py_index. fold n.
  set (j := if i <? 0 then n + i else i).
  assert (Hj : 0 <= j < n) by (subst j; destruct (Z.ltb_spec i 0); lia).
  replace ((0 <=? j) && (j <? n)) with true
    by (symmetry; apply andb_true_intro; split; [apply Z.leb_le | apply Z.ltb_lt]; lia).
  destruct (nth_error U (Z.to_nat j)) as [x |] eqn:E; [eauto |].
  apply nth_error_None in E. lia.
Qed.

Lemma py_index_below {A : Type} (U : list A) (i : Z) :
  i < - Z.of_nat (List.length U) -> py_index U i = Raise IndexError.
Proof.
  intros Hi. unfold py_index.
  destruct (Z.ltb_spec i 0); [| lia].
  replace (0 <=? _) with false by (symmetry; apply Z.leb_gt; lia).
  reflexivity.
Qed.

Lemma py_range_In (a b i : Z) : In i (py_range a b) <-> a <= i < b.
Proof.
  unfold py_range. rewrite in_map_iff. split.
  - intros (j & <- & Hj). apply in_seq in Hj. lia.
  - intros Hi. exists (Z.to_nat (i - a)). split; [lia |]. apply in_seq. lia.
Qed.

Lemma py_range_head (a b : Z) : a < b -> exists tl, py_range a b = a :: tl.
Proof.
  intros H. unfold py_range.
  destruct (Z.to_nat (b - a)) as [| m] eqn:E; [lia |].
  cbn [seq map]. exists (map (fun j => a + Z.of_nat j) (seq 1 m)).
  f_equal. lia.
Qed.

Definition not_enough_days (k n : Z) : string :=
  "Not enough days in data. Need more than " ++ str_of_int k
  ++ " days, but only have " ++ str_of_int n ++ " days.".

(** The run of [create_rolling_splits] on a dated frame. *)
Lemma create_rolling_splits_run (st : state) (l : ref) (df : DataFrame)
    (ds : list Z) (k : Z) (e : bool) :
  nth_error (heap st) l = Some df ->
  dated df ds ->
  let U := map CDate (sorted_dates ds) in
  let n := Z.of_nat (List.length U) in
  let st1 := dated_state st l df (map CDate ds) in
  forecasting.create_rolling_splits l k e st =
  if n <=? k then (Raise (ValueError (not_enough_days k n)), st1)
  else
    match forM (forecasting.split_at l U k e) (py_range k n) st1 with
    | (Ok splits, s') => (Ok (forecasting.somes splits), s')
    | (Raise x, s') => (Raise x, s')
    end.
Proof.
  intros E [WF HD] U n st1.
  assert (E1 : nth_error (heap st1) l = Some (with_date df (map CDate ds))).
  { cbn [st1 dated_state heap]. eapply nth_error_set_nth; eauto. }
  pose proof (getitem_with_date df _ WF HD) as HG.
  assert (Hpre :
    (let* d := deref l in
     let* _ :=
       if negb (has_column "Date" d) then
         let* s := getitemM l "DATETIME" in
         let* ts := lift (to_datetime_series s) in
         setitemM l "Date" (map forecasting.dt_date ts)
       else ret tt in
     getitemM l "Date") st = (Ok (map CDate ds), st1)).
  { unfold bindM at 1. unfold deref at 1. rewrite E.
    unfold date_column in HD. unfold st1, dated_state, with_date in *.
    destruct (has_column "Date" df) eqn:HC; cbn [negb].
    - unfold bindM at 1. unfold ret at 1.
      unfold getitemM, bindM, deref, lift. rewrite E, HD.
      rewrite (set_nth_same _ _ _ E). destruct st; reflexivity.
    - unfold bindM at 1. unfold bindM at 1.
      unfold getitemM at 1. unfold bindM at 1. unfold deref at 1. rewrite E.
      unfold lift at 1.
      destruct (getitem df "DATETIME") as [s |]; [| discriminate].
      cbn [bind] in HD. unfold bindM at 1. unfold lift at 1.
      destruct (to_datetime_series s) as [ts |]; [| discriminate].
      cbn [bind] in HD. injection HD as HD. rewrite HD.
      unfold setitemM, update. rewrite E.
      unfold getitemM, bindM, deref, lift. cbn [heap stdout].
      rewrite (nth_error_set_nth _ _ _ _ E). rewrite HG. reflexivity. }
  unfold forecasting.create_rolling_splits.
  unfold bindM in Hpre |- *.
  destruct (deref l st) as [[d |] s0] eqn:Ed; [| discriminate].
  destruct (negb (has_column "Date" d)).
  - destruct (getitemM l "DATETIME" s0) as [[a |] s3]; [| discriminate Hpre].
    destruct (lift (to_datetime_series a) s3) as [[b |] s4]; [| discriminate Hpre].
    destruct (setitemM l "Date" (map forecasting.dt_date b) s4) as [[[] |] s5];
      [| discriminate Hpre].
    rewrite Hpre. unfold lift at 1. rewrite py_sorted_dates.
    fold U. fold n. destruct (n <=? k); [reflexivity |].
    destruct (forM _ _ st1) as [[splits | x] s']; reflexivity.
  - unfold ret at 1. unfold ret at 1 in Hpre.
    rewrite Hpre. unfold lift at 1. rewrite py_sorted_dates.
    fold U. fold n. destruct (n <=? k); [reflexivity |].
    destruct (forM _ _ st1) as [[splits | x] s']; reflexivity.
Qed.

Lemma sorted_dates_count (ds : list Z) :
  Z.of_nat (List.length (map CDate (sorted_dates ds)))
  = Z.of_nat (List.length (distinct ds)).
Proof. now rewrite length_map, sorted_dates_length. Qed.

Lemma dated_state_length (st : state) (l : ref) (df : DataFrame) (dates : Series) :
  List.length (heap (dated_state st l df dates)) = List.length (heap st).
Proof. apply set_nth_length. Qed.

(** C6.  [ds] are the calendar dates of the rows, [distinct ds] the
    distinct ones.  When their number is at most [initial_training_days]
    the call raises the insufficient-data [ValueError], and no frame has
    been created by then; with 5 distinct dates and 10 training days it
    does so.  When their number exceeds [initial_training_days] no
    [ValueError] is raised, and splits are returned unless a negative
    [initial_training_days] reaches below the first date. *)
Theorem create_rolling_splits_insufficient_data (st : state) (l : ref)
    (df : DataFrame) (ds : list Z) (k : Z) (e : bool) :
  nth_error (heap st) l = Some df ->
  dated df ds ->
  let n := Z.of_nat (List.length (distinct ds)) in
  let st1 := dated_state st l df (map CDate ds) in
  (n <= k ->
   forecasting.create_rolling_splits l k e st
   = (Raise (ValueError (not_enough_days k n)), st1) /\
   List.length (heap st1) = List.length (heap st)) /\
  (n = 5 ->
   fst (forecasting.create_rolling_splits l 10 e st)
   = Raise (ValueError
       "Not enough days in data. Need more than 10 days, but only have 5 days.")) /\
  (k < n ->
   (forall msg,
      fst (forecasting.create_rolling_splits l k e st) <> Raise (ValueError msg)) /\
   (- n <= k ->
    exists splits st',
      forecasting.create_rolling_splits l k e st = (Ok splits, st'))).
Proof.
  intros E HD n st1.
  assert (Hrun := fun k => create_rolling_splits_run st l df ds k e E HD).
  cbv zeta in Hrun. fold st1 in Hrun.
  assert (HL : Z.of_nat (List.length (map CDate (sorted_dates ds))) = n)
    by apply sorted_dates_count.
  rewrite HL in Hrun.
  assert (E1 : nth_error (heap st1) l = Some (with_date df (map CDate ds))).
  { cbn [st1 dated_state heap]. eapply nth_error_set_nth; eauto. }
  split; [| split].
  - intros Hk. rewrite Hrun.
    replace (n <=? k) with true by (symmetry; apply Z.leb_le; lia).
    split; [reflexivity | apply dated_state_length].
  - intros H5. rewrite Hrun, H5. reflexivity.
  - intros Hk. rewrite Hrun.
    replace (n <=? k) with false by (symmetry; apply Z.leb_gt; lia).
    destruct (Z_le_gt_dec (- n) k) as [Hlow | Hlow].
    + destruct (forM_split_at l (with_date df (map CDate ds))
                  (map CDate (sorted_dates ds)) k e (py_range k n)
                  (has_column_with_date _ _)) with (s := st1)
        as (res & extra & Hres & _).
      * intros i Hi. apply py_range_In in Hi.
        destruct (py_index_spec (map CDate (sorted_dates ds)) i) as (x & Hx & _);
          [rewrite HL; lia | eauto].
      * exact E1.
      * rewrite Hres. split; [discriminate | eauto].
    + destruct (py_range_head k n Hk) as [tl ->].
      cbn [forM]. unfold bindM at 1. unfold forecasting.split_at.
      unfold bindM at 1. unfold lift at 1.
      rewrite py_index_below by (rewrite HL; lia).
      split; [discriminate | lia].
Qed.

End Splits.

Definition five_dates : list Z :=
  [date_of (mk_datetime 2024 2 1 0 0); date_of (mk_datetime 2024 2 1 0 0);
   date_of (mk_datetime 2024 2 2 0 0); date_of (mk_datetime 2024 2 3 0 0);
   date_of (mk_datetime 2024 2 4 0 0); date_of (mk_datetime 2024 2 5 0 0)].

Lemma five_days_dated : dated (parser := iso) five_days five_dates.
Proof. split; [repeat constructor | reflexivity]. Qed.

Lemma create_rolling_splits_insufficient_data_witness :
  (forecasting.create_rolling_splits (parser := iso) 0%nat 10 true (init [five_days])
   = (Raise (ValueError (not_enough_days 10 (Z.of_nat (List.length (distinct five_dates))))),
      dated_state (init [five_days]) 0%nat five_days (map CDate five_dates)) /\
   List.length (heap (dated_state (init [five_days]) 0%nat five_days (map CDate five_dates)))
   = List.length (heap (init [five_days]))) /\
  exists splits st',
    forecasting.create_rolling_splits (parser := iso) 0%nat 2 false (init [five_days])
    = (Ok splits, st').
Proof.
  pose proof (create_rolling_splits_insufficient_data (parser := iso)
                (init [five_days]) 0%nat five_days five_dates) as T.
  split.
  - apply (T 10 true eq_refl five_days_dated). vm_compute. discriminate.
  - apply (T 2 false eq_refl five_days_dated); vm_compute; [reflexivity | discriminate].
Defined.

(** *** No look-ahead in the splits *)

Lemma nth_error_skipn {A : Type} (l : list A) (a q : nat) :
  nth_error (skipn a l) q = nth_error l (a + q).
Proof.
  revert l. induction a as [| a IH]; intros [| x l]; cbn; auto.
  now destruct q.
Qed.

Lemma In_firstn_skipn {A : Type} (l : list A) (a m : nat) (x : A) :
  In x (firstn m (skipn a l)) <->
  exists p, (a <= p < a + m)%nat /\ nth_error l p = Some x.
Proof.
  split.
  - intros H. apply In_nth_error in H as [q Hq].
    assert (Hlt : (q < m)%nat).
    { assert (Hq' : nth_error (firstn m (skipn a l)) q <> None) by congruence.
      apply nth_error_Some in Hq'. rewrite length_firstn in Hq'. lia. }
    rewrite nth_error_firstn in Hq.
    destruct (Nat.ltb_spec q m); [| lia].
    rewrite nth_error_skipn in Hq. exists (a + q)%nat. split; [lia | exact Hq].
  - intros (p & Hp & Hx). apply (nth_error_In _ (p - a)).
    rewrite nth_error_firstn. destruct (Nat.ltb_spec (p - a) m); [| lia].
    rewrite nth_error_skipn. now replace (a + (p - a))%nat with p by lia.
Qed.

Lemma py_slice_In {A : Type} (l : list A) (a b : Z) (x : A) :
  let n := Z.of_nat (List.length l) in
  In x (py_slice l a b) <->
  exists p, slice_bound n a <= Z.of_nat p < slice_bound n b /\
            nth_error l p = Some x.
Proof.
  intros n. unfold py_slice. fold n. rewrite In_firstn_skipn.
  assert (Hn : 0 <= n) by (subst n; lia).
  assert (Ha : 0 <= slice_bound n a)
    by (unfold slice_bound; destruct (Z.ltb_spec a 0); lia).
  split; intros (p & Hp & Hx); exists p; (split; [lia | exact Hx]).
Qed.

Lemma slice_bound_index (n i : Z) :
  - n <= i < n -> slice_bound n i = if i <? 0 then n + i else i.
Proof. intros H. unfold slice_bound. destruct (Z.ltb_spec i 0); lia. Qed.

Lemma cell_in_dates (a : Z) (l : list Z) :
  cell_in (CDate a) (map CDate l) = true <-> In a l.
Proof.
  unfold cell_in. rewrite existsb_exists. split.
  - intros (c & Hc & E). apply in_map_iff in Hc as (b & <- & Hb).
    cbn in E. apply Z.eqb_eq in E. now subst.
  - intros H. exists (CDate a). split; [now apply in_map | cbn; apply Z.eqb_refl].
Qed.

Definition list_max (l : list Z) : Z := fold_right Z.max (hd 0 l) l.
Definition list_min (l : list Z) : Z := fold_right Z.min (hd 0 l) l.

Lemma list_max_In (l : list Z) : l <> [] -> In (list_max l) l.
Proof.
  unfold list_max. destruct l as [| x l]; [congruence | intros _].
  cbn [hd]. assert (H : forall m, In (fold_right Z.max x m) (x :: m)).
  { induction m as [| y m IH]; cbn; [auto |].
    destruct (Z.max_spec y (fold_right Z.max x m)) as [[_ ->] | [_ ->]];
      cbn in IH; intuition. }
  specialize (H (x :: l)). cbn in H |- *. intuition.
Qed.

Lemma list_min_In (l : list Z) : l <> [] -> In (list_min l) l.
Proof.
  unfold list_min. destruct l as [| x l]; [congruence | intros _].
  cbn [hd]. assert (H : forall m, In (fold_right Z.min x m) (x :: m)).
  { induction m as [| y m IH]; cbn; [auto |].
    destruct (Z.min_spec y (fold_right Z.min x m)) as [[_ ->] | [_ ->]];
      cbn in IH; intuition. }
  specialize (H (x :: l)). cbn in H |- *. intuition.
Qed.

Definition date_val (c : cell) : Z :=
  match c with CDate d => d | _ => 0 end.

Lemma map_date_val (ds : list Z) : map date_val (map CDate ds) = ds.
Proof. rewrite map_map. apply map_id. Qed.

Lemma filter_dates (p : cell -> bool) (f : list cell -> cell)
    (rs : list (list cell)) (ds : list Z) :
  map f rs = map CDate ds ->
  map f (filter (fun r => p (f r)) rs)
  = map CDate (filter (fun d => p (CDate d)) ds).
Proof.
  revert ds. induction rs as [| r rs IH]; intros [| d ds] E; cbn in *;
    try discriminate; [reflexivity |].
  injection E as E1 E2. rewrite E1.
  destruct (p (CDate d)); cbn; rewrite ?E1; now rewrite (IH ds E2).
Qed.

Lemma cell_eqb_eq (a b : cell) : cell_eqb a b = true <-> a = b.
Proof.
  destruct a, b; cbn; try (split; [discriminate | congruence]);
    try tauto; rewrite ?Z.eqb_eq, ?String.eqb_eq; split; congruence.
Qed.

Lemma cell_in_In (x : cell) (l : list cell) : cell_in x l = true <-> In x l.
Proof.
  unfold cell_in. rewrite existsb_exists. split.
  - intros (y & Hy & E). apply cell_eqb_eq in E. now subst.
  - intros H. exists x. split; [exact H | now apply cell_eqb_eq].
Qed.

Lemma nth_error_map_CDate (sd : list Z) (p : nat) (a : Z) :
  nth_error (map CDate sd) p = Some (CDate a) <-> nth_error sd p = Some a.
Proof.
  rewrite nth_error_map. destruct (nth_error sd p); cbn; split; congruence.
Qed.

Section NoLeakage.
Context {parser : DatetimeParser}.

(** C5.  [ds] are the calendar dates of the rows of the input.  In every
    split the call returns, the training frame and the test frame are not
    empty, the test rows all carry the test date, and every training row's
    date is strictly before every test row's date; so the latest training
    date is before the earliest test date, in expanding mode and in
    fixed-window mode alike.  In fixed-window mode, for a count [initial_training_days]
    of days (not negative), the training dates are exactly the
    [initial_training_days] dates that come immediately before the test
    date in the ascending list of distinct dates. *)
Theorem create_rolling_splits_no_leakage (st : state) (l : ref)
    (df : DataFrame) (ds : list Z) (k : Z) (e : bool)
    (splits : list forecasting.split) (st' : state) :
  nth_error (heap st) l = Some df ->
  dated df ds ->
  forecasting.create_rolling_splits l k e st = (Ok splits, st') ->
  forall tr te td, In (tr, te, td) splits ->
    let train := frame_of st' tr in
    let test := frame_of st' te in
    exists (t : Z) (train_ds test_ds : list Z),
      td = CDate t /\
      map (cell_of train "Date") (rows train) = map CDate train_ds /\
      map (cell_of test "Date") (rows test) = map CDate test_ds /\
      train_ds <> [] /\ test_ds <> [] /\
      (forall b, In b test_ds -> b = t) /\
      (forall a b, In a train_ds -> In b test_ds -> a < b) /\
      list_max train_ds < list_min test_ds /\
      (e = false -> 0 <= k ->
       exists i : nat,
         let window := firstn (Z.to_nat k) (skipn (i - Z.to_nat k) (sorted_dates ds)) in
         nth_error (sorted_dates ds) i = Some t /\
         (Z.to_nat k <= i)%nat /\
         List.length window = Z.to_nat k /\
         forall a, In a train_ds <-> In a window).
Proof.
  intros E HD Hrun tr te td Hin train test.
  pose proof (create_rolling_splits_run st l df ds k e E HD) as R.
  cbv zeta in R. rewrite R in Hrun. clear R.
  set (sd := sorted_dates ds) in *. set (U := map CDate sd) in *.
  set (n := Z.of_nat (List.length U)) in *.
  set (df1 := with_date df (map CDate ds)).
  set (st1 := dated_state st l df (map CDate ds)) in *.
  destruct (Z.leb_spec n k) as [| Hkn]; [discriminate |].
  assert (E1 : nth_error (heap st1) l = Some df1).
  { cbn [st1 dated_state heap]. eapply nth_error_set_nth; eauto. }
  assert (HC : has_column "Date" df1 = true) by apply has_column_with_date.
  assert (F1 : map (cell_of df1 "Date") (rows df1) = map CDate ds).
  { destruct HD as [WF HD]. pose proof (getitem_with_date df _ WF HD) as G.
    fold df1 in G. rewrite (getitem_has_column _ _ HC) in G. congruence. }
  assert (Hn : n = Z.of_nat (List.length sd)) by (subst n U; now rewrite length_map).
  (* the index of the split *)
  assert (Hsplit : exists i, k <= i < n /\ - n <= i /\ split_of df1 U k e st' i (tr, te, td)).
  { destruct (Z_le_gt_dec (- n) k) as [Hlow | Hlow].
    - destruct (forM_split_at l df1 U k e (py_range k n) HC) with (s := st1)
        as (res & extra & Hres & Hsp); [| exact E1 |].
      + intros i Hi. apply py_range_In in Hi.
        destruct (py_index_spec U i) as (x & Hx & _); [fold n; lia | eauto].
      + rewrite Hres in Hrun. injection Hrun as <- <-.
        destruct (Hsp _ Hin) as (i & Hi & Hsplit).
        apply py_range_In in Hi. exists i.
        split; [lia | split; [lia | exact Hsplit]].
    - destruct (py_range_head k n Hkn) as [tl Htl]. rewrite Htl in Hrun.
      cbn [forM] in Hrun. unfold bindM at 1 in Hrun.
      unfold forecasting.split_at in Hrun. unfold bindM at 1 in Hrun.
      unfold lift at 1 in Hrun.
      rewrite py_index_below in Hrun by (fold n; lia). discriminate. }
  destruct Hsplit as (i & Hik & Hlow & Htd & Htr & Hte & Hne1 & Hne2).
  set (j := if i <? 0 then n + i else i).
  assert (Hj : 0 <= j < n) by (subst j; destruct (Z.ltb_spec i 0); lia).
  destruct (py_index_spec U i) as (x & Hx & Hnth); [fold n; lia |].
  fold n in Hnth. fold j in Hnth. rewrite Htd in Hx. injection Hx as <-.
  assert (Ht : exists t, td = CDate t /\ nth_error sd (Z.to_nat j) = Some t).
  { unfold U in Hnth. rewrite nth_error_map in Hnth.
    destruct (nth_error sd (Z.to_nat j)) as [t |]; [| discriminate].
    injection Hnth as <-. eauto. }
  destruct Ht as (t & -> & Ht).
  set (TD := train_dates U k e i) in *.
  set (train_ds := filter (fun d => cell_in (CDate d) TD) ds).
  set (test_ds := filter (fun d => cell_eqb (CDate d) (CDate t)) ds).
  assert (Gtr : train = train_frame df1 U k e i).
  { unfold train, frame_of. now apply nth_error_nth. }
  assert (Gte : test = test_frame df1 (CDate t)).
  { unfold test, frame_of. now apply nth_error_nth. }
  assert (Mtr : map (cell_of train "Date") (rows train) = map CDate train_ds).
  { rewrite Gtr. unfold train_frame. cbn [rows]. fold TD.
    change (cell_of (mkFrame (columns df1) _) "Date") with (cell_of df1 "Date").
    now apply (filter_dates (fun c => cell_in c TD)). }
  assert (Mte : map (cell_of test "Date") (rows test) = map CDate test_ds).
  { rewrite Gte. unfold test_frame. cbn [rows].
    change (cell_of (mkFrame (columns df1) _) "Date") with (cell_of df1 "Date").
    now apply (filter_dates (fun c => cell_eqb c (CDate t))). }
  assert (Ntr : train_ds <> []).
  { intros Z0. rewrite Z0 in Mtr. apply map_eq_nil in Mtr.
    rewrite Gtr in Mtr. contradiction. }
  assert (Nte : test_ds <> []).
  { intros Z0. rewrite Z0 in Mte. apply map_eq_nil in Mte.
    rewrite Gte in Mte. contradiction. }
  assert (Tte : forall b, In b test_ds -> b = t).
  { intros b Hb. apply filter_In in Hb as [_ Hb]. cbn in Hb. lia. }
  (* every training date sits before index [j] *)
  assert (Bj : slice_bound n i = j) by (apply slice_bound_index; lia).
  assert (Ttr : forall a, In a train_ds ->
            exists p, (p < Z.to_nat j)%nat /\ nth_error sd p = Some a).
  { intros a Ha. apply filter_In in Ha as [_ Ha]. apply cell_in_In in Ha.
    unfold TD, train_dates in Ha.
    destruct e; apply py_slice_In in Ha as (p & Hp & Hx); fold n in Hp;
      rewrite Bj in Hp; exists p; (split; [lia |]);
      now apply nth_error_map_CDate. }
  assert (Lk : forall a b, In a train_ds -> In b test_ds -> a < b).
  { intros a b Ha Hb. rewrite (Tte b Hb).
    destruct (Ttr a Ha) as (p & Hp & Hpa).
    eapply increasing_nth; eauto. apply sorted_dates_increasing. }
  assert (Mm : list_max train_ds < list_min test_ds).
  { apply Lk; [now apply list_max_In | now apply list_min_In]. }
  exists t, train_ds, test_ds. repeat split; auto.
  intros -> Hk0.
  assert (Hi0 : 0 <= i) by lia.
  assert (Hji : j = i) by (subst j; destruct (Z.ltb_spec i 0); lia).
  exists (Z.to_nat i). cbv zeta.
  split; [now rewrite <- Hji |]. split; [lia |]. split.
  - rewrite length_firstn, length_skipn. lia.
  - intros a. unfold train_ds. rewrite filter_In, cell_in_In.
    unfold TD, train_dates. rewrite py_slice_In. fold n.
    rewrite Bj, Hji. rewrite In_firstn_skipn.
    assert (Bs : slice_bound n (Z.max 0 (i - k)) = i - k).
    { unfold slice_bound. destruct (Z.ltb_spec (Z.max 0 (i - k)) 0); lia. }
    rewrite Bs. split.
    + intros (_ & p & Hp & Hx). exists p. split; [lia |].
      now apply nth_error_map_CDate.
    + intros (p & Hp & Hx). split.
      * apply sorted_dates_In. eapply nth_error_In; eauto.
      * exists p. split; [lia |]. now apply nth_error_map_CDate.
Qed.

End NoLeakage.

Definition five_days_run : result (list forecasting.split) * state :=
  forecasting.create_rolling_splits (parser := iso) 0%nat 2 false (init [five_days]).

Definition five_days_splits : list forecasting.split :=
  match fst five_days_run with Ok s => s | Raise _ => [] end.

Lemma create_rolling_splits_no_leakage_witness :
  exists (t : Z) (train_ds test_ds : list Z),
    CDate (date_of (mk_datetime 2024 2 4 0 0)) = CDate t /\
    train_ds <> [] /\ test_ds <> [] /\
    (forall a b, In a train_ds -> In b test_ds -> a < b) /\
    list_max train_ds < list_min test_ds /\
    exists i : nat,
      nth_error (sorted_dates five_dates) i = Some t /\
      forall a, In a train_ds <->
                In a (firstn (Z.to_nat 2) (skipn (i - Z.to_nat 2) (sorted_dates five_dates))).
Proof.
  assert (R : forecasting.create_rolling_splits (parser := iso) 0%nat 2 false
                (init [five_days]) = (Ok five_days_splits, snd five_days_run))
    by (vm_compute; reflexivity).
  assert (I : In (3%nat, 4%nat, CDate (date_of (mk_datetime 2024 2 4 0 0)))
                 five_days_splits)
    by (vm_compute; right; left; reflexivity).
  destruct (create_rolling_splits_no_leakage (parser := iso) (init [five_days])
              0%nat five_days five_dates 2 false five_days_splits
              (snd five_days_run) eq_refl five_days_dated R _ _ _ I)
    as (t & train_ds & test_ds & H0 & _ & _ & H1 & H2 & _ & H3 & H4 & H5).
  destruct (H5 eq_refl ltac:(lia)) as (i & Hi & _ & _ & Hw).
  exists t, train_ds, test_ds.
  split; [exact H0 |]. split; [exact H1 |]. split; [exact H2 |].
  split; [exact H3 |]. split; [exact H4 |].
  exists i. split; [exact Hi | exact Hw].
Defined.

(** ** The vintage forecast selector *)

(** The delivery time and the publication time of a forecast row; [None]
    is a missing value. *)
Definition key : Type := option Z * option Z.

Definition opt_leb (a b : option Z) : bool :=
  match a, b with
  | _, None => true
  | None, Some _ => false
  | Some x, Some y => x <=? y
  end.

Definition key_leb (k1 k2 : key) : bool :=
  if opt_leb (fst k1) (fst k2) then
    if opt_leb (fst k2) (fst k1) then opt_leb (snd k1) (snd k2) else true
  else false.

Lemma cell_leb_of_time (a b : option Z) :
  cell_leb (of_time a) (of_time b) = opt_leb a b.
Proof. destruct a, b; reflexivity. Qed.

Lemma opt_leb_total (a b : option Z) : opt_leb a b = true \/ opt_leb b a = true.
Proof. destruct a, b; cbn; auto. lia. Qed.

Lemma opt_leb_trans (a b c : option Z) :
  opt_leb a b = true -> opt_leb b c = true -> opt_leb a c = true.
Proof. destruct a, b, c; cbn; try discriminate; auto. lia. Qed.

Lemma opt_leb_antisym (a b : option Z) :
  opt_leb a b = true -> opt_leb b a = true -> a = b.
Proof.
  destruct a, b; cbn; try discriminate; auto.
  intros. f_equal. lia.
Qed.

Lemma key_leb_total (k1 k2 : key) : key_leb k1 k2 = true \/ key_leb k2 k1 = true.
Proof.
  unfold key_leb.
  destruct (opt_leb (fst k1) (fst k2)) eqn:E1, (opt_leb (fst k2) (fst k1)) eqn:E2;
    auto.
  - apply opt_leb_total.
  - destruct (opt_leb_total (fst k1) (fst k2)); congruence.
Qed.

Lemma key_leb_trans (k1 k2 k3 : key) :
  key_leb k1 k2 = true -> key_leb k2 k3 = true -> key_leb k1 k3 = true.
Proof.
  unfold key_leb.
  destruct (opt_leb (fst k1) (fst k2)) eqn:E12; [| discriminate].
  destruct (opt_leb (fst k2) (fst k3)) eqn:E23; [| intros _; discriminate].
  rewrite (opt_leb_trans _ _ _ E12 E23).
  destruct (opt_leb (fst k3) (fst k1)) eqn:E31; [| reflexivity].
  rewrite (opt_leb_trans _ _ _ E23 E31), (opt_leb_trans _ _ _ E31 E12).
  apply opt_leb_trans.
Qed.

(** A row whose [DATETIME] cell (column [i]) and [PostedDatetime] cell
    (column [j]) hold the times of a key. *)
Definition keyed (i j : nat) (row : list cell) (k : key) : Prop :=
  cell_at i row = of_time (fst k) /\ cell_at j row = of_time (snd k).

Lemma row_leb_keyed (i j : nat) (r1 r2 : list cell) (k1 k2 : key) :
  keyed i j r1 k1 -> keyed i j r2 k2 -> row_leb i j r1 r2 = key_leb k1 k2.
Proof.
  intros [A1 B1] [A2 B2]. unfold row_leb, key_leb.
  now rewrite A1, A2, B1, B2, !cell_leb_of_time.
Qed.

Lemma insert_keyed (i j : nat) (r : list cell) (k : key)
    (rs : list (list cell)) (ks : list key) :
  keyed i j r k -> Forall2 (keyed i j) rs ks ->
  Forall2 (keyed i j) (insert (row_leb i j) r rs) (insert key_leb k ks).
Proof.
  intros Hk. induction 1 as [| r' k' rs ks Hk' HF IH]; cbn.
  - constructor; [exact Hk | constructor].
  - rewrite (row_leb_keyed _ _ _ _ _ _ Hk Hk').
    destruct (key_leb k k').
    + constructor; [exact Hk |]. constructor; [exact Hk' | exact HF].
    + constructor; [exact Hk' | exact IH].
Qed.

Lemma sort_keyed (i j : nat) (rs : list (list cell)) (ks : list key) :
  Forall2 (keyed i j) rs ks ->
  Forall2 (keyed i j) (sort (row_leb i j) rs) (sort key_leb ks).
Proof.
  induction 1; cbn; [constructor | now apply insert_keyed].
Qed.

Lemma filter_keyed (i j : nat) (t : Z) (rs : list (list cell)) (ks : list key) :
  Forall2 (keyed i j) rs ks ->
  Forall2 (keyed i j)
    (filter (fun r => cell_eqb (cell_at i r) (CTime t)) rs)
    (filter (fun k => match fst k with Some a => a =? t | None => false end) ks).
Proof.
  induction 1 as [| r k rs ks [A B] HF IH]; cbn; [constructor |].
  rewrite A. destruct k as [[a |] b]; cbn; [| exact IH].
  destruct (a =? t); [constructor; [split; assumption | exact IH] | exact IH].
Qed.

Lemma keyed_column_i (i j : nat) (rs : list (list cell)) (ks : list key) :
  Forall2 (keyed i j) rs ks -> map (cell_at i) rs = map of_time (map fst ks).
Proof. induction 1 as [| r k rs ks [A B] _ IH]; cbn; congruence. Qed.

Lemma keyed_column_j (i j : nat) (rs : list (list cell)) (ks : list key) :
  Forall2 (keyed i j) rs ks -> map (cell_at j) rs = map of_time (map snd ks).
Proof. induction 1 as [| r k rs ks [A B] _ IH]; cbn; congruence. Qed.

(** *** The last value that is not missing *)

Lemma fold_last_valid (l : list cell) (acc : cell) :
  fold_left (fun a c => if is_null c then a else c) l acc
  = if is_null (last_valid l) then acc else last_valid l.
Proof.
  unfold last_valid. revert acc.
  induction l as [| c l IH]; intros acc; cbn [fold_left].
  - reflexivity.
  - destruct (is_null c) eqn:Ec.
    + apply IH.
    + rewrite (IH c).
      destruct (is_null (fold_left _ l CNull)) eqn:El.
      * now rewrite Ec.
      * now rewrite El.
Qed.

Lemma last_valid_cons (c : cell) (l : list cell) :
  last_valid (c :: l) = if is_null (last_valid l) then c else last_valid l.
Proof.
  unfold last_valid at 1. cbn [fold_left]. rewrite fold_last_valid.
  destruct (is_null (last_valid l)); [destruct c |]; reflexivity.
Qed.

(** What the selector keeps of the publication times [l] of one group:
    nothing when all are missing, their greatest otherwise. *)
Definition latest (l : list (option Z)) (c : cell) : Prop :=
  (c = CNull /\ forall b, In b l -> b = None) \/
  (exists m, c = CTime m /\ In (Some m) l /\ forall p, In (Some p) l -> p <= m).

Lemma last_valid_sorted (l : list (option Z)) :
  StronglySorted (fun a b => opt_leb a b = true) l ->
  latest l (last_valid (map of_time l)).
Proof.
  induction 1 as [| a l HS IH HF]; [left; split; [reflexivity | intros b []] |].
  cbn [map]. rewrite last_valid_cons. rewrite Forall_forall in HF.
  destruct IH as [[E Hnone] | (m & E & Hm & Hmax)]; rewrite E; cbn [is_null].
  - destruct a as [a |]; cbn [of_time].
    + right. exists a. split; [reflexivity |]. split; [now left |].
      intros p [Hp | Hp]; [injection Hp as ->; lia |].
      specialize (Hnone _ Hp). discriminate.
    + left. split; [reflexivity |]. intros b [<- | Hb]; auto.
  - right. exists m. split; [reflexivity |]. split; [now right |].
    intros p [Hp | Hp]; [| auto].
    subst a. specialize (HF _ Hm). cbn in HF. lia.
Qed.

Lemma latest_perm (l l' : list (option Z)) (c : cell) :
  (forall b, In b l <-> In b l') -> latest l c -> latest l' c.
Proof.
  intros H [[E Hn] | (m & E & Hm & Hmax)].
  - left. split; [exact E |]. intros b Hb. apply Hn, H, Hb.
  - right. exists m. split; [exact E |]. split; [now apply H |].
    intros p Hp. apply Hmax, H, Hp.
Qed.

(** *** Groups *)

Fixpoint somes_fst (K : list key) : list Z :=
  match K with
  | [] => []
  | (Some t, _) :: K' => t :: somes_fst K'
  | (None, _) :: K' => somes_fst K'
  end.

(** The delivery times of a forecast table: distinct, ascending. *)
Definition delivery_times (K : list key) : list Z :=
  sort Z.leb (distinct (somes_fst K)).

(** The publication times of the rows delivered at [t]. *)
Definition posted_for (K : list key) (t : Z) : list (option Z) :=
  map snd (filter (fun k => match fst k with Some a => a =? t | None => false end) K).

Lemma somes_fst_In (K : list key) (t : Z) :
  In t (somes_fst K) <-> exists b, In (Some t, b) K.
Proof.
  induction K as [| [[a |] b] K IH]; cbn.
  - split; [intros [] | intros (b & [])].
  - rewrite IH. split.
    + intros [-> | (b' & H)]; eauto.
    + intros (b' & [E | H]); [injection E as -> _; auto | eauto].
  - rewrite IH. split.
    + intros (b' & H); eauto.
    + intros (b' & [E | H]); [discriminate | eauto].
Qed.

Lemma delivery_times_In (K : list key) (t : Z) :
  In t (delivery_times K) <-> exists b, In (Some t, b) K.
Proof.
  rewrite <- somes_fst_In. apply (sorted_dates_In (somes_fst K) t).
Qed.

Lemma delivery_times_NoDup (K : list key) : NoDup (delivery_times K).
Proof.
  eapply Permutation_NoDup; [symmetry; apply sort_perm | apply distinct_NoDup].
Qed.

Lemma posted_for_In (K : list key) (t : Z) (b : option Z) :
  In b (posted_for K t) <-> In (Some t, b) K.
Proof.
  unfold posted_for. rewrite in_map_iff. split.
  - intros ([[a |] b'] & E & H); apply filter_In in H as [H Ht]; cbn in *;
      [| discriminate].
    apply Z.eqb_eq in Ht. now subst.
  - intros H. exists (Some t, b). split; [reflexivity |].
    apply filter_In. split; [exact H | cbn; apply Z.eqb_refl].
Qed.

Lemma filter_sorted {A : Type} (R : A -> A -> Prop) (p : A -> bool) (l : list A) :
  StronglySorted R l -> StronglySorted R (filter p l).
Proof.
  induction 1 as [| x l HS IH HF]; cbn; [constructor |].
  destruct (p x); [| exact IH]. constructor; [exact IH |].
  rewrite Forall_forall in *. intros y Hy. apply filter_In in Hy as [Hy _]. auto.
Qed.

Lemma sorted_snd (t : Z) (l : list key) :
  Forall (fun k => fst k = Some t) l ->
  StronglySorted (fun a b => key_leb a b = true) l ->
  StronglySorted (fun a b => opt_leb a b = true) (map snd l).
Proof.
  intros HT HS. induction HS as [| k l HS IH HF]; cbn; constructor.
  - apply IH. now inversion HT.
  - rewrite Forall_forall in *. intros b Hb.
    apply in_map_iff in Hb as (k' & <- & Hk').
    pose proof (HF k' Hk') as Hle. unfold key_leb in Hle.
    rewrite (HT k (or_introl eq_refl)), (HT k' (or_intror Hk')) in Hle.
    cbn in Hle. now rewrite Z.leb_refl in Hle.
Qed.

Lemma posted_for_sorted (K : list key) (t : Z) :
  StronglySorted (fun a b => key_leb a b = true) K ->
  StronglySorted (fun a b => opt_leb a b = true) (posted_for K t).
Proof.
  intros HS. unfold posted_for. apply (sorted_snd t).
  - apply Forall_forall. intros [[a |] b] H; apply filter_In in H as [_ H];
      cbn in *; [| discriminate].
    apply Z.eqb_eq in H. now subst.
  - now apply filter_sorted.
Qed.

(** *** Columns of the grouped frame *)

Lemma col_index_nth (name : string) (cols : list string) (i : nat) :
  col_index name cols = Some i -> nth_error cols i = Some name.
Proof.
  revert i. induction cols as [| c cols IH]; cbn; intros i E; [discriminate |].
  destruct (String.eqb_spec c name) as [-> | _].
  - now injection E as <-.
  - destruct (col_index name cols) as [p |]; [| discriminate].
    injection E as <-. now apply IH.
Qed.

Lemma col_index_remove_nth (name : string) (cols : list string) (i j a : nat) :
  col_index name cols = Some j -> i <> j ->
  exists p, col_index name (remove_nth i cols) = Some p /\
            nth_error (remove_nth i (seq a (List.length cols))) p = Some (a + j)%nat.
Proof.
  revert i j a. induction cols as [| c cols IH]; cbn; intros i j a E Hij;
    [discriminate |].
  destruct (String.eqb c name) eqn:Ec.
  - injection E as <-. destruct i as [| i]; [congruence |]. cbn. rewrite Ec.
    exists O. split; [reflexivity | cbn; f_equal; lia].
  - destruct (col_index name cols) as [q |] eqn:Eq; [| discriminate].
    injection E as <-. destruct i as [| i]; cbn.
    + exists q. split; [exact Eq |].
      pose proof (col_index_lt _ _ _ Eq) as Hq.
      rewrite (nth_error_nth' _ O) by (now rewrite length_seq).
      rewrite seq_nth by exact Hq. f_equal. lia.
    + rewrite Ec. destruct (IH i q (S a) eq_refl ltac:(lia)) as (p & Hp & Hn).
      rewrite Hp. exists (S p). split; [reflexivity |]. cbn.
      rewrite Hn. f_equal. lia.
Qed.

Lemma same_kind_times (l : list (option Z)) : same_kind (map of_time l) = true.
Proof.
  unfold same_kind.
  assert (H : forall c, In c (filter (fun c => negb (is_null c)) (map of_time l)) ->
                        kind c = 3%nat).
  { intros c Hc. apply filter_In in Hc as [Hc Hn].
    apply in_map_iff in Hc as ([t |] & <- & _); [reflexivity | discriminate]. }
  destruct (filter _ _) as [| c s]; [reflexivity |].
  apply forallb_forall. intros d Hd.
  rewrite (H c (or_introl eq_refl)), (H d (or_intror Hd)). reflexivity.
Qed.

Lemma filter_valid_times (l : list (option Z)) :
  filter (fun c => negb (is_null c)) (map of_time l)
  = map CTime (somes_fst (map (fun a => (a, None)) l)).
Proof.
  induction l as [| [a |] l IH]; cbn; [reflexivity | now rewrite IH | exact IH].
Qed.

Lemma somes_fst_map_fst (K : list key) :
  somes_fst (map (fun a => (a, None)) (map fst K)) = somes_fst K.
Proof.
  induction K as [| [[a |] b] K IH]; cbn; [reflexivity | now rewrite IH | exact IH].
Qed.

Lemma group_keys_times (K : list key) :
  group_keys (map of_time (map fst K)) = map CTime (delivery_times K).
Proof.
  unfold group_keys, delivery_times.
  rewrite filter_valid_times, somes_fst_map_fst.
  rewrite dedup_map by reflexivity.
  now rewrite (sort_map Z.leb cell_leb CTime).
Qed.

Lemma comparable_times (l : list (option Z)) : comparable (map of_time l) = Ok tt.
Proof. unfold comparable. now rewrite same_kind_times. Qed.

Lemma sort_values2_keyed (df : DataFrame) (i j : nat) (K : list key) :
  col_index "DATETIME" (columns df) = Some i ->
  col_index "PostedDatetime" (columns df) = Some j ->
  Forall2 (keyed i j) (rows df) K ->
  sort_values2 "DATETIME" "PostedDatetime" df
  = Ok (mkFrame (columns df) (sort (row_leb i j) (rows df))).
Proof.
  intros Hi Hj HK. unfold sort_values2. rewrite Hi, Hj.
  rewrite (keyed_column_i _ _ _ _ HK), (keyed_column_j _ _ _ _ HK).
  now rewrite !comparable_times.
Qed.

Lemma Forall2_map_r {A B : Type} (P : A -> B -> Prop) (f : A -> B) (l : list A) :
  (forall x, In x l -> P x (f x)) -> Forall2 P l (map f l).
Proof.
  induction l as [| x l IH]; cbn; intros H; constructor; auto.
Qed.

Lemma groupby_last_keyed (cols : list string) (rs : list (list cell))
    (i j : nat) (K : list key) :
  col_index "DATETIME" cols = Some i ->
  col_index "PostedDatetime" cols = Some j ->
  Forall2 (keyed i j) rs K ->
  StronglySorted (fun a b => key_leb a b = true) K ->
  exists out ps,
    groupby_last "DATETIME" (mkFrame cols rs) = Ok out /\
    getitem out "DATETIME" = Ok (map CTime (delivery_times K)) /\
    getitem out "PostedDatetime" = Ok ps /\
    Forall2 (fun t c => latest (posted_for K t) c) (delivery_times K) ps.
Proof.
  intros Hi Hj HK HS.
  assert (Hij : i <> j).
  { intros ->. apply col_index_nth in Hi, Hj. congruence. }
  destruct (col_index_remove_nth _ _ i j O Hj Hij) as (p & Hp & Hn).
  unfold groupby_last. cbn [columns rows]. rewrite Hi.
  rewrite (keyed_column_i _ _ _ _ HK), comparable_times. cbn [bind].
  rewrite group_keys_times.
  set (others := remove_nth i (seq 0 (List.length cols))) in *.
  set (group := fun k => filter (fun r => cell_eqb (cell_at i r) k) rs).
  eexists. eexists. split; [reflexivity |].
  unfold getitem. cbn [columns rows col_index String.eqb Ascii.eqb Bool.eqb].
  rewrite Hp. cbn [option_map]. split; [| split; [reflexivity |]].
  - f_equal. rewrite !map_map. cbn. apply map_ext. reflexivity.
  - rewrite !map_map. apply Forall2_map_r. intros t _.
    unfold cell_at at 1. cbn [nth].
    change (nth p (map ?f others) CNull) with (cell_at p (map f others)).
    assert (E : forall f : nat -> cell, nth p (map f others) CNull = f j).
    { intros f. apply nth_error_nth. now rewrite nth_error_map, Hn. }
    unfold cell_at at 1. rewrite E.
    rewrite (keyed_column_j i j _ _ (filter_keyed i j t _ _ HK)).
    fold (posted_for K t). apply last_valid_sorted. now apply posted_for_sorted.
Qed.

Section Selector.
Context {parser : DatetimeParser}.

(** A rectangular forecast table: [K] lists, row by row, the delivery time
    in [DATETIME] and the time [PostedDatetime] converts to. *)
Definition forecast_table (df : DataFrame) (K : list key) : Prop :=
  well_formed df /\
  has_column "DATETIME" df = true /\
  has_column "PostedDatetime" df = true /\
  Forall2 (fun row k =>
             cell_of df "DATETIME" row = of_time (fst k) /\
             to_datetime (cell_of df "PostedDatetime" row) = Ok (snd k))
          (rows df) K.

(** The publication times that are not after a cutoff. *)
Definition not_after (cutoff : Z) (l : list (option Z)) : list (option Z) :=
  filter (fun b => match b with Some p => p <=? cutoff | None => true end) l.

Lemma forecast_table_convert (df : DataFrame) (K : list key) (i j : nat) :
  forecast_table df K ->
  col_index "DATETIME" (columns df) = Some i ->
  col_index "PostedDatetime" (columns df) = Some j ->
  to_datetime_series (map (cell_at j) (rows df)) = Ok (map snd K) /\
  Forall2 (keyed i j)
    (zip_with (set_nth j) (map of_time (map snd K)) (rows df)) K.
Proof.
  intros (WF & _ & _ & HK) Hi Hj.
  assert (Hij : i <> j).
  { intros ->. apply col_index_nth in Hi, Hj. congruence. }
  pose proof (col_index_lt _ _ _ Hj) as Hlt.
  unfold cell_of in HK. rewrite Hi, Hj in HK.
  unfold well_formed in WF. unfold to_datetime_series.
  induction HK as [| row k rs ks [A B] _ IH]; cbn.
  - split; [reflexivity | constructor].
  - inversion WF as [| ? ? Hrow WF']; subst.
    destruct (IH WF') as [IH1 IH2]. rewrite B, IH1. cbn [bind].
    split; [reflexivity |]. constructor; [| exact IH2]. split.
    + rewrite cell_at_set_nth_other by congruence. exact A.
    + apply cell_at_set_nth. lia.
Qed.

(** C1, as amended.  On a forecast table the selector returns a table with
    exactly one row for each delivery time present in the input, no two
    rows sharing a [DATETIME]; the [PostedDatetime] of the row kept for a
    delivery time is the greatest publication time among all the input
    rows with that delivery time (missing when none has one).  The
    selector applies no cutoff: the greatest publication time is the
    greatest one not after a cutoff when no input row was published after
    it, as is the case once the server has applied [postedDatetimeTo]. *)
Theorem filter_forecast_by_posted_latest (st : state) (l : ref)
    (df : DataFrame) (K : list key) :
  nth_error (heap st) l = Some df ->
  forecast_table df K ->
  exists l' st' out ts ps,
    load.filter_forecast_by_posted l st = (Ok l', st') /\
    nth_error (heap st') l' = Some out /\
    getitem out "DATETIME" = Ok (map CTime ts) /\
    NoDup ts /\
    (forall t, In t ts <-> exists b, In (Some t, b) K) /\
    getitem out "PostedDatetime" = Ok ps /\
    Forall2 (fun t c => latest (posted_for K t) c) ts ps /\
    forall cutoff,
      (forall t p, In (Some t, Some p) K -> p <= cutoff) ->
      Forall2 (fun t c => latest (not_after cutoff (posted_for K t)) c) ts ps.
Proof.
  intros E HT. pose proof HT as (WF & HD & HP & HK).
  assert (Hcut : forall ts ps,
    Forall2 (fun t c => latest (posted_for K t) c) ts ps ->
    forall cutoff,
      (forall t p, In (Some t, Some p) K -> p <= cutoff) ->
      Forall2 (fun t c => latest (not_after cutoff (posted_for K t)) c) ts ps).
  { intros ts ps HF cutoff Hc. eapply Forall2_impl; [| exact HF].
    intros t c. apply latest_perm. intros b. unfold not_after.
    rewrite filter_In. split; [| tauto]. intros Hb. split; [exact Hb |].
    destruct b as [p |]; [| reflexivity].
    apply Z.leb_le, (Hc t). now apply posted_for_In. }
  unfold load.filter_forecast_by_posted.
  unfold bindM at 1. unfold deref at 1. rewrite E.
  destruct (empty df) eqn:Eemp.
  - (* no rows: the frame itself is returned *)
    assert (Hrows : rows df = []).
    { unfold empty in Eemp. unfold has_column in HD.
      destruct (columns df); [discriminate |]. destruct (rows df); [reflexivity | discriminate]. }
    rewrite Hrows in HK. inversion HK; subst.
    exists l, st, df, [], []. unfold ret.
    rewrite (getitem_has_column _ _ HD), (getitem_has_column _ _ HP), Hrows.
    split; [reflexivity |]. split; [exact E |]. split; [reflexivity |].
    split; [constructor |].
    split; [intros t; split; [intros [] | intros (b & [])] |].
    split; [reflexivity |]. split; [constructor |].
    intros cutoff _. constructor.
  - destruct (col_index "DATETIME" (columns df)) as [i |] eqn:Hi;
      [| unfold has_column in HD; rewrite Hi in HD; discriminate].
    destruct (col_index "PostedDatetime" (columns df)) as [j |] eqn:Hj;
      [| unfold has_column in HP; rewrite Hj in HP; discriminate].
    destruct (forecast_table_convert df K i j HT Hi Hj) as [Hconv Hkeyed].
    rewrite HP. unfold bindM at 1. unfold bindM at 1.
    unfold getitemM at 1. unfold bindM at 1. unfold deref at 1. rewrite E.
    unfold lift at 1. unfold getitem at 1. rewrite Hj.
    unfold bindM at 1. unfold lift at 1. rewrite Hconv.
    unfold setitemM at 1. unfold update at 1. rewrite E.
    set (df1 := setitem df "PostedDatetime" (map of_time (map snd K))).
    set (h1 := set_nth l df1 (heap st)).
    assert (E1 : nth_error h1 l = Some df1) by (eapply nth_error_set_nth; eauto).
    unfold bindM at 1. unfold deref at 1. cbn [heap stdout]. rewrite E1.
    assert (Hdf1 : df1 = mkFrame (columns df)
                     (zip_with (set_nth j) (map of_time (map snd K)) (rows df))).
    { unfold df1, setitem. now rewrite Hj. }
    assert (Hsort := sort_values2_keyed df1 i j K).
    rewrite Hdf1 in Hsort. cbn [columns rows] in Hsort.
    specialize (Hsort Hi Hj Hkeyed). rewrite <- Hdf1 in Hsort.
    unfold bindM at 1. unfold lift at 1. rewrite Hsort.
    unfold bindM at 1. unfold new_frame at 1. cbn [heap stdout].
    unfold bindM at 1. unfold deref at 1. cbn [heap]. rewrite nth_error_snoc.
    set (rs2 := sort (row_leb i j) _).
    assert (HK2 : Forall2 (keyed i j) rs2 (sort key_leb K))
      by (apply sort_keyed, Hkeyed).
    destruct (groupby_last_keyed (columns df) rs2 i j (sort key_leb K) Hi Hj HK2)
      as (out & ps & Hg & G1 & G2 & G3).
    { apply sort_sorted; [apply key_leb_total | apply key_leb_trans]. }
    unfold bindM at 1. unfold lift at 1. rewrite Hg.
    unfold bindM at 1. unfold new_frame at 1. cbn [heap stdout]. unfold ret.
    assert (HP2 : forall k, In k (sort key_leb K) <-> In k K).
    { intros k. split; apply Permutation_in; [| symmetry]; apply sort_perm. }
    assert (G3' : Forall2 (fun t c => latest (posted_for K t) c)
                    (delivery_times (sort key_leb K)) ps).
    { eapply Forall2_impl; [| exact G3]. intros t c. apply latest_perm.
      intros b. rewrite !posted_for_In. apply HP2. }
    eexists. eexists. exists out, (delivery_times (sort key_leb K)), ps.
    split; [reflexivity |]. cbn [heap].
    split; [apply nth_error_snoc |].
    split; [exact G1 |]. split; [apply delivery_times_NoDup |].
    split.
    { intros t. rewrite delivery_times_In. split; intros (b & Hb); exists b;
        now apply HP2. }
    split; [exact G2 |]. split; [exact G3' | now apply Hcut].
Qed.

End Selector.

Definition two_vintages : DataFrame :=
  mkFrame ["DATETIME"; "PostedDatetime"]
    [[CTime (mk_datetime 2024 2 2 1 0); CStr "2024-02-01T08:00:00"];
     [CTime (mk_datetime 2024 2 2 1 0); CStr "2024-02-01T06:00:00"]].

Definition two_vintages_keys : list key :=
  [(Some (mk_datetime 2024 2 2 1 0), Some (mk_datetime 2024 2 1 8 0));
   (Some (mk_datetime 2024 2 2 1 0), Some (mk_datetime 2024 2 1 6 0))].

Lemma two_vintages_table : forecast_table (parser := iso) two_vintages two_vintages_keys.
Proof.
  split; [repeat constructor |]. split; [reflexivity |]. split; [reflexivity |].
  repeat constructor.
Qed.

(** The claim C1 as the specification words it fails on a table with a row
    published after the cutoff: for the delivery window ending 2024-02-02
    the cutoff is 2024-02-01 07:00; of the two vintages published at 06:00
    and at 08:00 the selector keeps the one of 08:00, which is after the
    cutoff, not the greatest one that is not after it. *)
Lemma filter_forecast_by_posted_ignores_cutoff :
  let cutoff := load.posted_datetime_cutoff (mk_datetime 2024 2 2 0 0) in
  let run := load.filter_forecast_by_posted (parser := iso) 0%nat (init [two_vintages]) in
  cutoff = mk_datetime 2024 2 1 7 0 /\
  fst run = Ok 2%nat /\
  getitem (frame_of (snd run) 2%nat) "DATETIME"
  = Ok [CTime (mk_datetime 2024 2 2 1 0)] /\
  getitem (frame_of (snd run) 2%nat) "PostedDatetime"
  = Ok [CTime (mk_datetime 2024 2 1 8 0)] /\
  cutoff < mk_datetime 2024 2 1 8 0 /\
  latest (not_after cutoff (posted_for two_vintages_keys (mk_datetime 2024 2 2 1 0)))
         (CTime (mk_datetime 2024 2 1 6 0)) /\
  ~ latest (not_after cutoff (posted_for two_vintages_keys (mk_datetime 2024 2 2 1 0)))
           (CTime (mk_datetime 2024 2 1 8 0)).
Proof.
  cbv zeta.
  split; [vm_compute; reflexivity |]. split; [vm_compute; reflexivity |].
  split; [vm_compute; reflexivity |]. split; [vm_compute; reflexivity |].
  split; [vm_compute; reflexivity |].
  change (not_after _ _) with [Some (mk_datetime 2024 2 1 6 0)].
  split.
  - right. exists (mk_datetime 2024 2 1 6 0). split; [reflexivity |].
    split; [now left |]. intros p [Hp | []]. injection Hp as <-. lia.
  - intros [[Hc _] | (m & Hc & [Hm | []] & _)]; [discriminate |].
    injection Hc as Hc. injection Hm as Hm. rewrite <- Hc in Hm.
    vm_compute in Hm. discriminate.
Qed.

Lemma filter_forecast_by_posted_latest_witness :
  exists l' st' out ts ps,
    load.filter_forecast_by_posted (parser := iso) 0%nat (init [two_vintages])
    = (Ok l', st') /\
    nth_error (heap st') l' = Some out /\
    getitem out "DATETIME" = Ok (map CTime ts) /\
    NoDup ts /\
    (forall t, In t ts <-> exists b, In (Some t, b) two_vintages_keys) /\
    getitem out "PostedDatetime" = Ok ps /\
    Forall2 (fun t c => latest (posted_for two_vintages_keys t) c) ts ps /\
    forall cutoff,
      (forall t p, In (Some t, Some p) two_vintages_keys -> p <= cutoff) ->
      Forall2 (fun t c => latest (not_after cutoff (posted_for two_vintages_keys t)) c)
              ts ps.
Proof.
  apply (filter_forecast_by_posted_latest (parser := iso) (init [two_vintages])
           0%nat two_vintages two_vintages_keys).
  - reflexivity.
  - exact two_vintages_table.
Defined.

(** ** Effects on the caller's table *)

Section Purity.
Context {parser : DatetimeParser}.

(** [normalize_column_names] works on a copy: every frame of the heap is
    as it was, and the result is a new frame. *)
Lemma normalize_column_names_keeps_input (st : state) (l : ref) (df : DataFrame) :
  nth_error (heap st) l = Some df ->
  exists out,
    utils.normalize_column_names l st
    = (Ok (List.length (heap st)), mkState (heap st ++ [out]) (stdout st)) /\
    columns out = map utils.to_pascal_case (columns df) /\
    rows out = rows df.
Proof.
  intros E. unfold utils.normalize_column_names.
  unfold bindM at 1. rewrite (copy_run _ _ _ E).
  unfold bindM at 1. unfold update. cbn [heap stdout].
  rewrite nth_error_snoc, set_nth_snoc. eexists. split; [reflexivity |].
  split; reflexivity.
Qed.

(** So does [add_datetime_column], whether it returns or raises. *)
Lemma add_datetime_column_keeps_input (st : state) (l : ref) (df : DataFrame) :
  nth_error (heap st) l = Some df ->
  exists r out lines,
    utils.add_datetime_column l st
    = (r, mkState (heap st ++ [out]) (stdout st ++ lines)).
Proof.
  intros E. rewrite (add_datetime_column_run st l df E).
  destruct (datetime_series df) as [[s |] | e].
  - exists (Ok (List.length (heap st))), (setitem df "DATETIME" s), [].
    now rewrite app_nil_r.
  - eauto.
  - exists (Raise e), df, []. now rewrite app_nil_r.
Qed.

End Purity.


(** * Further properties of the code *)

(** ** Dictionaries *)

Lemma dict_get_set_same {V : Type} (k : string) (v : V) (d : dict V) :
  dict_get k (dict_set k v d) = Some v.
Proof.
  induction d as [| [k' v'] d IH]; cbn.
  - now rewrite String.eqb_refl.
  - destruct (String.eqb k' k) eqn:E; cbn.
    + now rewrite String.eqb_refl.
    + now rewrite E.
Qed.

Lemma dict_get_set_other {V : Type} (k k0 : string) (v : V) (d : dict V) :
  k0 <> k -> dict_get k (dict_set k0 v d) = dict_get k d.
Proof.
  intros Hne. induction d as [| [k' v'] d IH]; cbn.
  - destruct (String.eqb_spec k0 k); [contradiction | reflexivity].
  - destruct (String.eqb_spec k' k0) as [-> | Hk]; cbn.
    + destruct (String.eqb_spec k0 k); [contradiction | reflexivity].
    + destruct (String.eqb k' k); [reflexivity | exact IH].
Qed.

Lemma dict_get_None {V : Type} (k : string) (d : dict V) :
  dict_get k d = None <-> ~ In k (dict_keys d).
Proof.
  induction d as [| [k' v'] d IH]; cbn; [tauto |].
  destruct (String.eqb_spec k' k) as [-> | Hk].
  - split; [discriminate | intros H; exfalso; auto].
  - rewrite IH. tauto.
Qed.

Lemma dict_get_In {V : Type} (k : string) (v : V) (d : dict V) :
  dict_get k d = Some v -> In (k, v) d.
Proof.
  induction d as [| [k' v'] d IH]; cbn; [discriminate |].
  destruct (String.eqb_spec k' k) as [-> | Hk].
  - intros E. injection E as ->. now left.
  - auto.
Qed.

Lemma dict_set_new {V : Type} (k : string) (v : V) (d : dict V) :
  ~ In k (dict_keys d) -> dict_set k v d = d ++ [(k, v)].
Proof.
  induction d as [| [k' v'] d IH]; cbn; intros H; [reflexivity |].
  destruct (String.eqb_spec k' k) as [-> | Hk]; [exfalso; auto |].
  rewrite IH by tauto. reflexivity.
Qed.

Lemma append_inj_l (p a b : string) :
  String.append p a = String.append p b -> a = b.
Proof.
  induction p as [| c p IH]; cbn; intros E; [exact E |].
  injection E as E. auto.
Qed.

(** ** Query parameters *)

(** What a keyword argument contributes: nothing when absent or [None]. *)
Definition keyword (k : string) (kwargs : dict pyval) : option string :=
  match dict_get k kwargs with
  | Some VNone | None => None
  | Some v => Some (py_str v)
  end.

(** The end of the date range: [date_to], or [date_from] when [date_to] is
    [None] or empty. *)
Definition range_end (date_from : string) (date_to : option string) : string :=
  match date_to with
  | Some d => if Py.nonempty d then d else date_from
  | None => date_from
  end.

Lemma fold_kwargs_get (k : string) (kwargs : dict pyval) (acc : dict string) :
  NoDup (dict_keys kwargs) ->
  dict_get k
    (fold_left
       (fun params (kv : string * pyval) =>
          match snd kv with
          | VNone => params
          | value => dict_set (fst kv) (py_str value) params
          end) kwargs acc)
  = match keyword k kwargs with
    | Some s => Some s
    | None => dict_get k acc
    end.
Proof.
  unfold keyword. revert acc.
  induction kwargs as [| [k0 v0] kwargs IH]; intros acc ND; cbn [fold_left].
  - reflexivity.
  - inversion ND as [| ? ? Hnot ND']; subst.
    rewrite (IH _ ND'). cbn [dict_get fst snd].
    destruct (String.eqb_spec k0 k) as [-> | Hne].
    + apply dict_get_None in Hnot. rewrite Hnot.
      destruct v0; cbn; [reflexivity | |]; apply dict_get_set_same.
    + destruct (dict_get k kwargs) as [[| s | n] |];
        destruct v0; cbn; try reflexivity; now apply dict_get_set_other.
Qed.

(** The query as a map from names to texts. *)
Lemma build_query_params_get (endpoint_name date_key date_from : string)
    (date_to : option string) (kwargs : dict pyval) (k : string) :
  NoDup (dict_keys kwargs) ->
  dict_get k (query.build_query_params endpoint_name date_key date_from date_to kwargs)
  = match keyword k kwargs with
    | Some s => Some s
    | None =>
        if String.eqb k (String.append date_key "From") then Some date_from
        else if String.eqb k (String.append date_key "To")
             then Some (range_end date_from date_to)
             else None
    end.
Proof.
  intros ND. unfold query.build_query_params.
  rewrite (fold_kwargs_get k kwargs _ ND).
  destruct (keyword k kwargs); [reflexivity |].
  fold (range_end date_from date_to).
  assert (Hne : String.append date_key "From" <> String.append date_key "To").
  { intros E. apply append_inj_l in E. discriminate. }
  cbn [dict_set].
  destruct (String.eqb_spec (String.append date_key "From") (String.append date_key "To"));
    [contradiction |].
  cbn [dict_get].
  rewrite (String.eqb_sym k (String.append date_key "From")).
  rewrite (String.eqb_sym k (String.append date_key "To")).
  reflexivity.
Qed.

(** X1.  [build_query_params] gives a key the string form of the keyword
    argument of that name when there is one that is not [None]; otherwise
    the [From] key has [date_from], the [To] key has [date_to], or
    [date_from] when [date_to] is [None] or empty, and no other key is
    present.  So a [None] keyword never reaches the query, and a keyword
    named like a date key replaces the date. *)
Theorem build_query_params_lookup (endpoint_name date_key date_from : string)
    (date_to : option string) (kwargs : dict pyval) :
  NoDup (dict_keys kwargs) ->
  let q := query.build_query_params endpoint_name date_key date_from date_to kwargs in
  let from := String.append date_key "From" in
  let to := String.append date_key "To" in
  (forall k s, keyword k kwargs = Some s -> dict_get k q = Some s) /\
  (keyword from kwargs = None -> dict_get from q = Some date_from) /\
  (keyword to kwargs = None ->
   dict_get to q = Some (range_end date_from date_to)) /\
  (forall k, keyword k kwargs = None -> k <> from -> k <> to ->
             dict_get k q = None).
Proof.
  intros ND q from to. subst q.
  assert (Hne : to <> from).
  { intros E. apply append_inj_l in E. discriminate. }
  split; [| split; [| split]].
  - intros k s Hk. now rewrite build_query_params_get, Hk.
  - intros Hk. rewrite build_query_params_get, Hk by exact ND.
    fold from. now rewrite String.eqb_refl.
  - intros Hk. rewrite build_query_params_get, Hk by exact ND.
    fold from. fold to.
    destruct (String.eqb_spec to from); [contradiction |].
    now rewrite String.eqb_refl.
  - intros k Hk Hf Ht. rewrite build_query_params_get, Hk by exact ND.
    fold from. fold to.
    destruct (String.eqb_spec k from); [contradiction |].
    destruct (String.eqb_spec k to); [contradiction | reflexivity].
Qed.

Lemma build_query_params_lookup_witness :
  let q := query.build_query_params "da_prices" "deliveryDate" "2024-01-01" None
             [("settlementPoint", VNone); ("size", VInt 1000)] in
  dict_get "size" q = Some "1000" /\
  dict_get "deliveryDateFrom" q = Some "2024-01-01" /\
  dict_get "deliveryDateTo" q = Some "2024-01-01" /\
  dict_get "settlementPoint" q = None.
Proof.
  cbv zeta.
  destruct (build_query_params_lookup "da_prices" "deliveryDate" "2024-01-01" None
              [("settlementPoint", VNone); ("size", VInt 1000)])
    as (H1 & H2 & H3 & H4).
  - repeat constructor; cbn; intuition discriminate.
  - split; [apply H1; reflexivity |].
    split; [apply H2; reflexivity |].
    split; [apply H3; reflexivity |].
    apply H4; [reflexivity | discriminate | discriminate].
Defined.

Lemma mem_string_In (c : string) (l : list string) :
  mem_string c l = true <-> In c l.
Proof.
  unfold mem_string. rewrite existsb_exists. split.
  - intros (x & Hx & E). apply String.eqb_eq in E. now subst.
  - intros H. exists c. split; [exact H | apply String.eqb_refl].
Qed.

(** The keys [validate_parameters] lets through. *)
Definition allowed (valid_params : list string) (kv : string * string) : bool :=
  mem_string (fst kv) valid_params || mem_string (fst kv) ["size"; "offset"].

Lemma validate_fold (valid_params : list string) (params : dict string)
    (f0 : dict string) (s0 : list string) :
  NoDup (dict_keys f0 ++ dict_keys params) ->
  fold_left
    (fun (acc : dict string * list string) (kv : string * string) =>
       let '(filtered, skipped) := acc in
       let '(key, value) := kv in
       if mem_string key valid_params || mem_string key ["size"; "offset"]
       then (dict_set key value filtered, skipped)
       else (filtered, skipped ++ [key]))
    params (f0, s0)
  = (f0 ++ filter (allowed valid_params) params,
     s0 ++ dict_keys (filter (fun kv => negb (allowed valid_params kv)) params)).
Proof.
  revert f0 s0. induction params as [| [k v] params IH]; intros f0 s0 ND;
    cbn [fold_left filter].
  - now rewrite !app_nil_r.
  - assert (Hk : ~ In k (dict_keys f0)).
    { apply NoDup_remove_2 in ND. intros H. apply ND. apply in_or_app. now left. }
    change (mem_string k valid_params || mem_string k ["size"; "offset"])
      with (allowed valid_params (k, v)).
    destruct (allowed valid_params (k, v)); cbn [negb].
    + rewrite (dict_set_new _ _ _ Hk), IH.
      * now rewrite <- app_assoc.
      * unfold dict_keys in *. rewrite map_app, <- app_assoc. exact ND.
    + rewrite IH.
      * cbn [dict_keys map fst]. now rewrite <- app_assoc.
      * apply NoDup_remove_1 in ND. exact ND.
Qed.

(** The run of [validate_parameters]. *)
Lemma validate_parameters_run (endpoint_name : string)
    (params : dict string) (valid_params : list string) (st : state) :
  NoDup (dict_keys params) ->
  let kept := filter (allowed valid_params) params in
  let skipped := dict_keys (filter (fun kv => negb (allowed valid_params kv)) params) in
  query.validate_parameters endpoint_name params valid_params st
  = (Ok kept,
     match skipped with
     | [] => st
     | _ =>
         mkState (heap st)
           (stdout st ++
            [("Warning: Skipped invalid parameters for " ++ endpoint_name
              ++ ": " ++ join_with ", " skipped)%string])
     end).
Proof.
  intros ND kept skipped. unfold query.validate_parameters.
  match goal with
  | |- context [fold_left ?f params ([], [])] =>
      replace (fold_left f params ([], [])) with (kept, skipped)
        by (symmetry; apply (validate_fold valid_params params [] [] ND))
  end.
  destruct skipped; reflexivity.
Qed.

(** X2.  [validate_parameters] returns exactly the entries whose key is in
    the list of valid names or is [size] or [offset], in their order and
    with their values; it prints one line naming the keys it dropped when
    there are some, and nothing otherwise. *)
Theorem validate_parameters_filters (endpoint_name : string)
    (params : dict string) (valid_params : list string) (st : state) :
  NoDup (dict_keys params) ->
  exists kept st',
    query.validate_parameters endpoint_name params valid_params st = (Ok kept, st') /\
    kept = filter (allowed valid_params) params /\
    (forall k v, In (k, v) kept <->
                 In (k, v) params /\
                 (In k valid_params \/ k = "size" \/ k = "offset")) /\
    heap st' = heap st /\
    let skipped :=
      dict_keys (filter (fun kv => negb (allowed valid_params kv)) params) in
    stdout st'
    = match skipped with
      | [] => stdout st
      | _ => stdout st ++
             [("Warning: Skipped invalid parameters for " ++ endpoint_name
               ++ ": " ++ join_with ", " skipped)%string]
      end.
Proof.
  intros ND. rewrite (validate_parameters_run endpoint_name params valid_params st ND).
  eexists. eexists. split; [reflexivity |]. split; [reflexivity |].
  split.
  - intros k v. rewrite filter_In. unfold allowed. cbn [fst].
    rewrite orb_true_iff, !mem_string_In. cbn [In]. intuition (auto; congruence).
  - destruct (dict_keys (filter _ params)); split; reflexivity.
Qed.

Lemma validate_parameters_filters_witness :
  exists kept st',
    query.validate_parameters "ercot_actual_load"
      [("operatingDayFrom", "2024-01-01"); ("settlementPoint", "HB_NORTH");
       ("size", "10")]
      ["operatingDayFrom"; "operatingDayTo"; "size"] (init [])
    = (Ok kept, st') /\
    kept = [("operatingDayFrom", "2024-01-01"); ("size", "10")] /\
    stdout st'
    = ["Warning: Skipped invalid parameters for ercot_actual_load: settlementPoint"].
Proof.
  destruct (validate_parameters_filters "ercot_actual_load"
              [("operatingDayFrom", "2024-01-01"); ("settlementPoint", "HB_NORTH");
               ("size", "10")]
              ["operatingDayFrom"; "operatingDayTo"; "size"] (init []))
    as (kept & st' & Run & Hk & _ & _ & Hout).
  - repeat constructor; cbn; intuition discriminate.
  - exists kept, st'. split; [exact Run |]. split; [exact Hk | exact Hout].
Defined.

(** ** The endpoint catalog *)

(** What is checked of one entry of the catalog. *)
Definition entry_ok (e : string * (string * string)) : bool :=
  let '(n, (dk, u)) := e in
  match endpoints.get_endpoint_spec n with
  | Ok s =>
      String.eqb (endpoints.name s) n
      && String.eqb (endpoints.date_key s) dk
      && String.eqb (endpoints.url s) u
      && existsb (fun ce : string * list string =>
                    String.eqb (fst ce) (endpoints.category s)
                    && mem_string n (snd ce)) endpoints.ENDPOINT_CATEGORIES
      && (Nat.eqb 1
            (List.length (filter (fun ce : string * list string => mem_string n (snd ce))
                                 endpoints.ENDPOINT_CATEGORIES)))
      && mem_string (String.append dk "From") (endpoints.valid_parameters s)
      && mem_string (String.append dk "To") (endpoints.valid_parameters s)
      && negb (mem_string (String.append dk "From") client.reserved_keywords)
      && negb (mem_string (String.append dk "To") client.reserved_keywords)
  | Raise _ => false
  end.

Lemma catalog_ok : forallb entry_ok endpoints.ANNOTATED_ENDPOINTS = true.
Proof. vm_compute. reflexivity. Qed.

(** X3.  Every endpoint [validate_endpoint] accepts has a specification:
    it carries the endpoint's own name, the date key and the URL that
    [get_date_key] and [get_url] return, and the category of the one
    category list that names the endpoint; the [From] and [To] parameters
    of its date key are among its valid parameters.  An endpoint that is
    not accepted gets a [ValueError] from all three lookups. *)
Theorem get_endpoint_spec_consistent (n : string) :
  (endpoints.validate_endpoint n = true ->
   exists s,
     endpoints.get_endpoint_spec n = Ok s /\
     endpoints.name s = n /\
     endpoints.get_date_key n = Ok (endpoints.date_key s) /\
     endpoints.get_url n = Ok (endpoints.url s) /\
     (exists names,
        In (endpoints.category s, names) endpoints.ENDPOINT_CATEGORIES /\ In n names) /\
     (forall c names,
        In (c, names) endpoints.ENDPOINT_CATEGORIES -> In n names ->
        c = endpoints.category s) /\
     In (String.append (endpoints.date_key s) "From") (endpoints.valid_parameters s) /\
     In (String.append (endpoints.date_key s) "To") (endpoints.valid_parameters s)) /\
  (endpoints.validate_endpoint n = false ->
   (exists msg, endpoints.get_endpoint_spec n = Raise (ValueError msg)) /\
   (exists msg, endpoints.get_date_key n = Raise (ValueError msg)) /\
   (exists msg, endpoints.get_url n = Raise (ValueError msg))).
Proof.
  unfold endpoints.validate_endpoint, endpoints.get_date_key, endpoints.get_url.
  destruct (dict_get n endpoints.ANNOTATED_ENDPOINTS) as [[dk u] |] eqn:E.
  - split; [intros _ | discriminate].
    pose proof (proj1 (forallb_forall _ _) catalog_ok _ (dict_get_In _ _ _ E)) as C.
    unfold entry_ok in C.
    destruct (endpoints.get_endpoint_spec n) as [s |]; [| discriminate].
    repeat (apply andb_prop in C as [C ?]).
    repeat match goal with
           | H : String.eqb _ _ = true |- _ => apply String.eqb_eq in H
           | H : mem_string _ _ = true |- _ => apply mem_string_In in H
           end.
    exists s. subst dk u.
    split; [reflexivity |]. split; [assumption |].
    split; [reflexivity |]. split; [reflexivity |].
    match goal with H : existsb _ _ = true |- _ =>
      apply existsb_exists in H as ([c names] & Hin & Hc) end.
    apply andb_prop in Hc as [Hc1 Hc2]. cbn [fst snd] in *.
    apply String.eqb_eq in Hc1. apply mem_string_In in Hc2. subst c.
    split; [eauto |]. split; [| split; assumption].
    intros c names' Hin' Hn'.
    match goal with H : Nat.eqb 1 _ = true |- _ => apply Nat.eqb_eq in H; rename H into Hone end.
    (* only one category list names [n] *)
    assert (F1 : In (endpoints.category s, names)
                    (filter (fun ce : string * list string => mem_string n (snd ce))
                            endpoints.ENDPOINT_CATEGORIES)).
    { apply filter_In. split; [exact Hin | now apply mem_string_In]. }
    assert (F2 : In (c, names')
                    (filter (fun ce : string * list string => mem_string n (snd ce))
                            endpoints.ENDPOINT_CATEGORIES)).
    { apply filter_In. split; [exact Hin' | now apply mem_string_In]. }
    destruct (filter _ endpoints.ENDPOINT_CATEGORIES) as [| x [| y l]];
      cbn in Hone; try discriminate.
    destruct F1 as [F1 | []]. destruct F2 as [F2 | []]. congruence.
  - split; [discriminate | intros _].
    unfold endpoints.get_endpoint_spec. rewrite E.
    split; [| split]; eexists; reflexivity.
Qed.

Lemma get_endpoint_spec_consistent_witness :
  exists s,
    endpoints.get_endpoint_spec "ercot_outages" = Ok s /\
    endpoints.name s = "ercot_outages" /\
    endpoints.get_date_key "ercot_outages" = Ok (endpoints.date_key s) /\
    endpoints.get_url "ercot_outages" = Ok (endpoints.url s) /\
    (exists names,
       In (endpoints.category s, names) endpoints.ENDPOINT_CATEGORIES /\
       In "ercot_outages" names) /\
    (forall c names,
       In (c, names) endpoints.ENDPOINT_CATEGORIES -> In "ercot_outages" names ->
       c = endpoints.category s) /\
    In (String.append (endpoints.date_key s) "From") (endpoints.valid_parameters s) /\
    In (String.append (endpoints.date_key s) "To") (endpoints.valid_parameters s).
Proof.
  apply (proj1 (get_endpoint_spec_consistent "ercot_outages")). reflexivity.
Defined.

(** X4.  [list_endpoints] answers for ["all"] and for the five category
    names and for nothing else.  For ["all"] it lists the whole catalog in
    its order; for a category it lists the endpoints of that category in
    the order of the category list, and every specification it returns
    carries that category. *)
Theorem list_endpoints_categories (c : string) :
  (c = "all" ->
   exists specs,
     endpoints.list_endpoints c = Ok specs /\
     map endpoints.name specs = dict_keys endpoints.ANNOTATED_ENDPOINTS) /\
  (forall names,
     c <> "all" -> dict_get c endpoints.ENDPOINT_CATEGORIES = Some names ->
     exists specs,
       endpoints.list_endpoints c = Ok specs /\
       map endpoints.name specs = names /\
       Forall (fun s => endpoints.category s = c) specs) /\
  (c <> "all" -> dict_get c endpoints.ENDPOINT_CATEGORIES = None ->
   exists msg, endpoints.list_endpoints c = Raise (ValueError msg)).
Proof.
  split; [| split].
  - intros ->. eexists. split; vm_compute; reflexivity.
  - intros names Hall E. unfold endpoints.list_endpoints.
    destruct (String.eqb_spec c "all"); [contradiction |]. rewrite E. cbn [bind].
    revert E. unfold endpoints.ENDPOINT_CATEGORIES. cbn [dict_get].
    repeat match goal with
           | |- (if String.eqb ?a c then _ else _) = _ -> _ =>
               destruct (String.eqb_spec a c) as [<- | ?]
           end;
      try discriminate;
      intros E; injection E as <-;
      (eexists; split; [vm_compute; reflexivity |];
       split; [reflexivity | repeat constructor]).
  - intros Hall E. unfold endpoints.list_endpoints.
    destruct (String.eqb_spec c "all"); [contradiction |]. rewrite E. cbn [bind].
    eauto.
Qed.

Lemma list_endpoints_categories_witness :
  (exists specs,
     endpoints.list_endpoints "forecasts" = Ok specs /\
     map endpoints.name specs
     = ["ercot_load_forecast"; "ercot_zone_load_forecast"; "solar_system_forecast";
        "wind_system_forecast"] /\
     Forall (fun s => endpoints.category s = "forecasts") specs) /\
  (exists msg, endpoints.list_endpoints "bogus" = Raise (ValueError msg)).
Proof.
  split.
  - apply (proj1 (proj2 (list_endpoints_categories "forecasts")));
      [discriminate | reflexivity].
  - apply (proj2 (proj2 (list_endpoints_categories "bogus")));
      [discriminate | reflexivity].
Defined.

(** ** Requests *)

Lemma dict_set_keys {V : Type} (k : string) (v : V) (d : dict V) :
  dict_keys (dict_set k v d)
  = if mem_string k (dict_keys d) then dict_keys d else dict_keys d ++ [k].
Proof.
  induction d as [| [k' v'] d IH]; cbn; [reflexivity |].
  rewrite (String.eqb_sym k k').
  destruct (String.eqb_spec k' k) as [-> | Hne]; cbn; [reflexivity |].
  unfold dict_keys in *. rewrite IH. unfold mem_string.
  destruct (existsb _ _); reflexivity.
Qed.

Lemma dict_set_NoDup {V : Type} (k : string) (v : V) (d : dict V) :
  NoDup (dict_keys d) -> NoDup (dict_keys (dict_set k v d)).
Proof.
  intros ND. rewrite dict_set_keys.
  destruct (mem_string k (dict_keys d)) eqn:E; [exact ND |].
  assert (Hk : ~ In k (dict_keys d)).
  { intros H. apply mem_string_In in H. congruence. }
  apply NoDup_app; [exact ND | repeat constructor; auto |].
  intros x Hx [<- | []]. contradiction.
Qed.

Lemma build_query_params_NoDup (endpoint_name date_key date_from : string)
    (date_to : option string) (kwargs : dict pyval) :
  NoDup (dict_keys
           (query.build_query_params endpoint_name date_key date_from date_to kwargs)).
Proof.
  unfold query.build_query_params.
  match goal with |- context [fold_left ?f kwargs ?acc] =>
    assert (H : NoDup (dict_keys acc)) by (repeat apply dict_set_NoDup; constructor);
    generalize dependent acc
  end.
  induction kwargs as [| [k v] kwargs IH]; intros acc H; cbn [fold_left];
    [exact H |].
  apply IH. cbn [fst snd]. destruct v; [exact H | |]; now apply dict_set_NoDup.
Qed.

Definition key_allowed (valid_params : list string) (k : string) : bool :=
  mem_string k valid_params || mem_string k ["size"; "offset"].

Lemma dict_get_allowed (valid_params : list string) (k : string) (d : dict string) :
  dict_get k (filter (allowed valid_params) d)
  = if key_allowed valid_params k then dict_get k d else None.
Proof.
  induction d as [| [k' v'] d IH]; cbn [filter dict_get].
  - now destruct (key_allowed valid_params k).
  - change (allowed valid_params (k', v')) with (key_allowed valid_params k').
    destruct (String.eqb_spec k' k) as [Heq | Hne].
    + subst k'. destruct (key_allowed valid_params k) eqn:Ek.
      * cbn [dict_get]. now rewrite String.eqb_refl.
      * rewrite IH. now rewrite ?Ek.
    + destruct (key_allowed valid_params k').
      * cbn [dict_get]. destruct (String.eqb_spec k' k); [contradiction | exact IH].
      * exact IH.
Qed.

Section Requests.
Context {parser : DatetimeParser}.
Variable ercot_api_call : string -> dict string -> M client.response.

(** X5.  [fetch_data] sends no request and prints nothing in two cases,
    whatever the request function may do: for a name the catalog does not
    have it raises [ValueError] at once; for a name of the catalog and an
    extra keyword that repeats one of the keywords [fetch_data] passes to
    [build_query_params] itself it raises [TypeError].  The state is as
    before the call. *)
Theorem fetch_data_no_request (endpoint_name date_from : string)
    (date_to settlement_point resource_type : option string) (size : Z)
    (kwargs : dict pyval) (st : state) :
  (endpoints.validate_endpoint endpoint_name = false ->
   client.fetch_data ercot_api_call endpoint_name date_from date_to
     settlement_point resource_type size kwargs st
   = (Raise (ValueError
        ("Unknown endpoint: " ++ endpoint_name
         ++ ". Use list_endpoints() to see available endpoints.")), st)) /\
  (endpoints.validate_endpoint endpoint_name = true ->
   (exists k, In k (dict_keys kwargs) /\ In k client.reserved_keywords) ->
   client.fetch_data ercot_api_call endpoint_name date_from date_to
     settlement_point resource_type size kwargs st
   = (Raise TypeError, st)).
Proof.
  split.
  - intros H. unfold client.fetch_data. rewrite H. reflexivity.
  - intros H (k & Hk & Hr). unfold client.fetch_data. rewrite H. cbn [negb].
    unfold endpoints.validate_endpoint in H.
    unfold endpoints.get_endpoint_spec.
    destruct (dict_get endpoint_name endpoints.ANNOTATED_ENDPOINTS) as [[dk u] |];
      [| discriminate].
    unfold bindM at 1. unfold lift at 1.
    replace (existsb _ (dict_keys kwargs)) with true; [reflexivity |].
    symmetry. apply existsb_exists. exists k. split; [exact Hk |].
    now apply mem_string_In.
Qed.

(** The keyword arguments [fetch_data] hands to [build_query_params]. *)
Definition keywords (settlement_point resource_type : option string) (size : Z)
    (kwargs : dict pyval) : dict pyval :=
  [("settlementPoint", client.opt_str settlement_point);
   ("resourceType", client.opt_str resource_type);
   ("size", VInt size)] ++ kwargs.

Lemma keyword_not_reserved (k : string) (sp rt : option string) (size : Z)
    (kwargs : dict pyval) :
  mem_string k client.reserved_keywords = false ->
  keyword k (keywords sp rt size kwargs) = keyword k kwargs.
Proof.
  intros H. unfold keyword, keywords. cbn [app dict_get].
  assert (N : forall r, In r client.reserved_keywords -> String.eqb r k = false).
  { intros r Hr. destruct (String.eqb_spec r k) as [-> | _]; [| reflexivity].
    apply mem_string_In in Hr. congruence. }
  rewrite !N by (cbn; auto 10). reflexivity.
Qed.

(** The run of [fetch_data] up to the request. *)
Lemma fetch_data_run (endpoint_name date_from : string)
    (date_to settlement_point resource_type : option string) (size : Z)
    (kwargs : dict pyval) (st : state) :
  endpoints.validate_endpoint endpoint_name = true ->
  NoDup (dict_keys kwargs) ->
  (forall k, In k (dict_keys kwargs) -> ~ In k client.reserved_keywords) ->
  exists spec st1,
    let dk := endpoints.date_key spec in
    let kw := keywords settlement_point resource_type size kwargs in
    let built := query.build_query_params endpoint_name dk date_from date_to kw in
    let params := filter (allowed (endpoints.valid_parameters spec)) built in
    endpoints.get_endpoint_spec endpoint_name = Ok spec /\
    NoDup (dict_keys kw) /\
    mem_string (String.append dk "From") (endpoints.valid_parameters spec) = true /\
    mem_string (String.append dk "To") (endpoints.valid_parameters spec) = true /\
    mem_string (String.append dk "From") client.reserved_keywords = false /\
    mem_string (String.append dk "To") client.reserved_keywords = false /\
    client.fetch_data ercot_api_call endpoint_name date_from date_to
      settlement_point resource_type size kwargs st
    = (let* resp := ercot_api_call (endpoints.url spec) params in
       client.parse_ercot_response resp) st1 /\
    heap st1 = heap st.
Proof.
  intros Hv ND Hres.
  unfold endpoints.validate_endpoint in Hv.
  destruct (dict_get endpoint_name endpoints.ANNOTATED_ENDPOINTS) as [[dk u] |] eqn:E;
    [| discriminate].
  pose proof (proj1 (forallb_forall _ _) catalog_ok _ (dict_get_In _ _ _ E)) as C.
  unfold entry_ok in C.
  destruct (endpoints.get_endpoint_spec endpoint_name) as [spec |] eqn:Es;
    [| discriminate].
  repeat (apply andb_prop in C as [C ?]).
  match goal with H : String.eqb (endpoints.date_key spec) dk = true |- _ =>
    apply String.eqb_eq in H; subst dk end.
  repeat match goal with
         | H : negb _ = true |- _ => apply negb_true_iff in H
         end.
  set (dk := endpoints.date_key spec) in *.
  set (kw := keywords settlement_point resource_type size kwargs).
  set (built := query.build_query_params endpoint_name dk date_from date_to kw).
  assert (Hex : existsb (fun k => mem_string k client.reserved_keywords)
                        (dict_keys kwargs) = false).
  { apply not_true_is_false. intros Hx. apply existsb_exists in Hx as (k & Hk & Hm).
    apply mem_string_In in Hm. exact (Hres k Hk Hm). }
  assert (NDkw : NoDup (dict_keys kw)).
  { unfold kw, keywords. cbn [app dict_keys map fst].
    assert (R : forall r, In r client.reserved_keywords ->
                          ~ In r (map fst kwargs)).
    { intros r Hr Hk. exact (Hres r Hk Hr). }
    constructor.
    { cbn [In]. intros [Hx | [Hx | Hx]]; try discriminate.
      revert Hx. apply R. cbn. auto 10. }
    constructor.
    { cbn [In]. intros [Hx | Hx]; try discriminate.
      revert Hx. apply R. cbn. auto 10. }
    constructor; [| exact ND].
    apply R. cbn. auto 10. }
  pose proof (validate_parameters_run endpoint_name built
                (endpoints.valid_parameters spec) st
                (build_query_params_NoDup _ _ _ _ _)) as V.
  cbv zeta in V.
  exists spec. eexists. cbv zeta. fold dk. fold kw. fold built.
  split; [reflexivity |]. split; [exact NDkw |].
  do 4 (split; [assumption |]).
  split.
  { unfold client.fetch_data. unfold endpoints.validate_endpoint. rewrite E.
    cbn [negb]. unfold bindM at 1. unfold lift at 1. rewrite Es.
    unfold bindM at 1. rewrite Hex. unfold ret at 1.
    fold dk.
    change (query.build_query_params endpoint_name dk date_from date_to (_ ++ kwargs))
      with built.
    unfold bindM at 1. rewrite V. reflexivity. }
  destruct (dict_keys (filter _ built)); reflexivity.
Qed.

(** X6.  For an endpoint of the catalog, [fetch_data] sends one request to
    the endpoint's URL.  A parameter is sent exactly when its name is valid
    for the endpoint or is [size] or [offset], with the value
    [build_query_params] gave it; [size] is always sent, and so are the two
    ends of the date range, under the names of the endpoint's date key,
    unless a keyword of that name took their place.  Frames on the heap are
    not touched before the request. *)
Theorem fetch_data_request (endpoint_name date_from : string)
    (date_to settlement_point resource_type : option string) (size : Z)
    (kwargs : dict pyval) (st : state) :
  endpoints.validate_endpoint endpoint_name = true ->
  NoDup (dict_keys kwargs) ->
  (forall k, In k (dict_keys kwargs) -> ~ In k client.reserved_keywords) ->
  exists spec params st1,
    let dk := endpoints.date_key spec in
    let built :=
      query.build_query_params endpoint_name dk date_from date_to
        (keywords settlement_point resource_type size kwargs) in
    endpoints.get_endpoint_spec endpoint_name = Ok spec /\
    client.fetch_data ercot_api_call endpoint_name date_from date_to
      settlement_point resource_type size kwargs st
    = (let* resp := ercot_api_call (endpoints.url spec) params in
       client.parse_ercot_response resp) st1 /\
    heap st1 = heap st /\
    (forall k, dict_get k params
               = if key_allowed (endpoints.valid_parameters spec) k
                 then dict_get k built else None) /\
    dict_get "size" params = Some (str_of_int size) /\
    (keyword (String.append dk "From") kwargs = None ->
     dict_get (String.append dk "From") params = Some date_from) /\
    (keyword (String.append dk "To") kwargs = None ->
     dict_get (String.append dk "To") params = Some (range_end date_from date_to)).
Proof.
  intros Hv ND Hres.
  destruct (fetch_data_run endpoint_name date_from date_to settlement_point
              resource_type size kwargs st Hv ND Hres)
    as (spec & st1 & Hspec & NDkw & Hf & Ht & Hfr & Htr & Hrun & Hheap).
  set (dk := endpoints.date_key spec) in *.
  set (kw := keywords settlement_point resource_type size kwargs) in *.
  set (built := query.build_query_params endpoint_name dk date_from date_to kw) in *.
  set (params := filter (allowed (endpoints.valid_parameters spec)) built) in *.
  exists spec, params, st1. cbv zeta. fold dk. fold kw. fold built.
  split; [exact Hspec |]. split; [exact Hrun |]. split; [exact Hheap |].
  assert (L : forall k, dict_get k params
               = if key_allowed (endpoints.valid_parameters spec) k
                 then dict_get k built else None)
    by (intros k; apply dict_get_allowed).
  split; [exact L |].
  split; [| split].
  - rewrite L. unfold key_allowed.
    replace (mem_string "size" ["size"; "offset"]) with true by reflexivity.
    rewrite orb_true_r. unfold built.
    rewrite (build_query_params_get _ _ _ _ _ _ NDkw). reflexivity.
  - intros Hk. rewrite L. unfold key_allowed. rewrite Hf.
    cbn [orb]. unfold built.
    rewrite (build_query_params_get _ _ _ _ _ _ NDkw).
    unfold kw. rewrite keyword_not_reserved by assumption. rewrite Hk.
    now rewrite String.eqb_refl.
  - intros Hk. rewrite L. unfold key_allowed. rewrite Ht.
    cbn [orb]. unfold built.
    rewrite (build_query_params_get _ _ _ _ _ _ NDkw).
    unfold kw. rewrite keyword_not_reserved by assumption. rewrite Hk.
    destruct (String.eqb_spec (String.append dk "To") (String.append dk "From")) as [Eq | _].
    + apply append_inj_l in Eq. discriminate.
    + now rewrite String.eqb_refl.
Qed.

End Requests.

(** A request function that answers with an object without rows. *)
Definition no_data_call (url : string) (params : dict string) : M client.response :=
  ret (client.mkResponse None None).

Lemma fetch_data_no_request_witness :
  client.fetch_data (parser := iso) no_data_call "spot_prices" "2024-01-01" None
    None None 1000 [] (init [])
  = (Raise (ValueError
       "Unknown endpoint: spot_prices. Use list_endpoints() to see available endpoints."),
     init []) /\
  client.fetch_data (parser := iso) no_data_call "da_prices" "2024-01-01" None
    None None 1000 [("settlementPoint", VStr "HB_NORTH")] (init [])
  = (Raise TypeError, init []).
Proof.
  split.
  - apply (proj1 (fetch_data_no_request (parser := iso) no_data_call "spot_prices"
                    "2024-01-01" None None None 1000 [] (init []))).
    reflexivity.
  - apply (proj2 (fetch_data_no_request (parser := iso) no_data_call "da_prices"
                    "2024-01-01" None None None 1000
                    [("settlementPoint", VStr "HB_NORTH")] (init []))).
    + reflexivity.
    + exists "settlementPoint". split; [now left | cbn; auto 10].
Defined.

Lemma fetch_data_request_witness :
  exists spec params st1,
    let dk := endpoints.date_key spec in
    let built :=
      query.build_query_params "ercot_actual_load" dk "2024-01-01" None
        (keywords (Some "HB_NORTH") None 10 [("postedDatetimeTo", VStr "2024-01-02")]) in
    endpoints.get_endpoint_spec "ercot_actual_load" = Ok spec /\
    client.fetch_data (parser := iso) no_data_call "ercot_actual_load" "2024-01-01"
      None (Some "HB_NORTH") None 10 [("postedDatetimeTo", VStr "2024-01-02")]
      (init [])
    = (let* resp := no_data_call (endpoints.url spec) params in
       client.parse_ercot_response (parser := iso) resp) st1 /\
    heap st1 = heap (init []) /\
    (forall k, dict_get k params
               = if key_allowed (endpoints.valid_parameters spec) k
                 then dict_get k built else None) /\
    dict_get "size" params = Some (str_of_int 10) /\
    (keyword (String.append dk "From") [("postedDatetimeTo", VStr "2024-01-02")] = None ->
     dict_get (String.append dk "From") params = Some "2024-01-01") /\
    (keyword (String.append dk "To") [("postedDatetimeTo", VStr "2024-01-02")] = None ->
     dict_get (String.append dk "To") params = Some (range_end "2024-01-01" None)).
Proof.
  apply (fetch_data_request (parser := iso) no_data_call "ercot_actual_load"
           "2024-01-01" None (Some "HB_NORTH") None 10
           [("postedDatetimeTo", VStr "2024-01-02")] (init [])).
  - reflexivity.
  - repeat constructor; cbn; intuition discriminate.
  - intros k [<- | []] H. cbn in H. intuition discriminate.
Defined.

(** ** Normalisation of a response *)

Lemma getitem_length (df : DataFrame) (name : string) (s : Series) :
  getitem df name = Ok s -> List.length s = List.length (rows df).
Proof.
  unfold getitem. destruct (col_index name (columns df)); [| discriminate].
  intros E. injection E as <-. apply length_map.
Qed.

Lemma zip_with_length {A B C : Type} (f : A -> B -> C) (l : list A) (m : list B) :
  List.length l = List.length m ->
  List.length (zip_with f l m) = List.length l.
Proof.
  revert m. induction l as [| a l IH]; intros [| b m] H; cbn in *;
    try discriminate; [reflexivity | f_equal; apply IH; lia].
Qed.

Lemma setitem_rows_length (df : DataFrame) (name : string) (s : Series) :
  List.length s = List.length (rows df) ->
  List.length (rows (setitem df name s)) = List.length (rows df).
Proof.
  intros H. unfold setitem.
  destruct (col_index name (columns df)); cbn [rows];
    rewrite zip_with_length; auto.
Qed.

Lemma setitem_well_formed (df : DataFrame) (name : string) (s : Series) :
  well_formed df -> well_formed (setitem df name s).
Proof.
  unfold well_formed, setitem. intros WF.
  destruct (col_index name (columns df)) as [i |]; cbn [rows columns].
  - revert s. induction WF as [| row rs Hrow _ IH]; intros [| c s]; cbn;
      constructor; [| apply IH].
    now rewrite set_nth_length.
  - revert s. induction WF as [| row rs Hrow _ IH]; intros [| c s]; cbn;
      constructor; [| apply IH].
    rewrite !length_app, Hrow. reflexivity.
Qed.

Lemma col_index_neq (a b : string) (cols : list string) (i j : nat) :
  a <> b -> col_index a cols = Some i -> col_index b cols = Some j -> i <> j.
Proof.
  intros Hab. revert i j. induction cols as [| c cols IH]; cbn; intros i j Ea Eb;
    [discriminate |].
  destruct (String.eqb_spec c a) as [Ha | Ha], (String.eqb_spec c b) as [Hb | Hb];
    try congruence.
  - destruct (col_index b cols); [| discriminate].
    injection Ea as <-. injection Eb as <-. discriminate.
  - destruct (col_index a cols); [| discriminate].
    injection Ea as <-. injection Eb as <-. discriminate.
  - destruct (col_index a cols) as [i' |]; [| discriminate].
    destruct (col_index b cols) as [j' |]; [| discriminate].
    injection Ea as <-. injection Eb as <-.
    specialize (IH i' j' eq_refl eq_refl). lia.
Qed.

Lemma col_index_snoc_other (name other : string) (cols : list string) :
  other <> name -> col_index name cols = None ->
  col_index name (cols ++ [other]) = None.
Proof.
  intros Hne. induction cols as [| c cols IH]; cbn; intros E.
  - destruct (String.eqb_spec other name); [contradiction | reflexivity].
  - destruct (String.eqb c name); [discriminate |].
    destruct (col_index name cols); [discriminate |].
    now rewrite IH.
Qed.

(** Assigning one column leaves the others as they were. *)
Lemma getitem_setitem_other (df : DataFrame) (name c : string) (s : Series) :
  well_formed df ->
  List.length s = List.length (rows df) ->
  c <> name ->
  getitem (setitem df name s) c = getitem df c.
Proof.
  unfold well_formed, getitem, setitem. intros WF HL Hne.
  destruct (col_index name (columns df)) as [i |] eqn:E; cbn [columns rows].
  - destruct (col_index c (columns df)) as [j |] eqn:Ec; [| reflexivity].
    f_equal. pose proof (col_index_neq _ _ _ _ _ (not_eq_sym Hne) E Ec) as Hij.
    clear WF. revert s HL. induction (rows df) as [| row rs IH]; intros [| x s] HL;
      try discriminate; [reflexivity |].
    cbn [zip_with map]. injection HL as HL.
    rewrite (IH s HL). f_equal. now apply cell_at_set_nth_other.
  - destruct (col_index c (columns df)) as [j |] eqn:Ec.
    + rewrite (col_index_snoc_old _ _ _ _ Ec). f_equal.
      pose proof (col_index_lt _ _ _ Ec) as Hj.
      revert s HL. induction WF as [| row rs Hrow _ IH]; intros [| x s] HL;
        try discriminate; [reflexivity |].
      cbn [zip_with map]. injection HL as HL.
      rewrite (IH s HL). f_equal. apply cell_at_snoc_old. lia.
    + rewrite (col_index_snoc_other _ _ _ (not_eq_sym Hne) Ec). reflexivity.
Qed.

Section Normalisation.
Context {parser : DatetimeParser}.

Ltac bind_ok H :=
  match type of H with
  | bind ?m _ = Ok _ =>
      let E := fresh "E" in
      destruct m eqn:E; cbn [bind] in H; [| discriminate]
  end.

Lemma pattern1_length (df : DataFrame) (s : Series) :
  pattern1 df = Ok s -> List.length s = List.length (rows df).
Proof.
  unfold pattern1. intros H. repeat bind_ok H. injection H as <-.
  unfold to_datetime_series, to_timedelta_series in *.
  repeat match goal with
         | E : mapM _ _ = Ok _ |- _ => apply mapM_length in E
         | E : getitem _ _ = Ok _ |- _ => apply getitem_length in E
         end.
  rewrite length_map. cbv [datetime timedelta] in *.
  rewrite zip_with_length; rewrite zip_with_length; congruence.
Qed.

Lemma pattern5_length (df : DataFrame) (s : Series) :
  pattern5 df = Ok s -> List.length s = List.length (rows df).
Proof.
  unfold pattern5. intros H. repeat bind_ok H. injection H as <-.
  unfold to_datetime_series, to_timedelta_series in *.
  repeat match goal with
         | E : mapM _ _ = Ok _ |- _ => apply mapM_length in E
         | E : getitem _ _ = Ok _ |- _ => apply getitem_length in E
         end.
  rewrite length_map. cbv [datetime timedelta] in *.
  rewrite zip_with_length; congruence.
Qed.

Lemma direct_length (col : string) (df : DataFrame) (s : Series) :
  direct col df = Ok s -> List.length s = List.length (rows df).
Proof.
  unfold direct. intros H. repeat bind_ok H. injection H as <-.
  unfold to_datetime_series in *.
  repeat match goal with
         | E : mapM _ _ = Ok _ |- _ => apply mapM_length in E
         | E : getitem _ _ = Ok _ |- _ => apply getitem_length in E
         end.
  rewrite length_map. congruence.
Qed.

Lemma apply_hour_ending_length (base : string) (df : DataFrame) (s : Series) :
  utils.apply_hour_ending base df = Ok s -> List.length s = List.length (rows df).
Proof.
  unfold utils.apply_hour_ending. intros H. repeat bind_ok H.
  apply mapM_length in H.
  repeat match goal with
         | E : getitem _ _ = Ok _ |- _ => apply getitem_length in E
         end.
  rewrite H, length_combine. lia.
Qed.

Lemma hour_ending_length (base : string) (df : DataFrame) (s : Series) :
  hour_ending base df = Ok s -> List.length s = List.length (rows df).
Proof.
  unfold hour_ending. destruct (rows df) eqn:E; [discriminate |].
  intros H. rewrite <- E. now apply (apply_hour_ending_length base).
Qed.

(** The series assigned to [DATETIME] has one element for each row. *)
Lemma datetime_series_length (df : DataFrame) (s : Series) :
  datetime_series df = Ok (Some s) -> List.length s = List.length (rows df).
Proof.
  unfold datetime_series. intros H.
  repeat match type of H with
         | (if ?b then _ else _) = _ => destruct b
         end;
    try discriminate;
    bind_ok H; injection H as <-;
    eauto using pattern1_length, pattern5_length, direct_length,
      hour_ending_length.
Qed.

(** X7.  When [add_datetime_column] returns, the frame it returns has the
    rows of the given one, one for one: every column other than [DATETIME]
    reads as before, the columns are those of the input with [DATETIME]
    added last if it was not there, and rows keep one cell per column.
    The frame of the caller is still on the heap, unchanged. *)
Theorem add_datetime_column_frame (st : state) (l : ref) (df : DataFrame)
    (l' : ref) (st' : state) :
  nth_error (heap st) l = Some df ->
  well_formed df ->
  utils.add_datetime_column l st = (Ok l', st') ->
  exists out,
    nth_error (heap st') l' = Some out /\
    nth_error (heap st') l = Some df /\
    l' <> l /\
    List.length (rows out) = List.length (rows df) /\
    well_formed out /\
    (forall c, c <> "DATETIME" -> getitem out c = getitem df c) /\
    columns out
    = (if has_column "DATETIME" df || negb (has_column "DATETIME" out)
       then columns df else columns df ++ ["DATETIME"]).
Proof.
  intros E WF Run. rewrite (add_datetime_column_run st l df E) in Run.
  cbv zeta in Run.
  assert (Hl : (l < List.length (heap st))%nat)
    by (apply nth_error_Some; congruence).
  destruct (datetime_series df) as [[s |] | e] eqn:Es.
  - injection Run as <- <-. cbn [heap].
    pose proof (datetime_series_length df s Es) as HL.
    exists (setitem df "DATETIME" s).
    split; [apply nth_error_snoc |].
    split; [now apply nth_error_old |].
    split; [lia |].
    split; [now apply setitem_rows_length |].
    split; [now apply setitem_well_formed |].
    split; [intros c Hc; now apply getitem_setitem_other |].
    unfold has_column, setitem.
    destruct (col_index "DATETIME" (columns df)) eqn:Ec; cbn [columns orb];
      [reflexivity |].
    now rewrite (col_index_snoc_new _ _ Ec).
  - injection Run as <- <-. cbn [heap]. exists df.
    split; [apply nth_error_snoc |].
    split; [now apply nth_error_old |].
    split; [lia |]. split; [reflexivity |]. split; [exact WF |].
    split; [reflexivity |].
    destruct (has_column "DATETIME" df); reflexivity.
  - discriminate.
Qed.

Lemma normalize_column_names_run (st : state) (l : ref) (df : DataFrame) :
  nth_error (heap st) l = Some df ->
  utils.normalize_column_names l st
  = (Ok (List.length (heap st)),
     mkState (heap st ++ [mkFrame (map utils.to_pascal_case (columns df)) (rows df)])
             (stdout st)).
Proof.
  intros E. unfold utils.normalize_column_names.
  unfold bindM at 1. rewrite (copy_run _ _ _ E).
  unfold bindM at 1. unfold update. cbn [heap stdout].
  rewrite nth_error_snoc, set_nth_snoc. reflexivity.
Qed.

(** The frame [normalize_column_names] makes of [df]. *)
Definition renamed (df : DataFrame) : DataFrame :=
  mkFrame (map utils.to_pascal_case (columns df)) (rows df).

Lemma normalize_ercot_dataframe_steps (st : state) (l : ref) (df : DataFrame) :
  nth_error (heap st) l = Some df ->
  utils.normalize_ercot_dataframe l st =
  let n := List.length (heap st) in
  match datetime_series (renamed df) with
  | Ok (Some s) =>
      (Ok (S n),
       mkState (heap st ++ [renamed df; setitem (renamed df) "DATETIME" s])
               (stdout st))
  | Ok None =>
      (Ok (S n),
       mkState (heap st ++ [renamed df; renamed df])
               (stdout st ++ [no_datetime_warning]))
  | Raise e =>
      (Raise e, mkState (heap st ++ [renamed df; renamed df]) (stdout st))
  end.
Proof.
  intros E. unfold utils.normalize_ercot_dataframe.
  unfold bindM at 1. rewrite (normalize_column_names_run st l df E).
  fold (renamed df).
  rewrite (add_datetime_column_run _ (List.length (heap st)) (renamed df))
    by (cbn [heap]; apply nth_error_snoc).
  cbv zeta. cbn [heap stdout]. rewrite length_app, Nat.add_1_r.
  destruct (datetime_series (renamed df)) as [[s |] | e];
    rewrite <- app_assoc; reflexivity.
Qed.

(** X8.  [normalize_ercot_dataframe] looks for the date columns under
    their normalised names.  On a table whose normalised labels are
    distinct, the first pattern, in the order 1 to 7, whose columns are
    there under their Pascal-case names decides: when every row is of its
    layout, the result is the table under its Pascal-case labels with the
    timestamp of that pattern in [DATETIME], row by row.  When no pattern
    is there under the normalised names the renamed table is returned and
    the warning is printed.  Two new frames are made and the given one is
    left as it was; when the call raises, both are the renamed table and
    nothing is printed. *)
Theorem normalize_ercot_dataframe_run (st : state) (l : ref) (df : DataFrame) :
  nth_error (heap st) l = Some df ->
  NoDup (map utils.to_pascal_case (columns df)) ->
  let n := List.length (heap st) in
  let named := renamed df in
  (forall p,
     first_match named p ->
     Forall (fun c => has_column c named = true) (reads p) ->
     (by_row p = true -> rows df <> []) ->
     Forall (fun row => exists c, stamp named row p c) (rows df) ->
     exists s,
       utils.normalize_ercot_dataframe l st
       = (Ok (S n),
          mkState (heap st ++ [named; setitem named "DATETIME" s]) (stdout st)) /\
       Forall2 (fun row c => stamp named row p c) (rows df) s) /\
  (no_match named ->
   utils.normalize_ercot_dataframe l st
   = (Ok (S n),
      mkState (heap st ++ [named; named]) (stdout st ++ [no_datetime_warning]))) /\
  (forall e st',
     utils.normalize_ercot_dataframe l st = (Raise e, st') ->
     st' = mkState (heap st ++ [named; named]) (stdout st)).
Proof.
  intros E _ n named.
  pose proof (normalize_ercot_dataframe_steps st l df E) as R.
  cbv zeta in R. fold n in R. fold named in R.
  split; [| split].
  - intros p Hp Hc Hr HT.
    rewrite (datetime_series_first_match named p Hp) in R.
    destruct (series_of_rows named p Hc Hr HT) as (s & Hs & HF).
    rewrite Hs in R. cbn [bind] in R. eauto.
  - intros H. rewrite (datetime_series_no_match named H) in R. exact R.
  - intros e st' Run. rewrite R in Run.
    destruct (datetime_series named) as [[s |] | e0]; [discriminate .. |].
    now injection Run as _ <-.
Qed.

End Normalisation.

(** A table whose labels are in snake case. *)
Definition snake_prices : DataFrame :=
  mkFrame ["delivery_date"; "hour_ending"; "settlement_point_price"]
    [[CStr "2024-03-01"; CStr "01:00"; CInt 25];
     [CStr "2024-03-01"; CStr "24:00"; CInt 31]].

Lemma normalize_ercot_dataframe_run_witness :
  exists s,
    utils.normalize_ercot_dataframe (parser := iso) 0%nat (init [snake_prices])
    = (Ok 2%nat,
       mkState ([snake_prices]
                ++ [renamed snake_prices;
                    setitem (renamed snake_prices) "DATETIME" s]) []) /\
    Forall2 (fun row c => stamp (parser := iso) (renamed snake_prices) row P6 c)
            (rows snake_prices) s.
Proof.
  assert (ND : NoDup (map utils.to_pascal_case (columns snake_prices)))
    by (repeat constructor; cbn; intuition discriminate).
  apply (proj1 (normalize_ercot_dataframe_run (parser := iso) (init [snake_prices])
                  0%nat snake_prices eq_refl ND) P6).
  - split; [reflexivity |].
    intros q Hq. destruct q; cbn in Hq; try lia; reflexivity.
  - repeat constructor.
  - discriminate.
  - constructor; [| constructor; [| constructor]].
    + eexists. apply (stamp6 _ _ (mk_datetime 2024 3 1 0 0) 1).
      split; [reflexivity |]. split; [discriminate |].
      split; [reflexivity |]. split.
      * change (hour_ending_value (CStr "01:00") 1).
        apply hev_str; [discriminate | reflexivity].
      * repeat split; vm_compute; reflexivity.
    + eexists. apply (stamp6 _ _ (mk_datetime 2024 3 1 0 0) 24).
      split; [reflexivity |]. split; [discriminate |].
      split; [reflexivity |]. split.
      * change (hour_ending_value (CStr "24:00") 24). apply hev_24.
      * repeat split; vm_compute; reflexivity.
Defined.

Lemma add_datetime_column_frame_witness :
  let run := utils.add_datetime_column (parser := iso) 0%nat (init [(renamed snake_prices)]) in
  exists out,
    nth_error (heap (snd run)) 1%nat = Some out /\
    nth_error (heap (snd run)) 0%nat = Some (renamed snake_prices) /\
    1%nat <> 0%nat /\
    List.length (rows out) = List.length (rows (renamed snake_prices)) /\
    well_formed out /\
    (forall c, c <> "DATETIME" -> getitem out c = getitem (renamed snake_prices) c) /\
    columns out
    = (if has_column "DATETIME" (renamed snake_prices) || negb (has_column "DATETIME" out)
       then columns (renamed snake_prices) else columns (renamed snake_prices) ++ ["DATETIME"]).
Proof.
  cbv zeta.
  apply (add_datetime_column_frame (parser := iso) (init [(renamed snake_prices)]) 0%nat
           (renamed snake_prices) 1%nat).
  - reflexivity.
  - repeat constructor.
  - vm_compute. reflexivity.
Defined.

(** ** Parsing a response *)

Section Parsing.
Context {parser : DatetimeParser}.

Lemma state_app_nil (st : state) : mkState (heap st ++ []) (stdout st ++ []) = st.
Proof. destruct st. cbn. now rewrite !app_nil_r. Qed.

Lemma new_frame_normalize (d : DataFrame) (st : state) :
  exists r x lines,
    (let* df := new_frame d in utils.normalize_ercot_dataframe df) st
    = (r, mkState (heap st ++ [d; renamed d; x]) (stdout st ++ lines)) /\
    List.length (rows x) = List.length (rows d) /\
    forall l, r = Ok l -> l = S (S (List.length (heap st))).
Proof.
  unfold bindM at 1. unfold new_frame at 1.
  unfold utils.normalize_ercot_dataframe. unfold bindM at 1.
  rewrite (normalize_column_names_run _ (List.length (heap st)) d)
    by (cbn [heap]; apply nth_error_snoc).
  fold (renamed d). cbn [heap stdout].
  rewrite (add_datetime_column_run _ (List.length (heap st ++ [d])) (renamed d))
    by (cbn [heap]; apply nth_error_snoc).
  cbv zeta. cbn [heap stdout]. rewrite !length_app. cbn [List.length].
  rewrite !Nat.add_1_r.
  destruct (datetime_series (renamed d)) as [[s |] | e] eqn:Es;
    rewrite <- !app_assoc; cbn [app].
  - exists (Ok (S (S (List.length (heap st))))), (setitem (renamed d) "DATETIME" s), [].
    rewrite app_nil_r. split; [reflexivity |]. split.
    + rewrite setitem_rows_length; [reflexivity |].
      apply (datetime_series_length _ _ Es).
    + now intros l [= <-].
  - exists (Ok (S (S (List.length (heap st))))), (renamed d), [no_datetime_warning].
    split; [reflexivity |]. split; [reflexivity |].
    now intros l [= <-].
  - exists (Raise e), (renamed d), [].
    rewrite app_nil_r. split; [reflexivity |]. split; [reflexivity |].
    discriminate.
Qed.

Lemma frame_with_columns_rows (data : list (list cell)) (columns : list string)
    (d : DataFrame) :
  client.frame_with_columns data columns = Ok d ->
  List.length (rows d) = List.length data.
Proof.
  unfold client.frame_with_columns.
  destruct (_ =? _)%nat; [| discriminate].
  intros [= <-]. apply length_map.
Qed.

Lemma nth_error_last3 {A : Type} (h : list A) (a b c : A) :
  nth_error (h ++ [a; b; c]) (S (S (List.length h))) = Some c.
Proof.
  rewrite nth_error_app2 by lia.
  replace (S (S (List.length h)) - List.length h)%nat with 2%nat by lia.
  reflexivity.
Qed.

(** X9.  Whatever the response, [parse_ercot_response] leaves the frames
    of the heap as they are and adds at most three.  Without a [data] key
    it raises [ValueError] and changes nothing; with an empty [data] it
    returns a new frame without columns, so without [DATETIME], and prints
    nothing; otherwise the frame it returns is new and has one row for
    each row of [data]. *)
Theorem parse_ercot_response_outcome (resp : client.response) (st : state) :
  exists r added lines,
    client.parse_ercot_response resp st
    = (r, mkState (heap st ++ added) (stdout st ++ lines)) /\
    (List.length added <= 3)%nat /\
    (client.data resp = None ->
     (exists msg, r = Raise (ValueError msg)) /\ added = [] /\ lines = []) /\
    (client.data resp = Some [] ->
     r = Ok (List.length (heap st)) /\ added = [mkFrame [] []] /\ lines = []) /\
    (forall l, r = Ok l ->
     exists data out,
       client.data resp = Some data /\
       (List.length (heap st) <= l)%nat /\
       nth_error (heap st ++ added) l = Some out /\
       List.length (rows out) = List.length data).
Proof.
  destruct resp as [fields [[| row data] |]]; unfold client.parse_ercot_response;
    cbn [client.data client.fields].
  - exists (Ok (List.length (heap st))), [mkFrame [] []], [].
    unfold new_frame. rewrite app_nil_r.
    split; [reflexivity |]. split; [cbn; lia |].
    split; [discriminate |]. split; [auto |].
    intros l [= <-]. exists [], (mkFrame [] []).
    split; [reflexivity |]. split; [lia |].
    split; [apply nth_error_snoc | reflexivity].
  - destruct fields as [columns |].
    + destruct (client.frame_with_columns (row :: data) columns) as [d | e] eqn:Ed.
      * destruct (new_frame_normalize d st) as (r & x & lines & Run & Len & Ref).
        exists r, [d; renamed d; x], lines.
        split.
        { rewrite <- Run. reflexivity. }
        split; [cbn; lia |]. split; [discriminate |]. split; [discriminate |].
        intros l Hl. rewrite (Ref l Hl). exists (row :: data), x.
        split; [reflexivity |]. split; [lia |].
        split; [apply nth_error_last3 |].
        rewrite Len. apply (frame_with_columns_rows _ _ _ Ed).
      * exists (Raise e), [], []. rewrite state_app_nil.
        split.
        { reflexivity. }
        split; [cbn; lia |]. split; [discriminate |]. split; [discriminate |].
        discriminate.
    + destruct (new_frame_normalize (client.frame_default (row :: data)) st)
        as (r & x & lines & Run & Len & Ref).
      exists r, [client.frame_default (row :: data);
                 renamed (client.frame_default (row :: data)); x], lines.
      split; [exact Run |].
      split; [cbn; lia |]. split; [discriminate |]. split; [discriminate |].
      intros l Hl. rewrite (Ref l Hl). exists (row :: data), x.
      split; [reflexivity |]. split; [lia |].
      split; [apply nth_error_last3 |].
      rewrite Len. unfold client.frame_default. cbn [rows].
      apply length_map.
  - exists (Raise (ValueError "Expected 'data' key in response.")), [], [].
    rewrite state_app_nil. split; [reflexivity |]. split; [cbn; lia |].
    split; [eauto |]. split; [discriminate |]. discriminate.
Qed.

End Parsing.

(** ** The token cache *)

Section AuthFacts.
Variable token_response : nat -> result auth.ErcotToken.
Variable latency : nat -> timedelta.

(** Time passing between two calls. *)
Definition advance (d : timedelta) (a : auth.ErcotAuth) : auth.ErcotAuth :=
  auth.mkAuth (auth._token a) (auth.now a + d) (auth.requests_sent a).

(** X10.  A call of [auth.get_valid_token] that returned a non-empty token
    leaves it cached: as long as less than one hour has passed since the
    token was acquired, the next call returns the same token and sends no
    request; from one hour on, the next call sends a request. *)
Theorem get_valid_token_reuse (a a' : auth.ErcotAuth) (tok : string) :
  auth.get_valid_token token_response latency a = (Ok tok, a') ->
  Py.nonempty tok = true ->
  exists t,
    auth._token a' = Some t /\ auth.id_token t = tok /\
    auth.now a' - auth.acquired_at t < auth.TOKEN_LIFETIME /\
    forall d,
      (auth.now a' + d - auth.acquired_at t < auth.TOKEN_LIFETIME ->
       auth.get_valid_token token_response latency (advance d a')
       = (Ok tok, advance d a')) /\
      (auth.TOKEN_LIFETIME <= auth.now a' + d - auth.acquired_at t ->
       auth.requests_sent (snd (auth.get_valid_token token_response latency (advance d a')))
       = S (auth.requests_sent a')).
Proof.
  intros Run Htok.
  assert (Inv : exists t, auth._token a' = Some t /\ auth.id_token t = tok /\
                          auth.now a' - auth.acquired_at t < auth.TOKEN_LIFETIME).
  { unfold auth.get_valid_token in Run.
    destruct (auth.is_token_valid a) eqn:V; cbn [negb] in Run.
    - unfold auth.is_token_valid in V.
      destruct (auth._token a) as [t |] eqn:Et; [| discriminate].
      injection Run as <- <-. exists t.
      destruct (Py.nonempty (auth.id_token t)); [| discriminate]. cbn [negb] in V.
      apply Z.ltb_lt in V. auto.
    - unfold auth.fetch_new_token, auth.get_auth_token in Run.
      destruct (token_response (auth.requests_sent a)) as [td | e]; [| discriminate].
      injection Run as <- <-. eexists. cbn [auth._token auth.now auth.acquired_at auth.id_token].
      split; [reflexivity |]. split; [reflexivity |].
      rewrite Z.sub_diag. reflexivity. }
  destruct Inv as (t & Et & Ei & Hlt). exists t.
  split; [exact Et |]. split; [exact Ei |]. split; [exact Hlt |].
  intros d. split; intros Hd.
  - unfold auth.get_valid_token, auth.is_token_valid, advance. cbn [auth._token auth.now].
    rewrite Et, Ei, Htok. cbn [negb].
    apply Z.ltb_lt in Hd. rewrite Hd. cbn [negb]. reflexivity.
  - unfold auth.get_valid_token, auth.is_token_valid, advance. cbn [auth._token auth.now].
    rewrite Et, Ei, Htok. cbn [negb].
    apply Z.ltb_ge in Hd. rewrite Hd. cbn [negb].
    unfold auth.fetch_new_token, auth.get_auth_token. cbn [auth.requests_sent].
    destruct (token_response (auth.requests_sent a')); reflexivity.
Qed.

(** X11.  [auth.get_auth_headers] sends no request when the cached token is
    valid and exactly one otherwise.  When it returns, the header is
    [Bearer] followed by the [auth.id_token] of the token then cached; when the
    token request fails, the exception comes out and the token cached
    before stays. *)
Theorem get_auth_headers_outcome (a : auth.ErcotAuth) :
  let '(r, a') := auth.get_auth_headers token_response latency a in
  auth.requests_sent a'
  = (if auth.is_token_valid a then auth.requests_sent a else S (auth.requests_sent a)) /\
  match r with
  | Ok headers =>
      exists t, auth._token a' = Some t /\
                headers = [("Authorization", String.append "Bearer " (auth.id_token t))] /\
                (auth.is_token_valid a = false -> auth.acquired_at t = auth.now a') /\
                (auth.is_token_valid a = true -> a' = a)
  | Raise e =>
      auth.is_token_valid a = false /\
      token_response (auth.requests_sent a) = Raise e /\
      auth._token a' = auth._token a
  end.
Proof.
  unfold auth.get_auth_headers, auth.get_valid_token.
  destruct (auth.is_token_valid a) eqn:V; cbn [negb].
  - unfold auth.is_token_valid in V.
    destruct (auth._token a) as [t |] eqn:Et; [| discriminate].
    split; [reflexivity |]. exists t. repeat split; auto. discriminate.
  - unfold auth.fetch_new_token, auth.get_auth_token.
    destruct (token_response (auth.requests_sent a)) as [td | e].
    + cbn [auth.requests_sent]. split; [reflexivity |].
      eexists. cbn [auth._token auth.id_token auth.acquired_at auth.now].
      repeat split; auto. discriminate.
    + cbn [auth.requests_sent auth._token]. auto.
Qed.

End AuthFacts.

(** A token endpoint that always answers with the same token, in two
    seconds. *)
Definition constant_endpoint (n : nat) : result auth.ErcotToken :=
  Ok (auth.mkToken "3600" "Bearer" "r" "abc" "xyz" 0).

Lemma get_valid_token_reuse_witness :
  let a := auth.mkAuth None (mk_datetime 2024 1 1 0 0) 0 in
  let a' := snd (auth.get_valid_token constant_endpoint (fun _ => 2 * NS_PER_SECOND) a) in
  exists t,
    auth._token a' = Some t /\ auth.id_token t = "abc" /\
    auth.now a' - auth.acquired_at t < auth.TOKEN_LIFETIME /\
    forall d,
      (auth.now a' + d - auth.acquired_at t < auth.TOKEN_LIFETIME ->
       auth.get_valid_token constant_endpoint (fun _ => 2 * NS_PER_SECOND)
         (advance d a')
       = (Ok "abc", advance d a')) /\
      (auth.TOKEN_LIFETIME <= auth.now a' + d - auth.acquired_at t ->
       auth.requests_sent
         (snd (auth.get_valid_token constant_endpoint (fun _ => 2 * NS_PER_SECOND)
                 (advance d a')))
       = S (auth.requests_sent a')).
Proof.
  cbv zeta.
  apply (get_valid_token_reuse constant_endpoint
           (fun _ => 2 * NS_PER_SECOND)
           (auth.mkAuth None (mk_datetime 2024 1 1 0 0) 0)).
  - reflexivity.
  - reflexivity.
Defined.

(** ** The table sent back to the caller *)

(** X12.  For a limit that is not negative, [df_to_json_string] sends the
    first [max_rows] rows of the table, so the lesser of the two numbers of
    rows; the shape it reports is that of the whole table; and it gives a
    warning exactly when rows were left out. *)
Theorem df_to_json_string_truncates (df : DataFrame) (max_rows : Z) :
  0 <= max_rows ->
  let j := main.df_to_json_string df max_rows in
  main.json_data j = firstn (Z.to_nat max_rows) (rows df) /\
  Z.of_nat (List.length (main.json_data j))
  = Z.min (Z.of_nat (List.length (rows df))) max_rows /\
  main.shape_rows j = List.length (rows df) /\
  main.shape_columns j = List.length (columns df) /\
  main.json_columns j = columns df /\
  (main.warning j = None <-> main.json_data j = rows df).
Proof.
  intros Hm j.
  assert (Hd : main.json_data j = firstn (Z.to_nat max_rows) (rows df)).
  { subst j. unfold main.df_to_json_string.
    destruct (Z.gtb_spec (Z.of_nat (List.length (rows df))) max_rows) as [Hgt | Hle];
      cbn [main.json_data].
    - unfold main.head, py_slice, slice_bound.
      destruct (Z.ltb_spec max_rows 0); [lia |].
      cbn [Z.ltb skipn Z.to_nat].
      rewrite Z.min_l, Z.min_l by lia. cbn [Z.to_nat skipn].
      now rewrite Z.sub_0_r.
    - symmetry. apply firstn_all2. lia. }
  split; [exact Hd |].
  split; [rewrite Hd, length_firstn; lia |].
  subst j. unfold main.df_to_json_string in *.
  destruct (Z.gtb_spec (Z.of_nat (List.length (rows df))) max_rows) as [Hgt | Hle];
    cbn [main.json_data main.shape_rows main.shape_columns main.json_columns
         main.warning] in *.
  - repeat split; try discriminate.
    intros E. apply (f_equal (@List.length _)) in E.
    rewrite Hd, length_firstn in E. lia.
  - repeat split; auto.
Qed.

Lemma df_to_json_string_truncates_witness :
  let j := main.df_to_json_string (renamed snake_prices) 1 in
  main.json_data j = firstn (Z.to_nat 1) (rows (renamed snake_prices)) /\
  Z.of_nat (List.length (main.json_data j))
  = Z.min (Z.of_nat (List.length (rows (renamed snake_prices)))) 1 /\
  main.shape_rows j = List.length (rows (renamed snake_prices)) /\
  main.shape_columns j = List.length (columns (renamed snake_prices)) /\
  main.json_columns j = columns (renamed snake_prices) /\
  (main.warning j = None <-> main.json_data j = rows (renamed snake_prices)).
Proof.
  apply (df_to_json_string_truncates (renamed snake_prices) 1). lia.
Defined.

(** ** The cross-validation loop *)

Section CVLoop.
Context {parser : DatetimeParser}.
Variable load_all_data : M ref.
Variables features model : Type.
Variable polynomial_features : DataFrame -> result features.
Variable fit : features -> Series -> result model.
Variable predict : model -> features -> result Series.
Variable metrics : Type.
Variable score : Series -> Series -> result metrics.

Local Notation predict_split :=
  (forecasting.predict_split features model polynomial_features fit predict).
Local Notation cv_step :=
  (forecasting.cv_step features model polynomial_features fit predict metrics score).
Local Notation rolling_forecast_cv :=
  (forecasting.rolling_forecast_cv load_all_data features model
     polynomial_features fit predict metrics score).

Definition result_columns : list string :=
  ["DATETIME"; "Date"; "SystemLambda"; "NetLoad"].

(** The [try] block either raises with the state as it was, or adds one
    frame, the test rows with their predictions. *)
Lemma predict_split_outcome (s : forecasting.split) (st : state) :
  (exists e, predict_split s st = (Raise e, st)) \/
  (exists test sel y y_pred,
     nth_error (heap st) (snd (fst s)) = Some test /\
     select test result_columns = Ok sel /\
     predict_split s st
     = (Ok (List.length (heap st), y, y_pred),
        mkState (heap st ++ [setitem sel "PredictedLambda" y_pred]) (stdout st))).
Proof.
  destruct s as [[train_data test_data] test_date]. cbn [fst snd].
  unfold forecasting.predict_split, bindM, deref, lift.
  destruct (nth_error (heap st) train_data) as [train |]; [| left; eauto].
  destruct (nth_error (heap st) test_data) as [test |] eqn:Et; [| left; eauto].
  destruct (polynomial_features train) as [X_train | e]; [| left; eauto].
  destruct (getitem train "SystemLambda") as [y_train | e]; [| left; eauto].
  destruct (fit X_train y_train) as [m | e]; [| left; eauto].
  destruct (polynomial_features test) as [X_test | e]; [| left; eauto].
  destruct (getitem test "SystemLambda") as [y_test | e]; [| left; eauto].
  destruct (predict m X_test) as [y_pred | e]; [| left; eauto].
  fold result_columns.
  destruct (select test result_columns) as [sel | e] eqn:Es; [| left; eauto].
  right. exists test, sel, y_test, y_pred.
  split; [reflexivity |]. split; [first [reflexivity | exact Es] |].
  unfold new_frame, setitemM, update, ret. cbn [heap stdout].
  rewrite nth_error_snoc, set_nth_snoc. reflexivity.
Qed.

(** One iteration never raises.  It adds nothing to the two lists and
    prints the error when the [try] block fails before the predictions are
    stored; otherwise the predictions are kept, and the day's metrics are
    kept with them unless scoring fails. *)
Lemma cv_step_outcome (acc : list ref * list (forecasting.daily_metric metrics))
    (s : forecasting.split) (st : state) :
  exists preds dms added lines,
    cv_step acc s st
    = (Ok (fst acc ++ preds, snd acc ++ dms),
       mkState (heap st ++ added) (stdout st ++ lines)) /\
    (List.length dms <= List.length preds <= 1)%nat /\
    List.length added = List.length preds /\
    (List.length lines + List.length dms = 1)%nat /\
    (forall dm, In dm dms -> forecasting.dm_date metrics dm = snd s) /\
    ((exists e, predict_split s st = (Raise e, st)) -> preds = []).
Proof.
  destruct acc as [all_predictions daily_metrics]. cbn [fst snd].
  unfold forecasting.cv_step.
  destruct (predict_split_outcome s st)
    as [[e Run] | (test & sel & y & y_pred & Et & Es & Run)]; rewrite Run.
  - exists [], [], [], ["Error: " ++ forecasting.exn_text e]%string.
    rewrite !app_nil_r. unfold bindM, print, ret. cbn [heap stdout].
    split; [reflexivity |]. split; [cbn; lia |]. split; [reflexivity |].
    split; [reflexivity |]. split; [intros dm [] | reflexivity].
  - destruct (score y y_pred) as [m | e].
    + destruct s as [[train_data test_data] test_date]. cbn [fst snd] in *.
      unfold bindM, deref, ret. cbn [heap].
      rewrite (nth_error_old _ _ _ _ Et).
      exists [List.length (heap st)],
        [forecasting.mkDaily metrics test_date m (List.length (rows test))],
        [setitem sel "PredictedLambda" y_pred], [].
      rewrite app_nil_r.
      split; [reflexivity |]. split; [cbn; lia |]. split; [reflexivity |].
      split; [reflexivity |]. split.
      * intros dm [<- | []]. reflexivity.
      * intros [e He]. discriminate.
    + exists [List.length (heap st)], [], [setitem sel "PredictedLambda" y_pred],
        ["Error: " ++ forecasting.exn_text e]%string.
      rewrite app_nil_r. unfold bindM, print, ret. cbn [heap stdout].
      split; [reflexivity |]. split; [cbn; lia |]. split; [reflexivity |].
      split; [reflexivity |]. split.
      * intros dm [].
      * intros [e' He]. discriminate.
Qed.

(** X13.  The loop of [rolling_forecast_cv] over the splits never raises,
    whatever the regression and the scoring do.  It keeps at most one
    table of predictions for each split and at most one record of daily
    metrics for each table kept, every record under the test date of a
    split; each split either yields its record or prints one error line;
    one frame is added to the heap for each table kept, and the frames
    that were there stay. *)
Theorem cv_loop_outcome (splits : list forecasting.split)
    (acc : list ref * list (forecasting.daily_metric metrics)) (st : state) :
  exists preds dms added lines,
    forecasting.foldM cv_step acc splits st
    = (Ok (fst acc ++ preds, snd acc ++ dms),
       mkState (heap st ++ added) (stdout st ++ lines)) /\
    (List.length dms <= List.length preds <= List.length splits)%nat /\
    List.length added = List.length preds /\
    (List.length lines + List.length dms = List.length splits)%nat /\
    (forall dm, In dm dms ->
       In (forecasting.dm_date metrics dm) (map snd splits)).
Proof.
  revert acc st. induction splits as [| s splits IH]; intros acc st;
    cbn [forecasting.foldM].
  - exists [], [], [], []. rewrite !app_nil_r. unfold ret.
    destruct acc, st. split; [reflexivity |]. split; [cbn; lia |].
    split; [reflexivity |]. split; [reflexivity |]. intros dm [].
  - unfold bindM.
    destruct (cv_step_outcome acc s st)
      as (p1 & d1 & a1 & l1 & Run1 & Hlen1 & Ha1 & Hl1 & Hd1 & _).
    rewrite Run1.
    destruct (IH (fst acc ++ p1, snd acc ++ d1)
                 (mkState (heap st ++ a1) (stdout st ++ l1)))
      as (p2 & d2 & a2 & l2 & Run2 & Hlen2 & Ha2 & Hl2 & Hd2).
    rewrite Run2. cbn [fst snd heap stdout].
    exists (p1 ++ p2), (d1 ++ d2), (a1 ++ a2), (l1 ++ l2).
    rewrite !app_assoc. split; [reflexivity |].
    rewrite !length_app. cbn [List.length map].
    repeat split; try lia.
    intros dm Hin. apply in_app_or in Hin as [Hin | Hin].
    + left. symmetry. now apply Hd1.
    + right. now apply Hd2.
Qed.

Lemma cv_loop_no_fit (splits : list forecasting.split)
    (acc : list ref * list (forecasting.daily_metric metrics)) (st : state) :
  (forall X y, exists e, fit X y = Raise e) ->
  exists lines,
    forecasting.foldM cv_step acc splits st
    = (Ok acc, mkState (heap st) (stdout st ++ lines)) /\
    List.length lines = List.length splits.
Proof.
  intros Hfit. revert st. induction splits as [| s splits IH]; intros st;
    cbn [forecasting.foldM].
  - exists []. rewrite app_nil_r. destruct st. split; reflexivity.
  - assert (Hs : exists e, predict_split s st = (Raise e, st)).
    { destruct (predict_split_outcome s st)
        as [H | (test & sel & y & y_pred & _ & _ & Run)]; [exact H |].
      exfalso. revert Run. destruct s as [[train_data test_data] test_date].
      unfold forecasting.predict_split, bindM, deref, lift.
      destruct (nth_error (heap st) train_data) as [train |]; [| discriminate].
      destruct (nth_error (heap st) test_data) as [test' |]; [| discriminate].
      destruct (polynomial_features train) as [X_train | e]; [| discriminate].
      destruct (getitem train "SystemLambda") as [y_train | e]; [| discriminate].
      destruct (Hfit X_train y_train) as [e ->]. discriminate. }
    destruct Hs as [e Run]. unfold bindM at 1.
    unfold forecasting.cv_step at 1. destruct acc as [ps ds]. rewrite Run.
    unfold bindM at 1. unfold print at 1. unfold ret at 1.
    destruct (IH (mkState (heap st)
                    (stdout st ++ ["Error: " ++ forecasting.exn_text e]%string)))
      as (lines & Run2 & Hlen).
    rewrite Run2. cbn [heap stdout].
    exists (("Error: " ++ forecasting.exn_text e)%string :: lines).
    rewrite <- app_assoc. split; [reflexivity |]. cbn. now rewrite Hlen.
Qed.

(** X14.  When the regression cannot be fitted on any training set,
    [rolling_forecast_cv] does not return: once the data is loaded and the
    splits are made, every split is skipped with one error line, no table
    of predictions is left to combine, and the run ends in the
    [ValueError] of [pd.concat] on an empty list. *)
Theorem rolling_forecast_cv_no_fit (initial_training_days : Z)
    (expanding_window : bool) (st : state) :
  (forall X y, exists e, fit X y = Raise e) ->
  exists e st',
    rolling_forecast_cv initial_training_days expanding_window st = (Raise e, st') /\
    forall all_data st1 splits st2,
      load_all_data st = (Ok all_data, st1) ->
      forecasting.create_rolling_splits all_data initial_training_days
        expanding_window st1 = (Ok splits, st2) ->
      e = ValueError "No objects to concatenate" /\
      heap st' = heap st2 /\
      List.length (stdout st') = (List.length (stdout st2) + List.length splits)%nat.
Proof.
  intros Hfit. unfold forecasting.rolling_forecast_cv.
  unfold bindM at 1.
  destruct (load_all_data st) as [[all_data | e] st1] eqn:El.
  2: { exists e, st1. split; [reflexivity |]. discriminate. }
  unfold bindM at 1.
  destruct (forecasting.create_rolling_splits all_data initial_training_days
              expanding_window st1) as [[splits | e] st2] eqn:Ec.
  2: { exists e, st2. split; [reflexivity |].
       intros ? ? ? ? [= <- <-] H. rewrite Ec in H. discriminate. }
  unfold bindM at 1.
  destruct (cv_loop_no_fit splits ([], []) st2 Hfit) as (lines & Run & Hlen).
  rewrite Run.
  exists (ValueError "No objects to concatenate"),
    (mkState (heap st2) (stdout st2 ++ lines)).
  split; [reflexivity |].
  intros ? ? ? ? [= <- <-] H. rewrite Ec in H. injection H as <- <-.
  cbn [heap stdout]. rewrite length_app, Hlen. auto.
Qed.

End CVLoop.

(** Five days of hourly net load and prices. *)
Definition five_days_prices : DataFrame :=
  mkFrame ["DATETIME"; "NetLoad"; "SystemLambda"]
    [[CTime (mk_datetime 2024 2 1 1 0); CInt 10; CInt 21];
     [CTime (mk_datetime 2024 2 1 2 0); CInt 11; CInt 22];
     [CTime (mk_datetime 2024 2 2 1 0); CInt 20; CInt 31];
     [CTime (mk_datetime 2024 2 3 1 0); CInt 30; CInt 41];
     [CTime (mk_datetime 2024 2 4 1 0); CInt 40; CInt 51];
     [CTime (mk_datetime 2024 2 5 1 0); CInt 50; CInt 61]].

(** A regression whose features and predictions are computed and whose
    fit fails. *)
Definition failing_fit (X : list (list cell)) (y : Series) : result unit :=
  Raise (ValueError "Input X contains NaN.").

Lemma rolling_forecast_cv_no_fit_witness :
  let run :=
    forecasting.rolling_forecast_cv (parser := iso) (ret 0%nat)
      (list (list cell)) unit (fun d => Ok (rows d)) failing_fit
      (fun _ X => Ok (map (fun _ => CInt 0) X)) unit (fun _ _ => Ok tt) 2 true
      (init [five_days_prices]) in
  (exists e st',
     run = (Raise e, st') /\
     forall all_data st1 splits st2,
       ret 0%nat (init [five_days_prices]) = (Ok all_data, st1) ->
       forecasting.create_rolling_splits (parser := iso) all_data 2 true st1
       = (Ok splits, st2) ->
       e = ValueError "No objects to concatenate" /\
       heap st' = heap st2 /\
       List.length (stdout st')
       = (List.length (stdout st2) + List.length splits)%nat) /\
  fst run = Raise (ValueError "No objects to concatenate") /\
  stdout (snd run)
  = ["Error: Input X contains NaN."; "Error: Input X contains NaN.";
     "Error: Input X contains NaN."] /\
  (* with a fit that succeeds the same run returns *)
  (exists r,
     fst (forecasting.rolling_forecast_cv (parser := iso) (ret 0%nat)
            (list (list cell)) unit (fun d => Ok (rows d)) (fun _ _ => Ok tt)
            (fun _ X => Ok (map (fun _ => CInt 0) X)) unit (fun _ _ => Ok tt) 2 true
            (init [five_days_prices]))
     = Ok r).
Proof.
  cbv zeta. split; [| split; [| split]].
  - apply (rolling_forecast_cv_no_fit (parser := iso) (ret 0%nat)
             (list (list cell)) unit (fun d => Ok (rows d)) failing_fit
             (fun _ X => Ok (map (fun _ => CInt 0) X)) unit (fun _ _ => Ok tt)
             2 true (init [five_days_prices])).
    intros X y. eexists. reflexivity.
  - vm_compute. reflexivity.
  - vm_compute. reflexivity.
  - eexists. vm_compute. reflexivity.
Defined.




(** ** Net load *)

Lemma select_well_formed (df out : DataFrame) (names : list string) :
  select df names = Ok out ->
  columns out = names /\ well_formed out /\
  List.length (rows out) = List.length (rows df).
Proof.
  unfold select. destruct (mapM _ names) as [idx |] eqn:E; [| discriminate].
  cbn [bind]. intros [= <-]. cbn [columns rows]. split; [reflexivity |].
  apply mapM_length in E. split.
  - unfold well_formed. cbn [columns rows]. apply Forall_forall.
    intros row Hin. apply in_map_iff in Hin as (r & <- & _).
    now rewrite length_map.
  - apply length_map.
Qed.

(** The left join with a table that brings one new column. *)
Definition joined (right : DataFrame) (l : list cell) : list (list cell) :=
  match filter (fun r => cell_eqb (cell_at 0 r) (cell_at 0 l)) (rows right) with
  | [] => [l ++ [CNull]]
  | ms => map (fun r => l ++ [cell_at 1 r]) ms
  end.

Lemma merge_left_new_column (ls : list string) (b : string)
    (rs : list (list cell)) (right : DataFrame) :
  mem_string b ls = false ->
  columns right = ["DATETIME"; b] ->
  merge_left (mkFrame ("DATETIME" :: ls) rs) right "DATETIME"
  = Ok (mkFrame ("DATETIME" :: ls ++ [b]) (flat_map (joined right) rs)).
Proof.
  intros Hb Hc. unfold merge_left. rewrite Hc. cbn [columns rows col_index].
  cbn [String.eqb Ascii.eqb Bool.eqb remove_nth List.length seq map app].
  rewrite Hb. cbn [negb andb]. f_equal. f_equal. f_equal. f_equal.
  rewrite <- (map_id ls) at 2. apply map_ext_in.
  intros c Hin.
  assert (Hcb : mem_string c [b] = false).
  { unfold mem_string. cbn [existsb]. rewrite orb_false_r.
    destruct (String.eqb_spec c b) as [-> | _]; [| reflexivity].
    apply mem_string_In in Hin. congruence. }
  rewrite Hcb, andb_false_r, andb_false_r. reflexivity.
Qed.

Lemma joined_rows (right : DataFrame) (n : nat) (rs : list (list cell)) :
  Forall (fun r => List.length r = n) rs ->
  Forall (fun r => List.length r = S n) (flat_map (joined right) rs) /\
  (List.length rs <= List.length (flat_map (joined right) rs))%nat.
Proof.
  induction 1 as [| l rs Hl _ [IH1 IH2]]; cbn [flat_map].
  - split; [constructor | reflexivity].
  - assert (Hj : Forall (fun r => List.length r = S n) (joined right l) /\
                 (1 <= List.length (joined right l))%nat).
    { unfold joined.
      destruct (filter _ (rows right)) as [| m ms].
      - split; [| cbn; lia]. constructor; [| constructor].
        rewrite length_app. cbn. lia.
      - split; [| cbn; lia]. apply Forall_forall. intros r Hin.
        apply in_map_iff in Hin as (x & <- & _). rewrite length_app. cbn. lia. }
    destruct Hj as [Hj1 Hj2]. split.
    + apply Forall_app. split; assumption.
    + rewrite length_app. cbn [List.length]. lia.
Qed.

Lemma mapM_ext {A B : Type} (f g : A -> result B) (l : list A) :
  (forall x, f x = g x) -> mapM f l = mapM g l.
Proof.
  intros H. induction l as [| x l IH]; cbn [mapM]; [reflexivity |].
  now rewrite H, IH.
Qed.

(** One row of the result: the timestamp, the two forecasts of renewable
    generation, the load forecast, their sum and the net load.  In the sum
    a missing forecast counts as zero; the net load is missing when the
    load forecast is. *)
Definition net_load_row (row : list cell) : Prop :=
  exists t s w m s' w' n,
    row = [t; s; w; m; CInt (s' + w'); n] /\
    summand s = Ok s' /\ summand w = Ok w' /\
    sub_cell m (CInt (s' + w')) = Ok n.

Definition merged_columns : list string :=
  ["DATETIME"; "SolarHSLSystemWide"; "WindHSLSystemWide"; "MedianLoadForecast"].

Lemma net_load_rows (rs : list (list cell)) (renewables net : list cell) :
  Forall (fun r => List.length r = 4%nat) rs ->
  mapM (row_sum (mkFrame merged_columns rs)
          ["SolarHSLSystemWide"; "WindHSLSystemWide"]) rs = Ok renewables ->
  let rs' := zip_with (fun c row => row ++ [c]) renewables rs in
  mapM (fun p => sub_cell (fst p) (snd p))
       (combine (map (cell_at 3) rs') (map (cell_at 4) rs')) = Ok net ->
  Forall net_load_row (zip_with (fun c row => row ++ [c]) net rs') /\
  List.length (zip_with (fun c row => row ++ [c]) net rs') = List.length rs.
Proof.
  intros Hrs. 
  assert (Hsum : forall r, row_sum (mkFrame merged_columns rs)
                   ["SolarHSLSystemWide"; "WindHSLSystemWide"] r
                 = (a <- summand (cell_at 1 r) ;; b <- summand (cell_at 2 r) ;;
                    Ok (CInt (a + (b + 0))))).
  { intros r. unfold row_sum. cbn [columns merged_columns mapM col_index
      String.eqb Ascii.eqb Bool.eqb option_map].
    destruct (summand (cell_at 1 r)); [| reflexivity]. cbn [bind].
    destruct (summand (cell_at 2 r)); reflexivity. }
  intros H1. rewrite (mapM_ext _ _ _ Hsum) in H1. clear Hsum. revert H1.
  revert renewables net.
  induction Hrs as [| r rs Hr _ IH]; intros renewables net H1 rs' H2.
  - cbn in H1. injection H1 as <-. subst rs'. cbn in H2. injection H2 as <-.
    split; [constructor | reflexivity].
  - cbn [mapM] in H1.
    destruct r as [| t [| s [| w [| m [| ? ?]]]]]; try discriminate.
    cbn [cell_at nth] in H1.
    destruct (summand s) as [s' |] eqn:Es; [| discriminate].
    destruct (summand w) as [w' |] eqn:Ew; [| discriminate].
    cbn [bind] in H1.
    destruct (mapM _ rs) as [xs |] eqn:Exs; [| discriminate].
    cbn [bind] in H1. injection H1 as <-.
    subst rs'. cbn [zip_with map combine app mapM cell_at nth fst snd] in H2.
    rewrite Z.add_0_r in *.
    destruct (sub_cell m (CInt (s' + w'))) as [n |] eqn:En; [| discriminate].
    cbn [bind] in H2.
    destruct (mapM _ (combine _ _)) as [ns |] eqn:Ens; [| discriminate].
    cbn [bind] in H2. injection H2 as <-.
    destruct (IH xs ns eq_refl Ens) as [IH1 IH2].
    cbn [zip_with app List.length]. split.
    + constructor; [| exact IH1].
      exists t, s, w, m, s', w', n. auto.
    + now rewrite IH2.
Qed.

(** The line [get_net_load_forecast] prints first. *)
Definition greeting (date_from : string) (date_to : option string) : string :=
  match date_to with
  | Some (String _ _ as d) =>
      "Getting net load forecast for range: " ++ date_from ++ " to " ++ d
  | _ => "Getting net load forecast for: " ++ date_from
  end.

Lemma is_cop_hsl_not_datetime (c : string) (l : list string) :
  In c (filter load.is_cop_hsl l) -> String.eqb "DATETIME" c = false.
Proof.
  intros H. apply filter_In in H as [_ H].
  destruct (String.eqb_spec "DATETIME" c) as [<- | _]; [| reflexivity].
  vm_compute in H. discriminate.
Qed.

(** The table of one renewable source as it enters the join. *)
Lemma hsl_table (name c : string) (df g : DataFrame) :
  filter load.is_cop_hsl (columns df) = [c] ->
  select df ("DATETIME" :: [c]) = Ok g ->
  exists rs,
    rename c name g = mkFrame ["DATETIME"; name] rs /\
    Forall (fun r => List.length r = 2%nat) rs /\
    List.length rs = List.length (rows df).
Proof.
  intros Hc Hs. apply select_well_formed in Hs as (Hcols & WF & Hlen).
  exists (rows g). unfold rename. rewrite Hcols. cbn [map].
  rewrite (is_cop_hsl_not_datetime c (columns df)) by (rewrite Hc; now left).
  rewrite String.eqb_refl. split; [reflexivity |]. split; [| exact Hlen].
  unfold well_formed in WF. now rewrite Hcols in WF.
Qed.

Section NetLoadFacts.
Variable get_vintage_forecast : string -> string -> option string -> M DataFrame.

(** X15.  When each of the solar and wind tables has one system-wide COP
    HSL column and the load table has its median forecast, every row of the
    table [get_net_load_forecast] returns holds, after the timestamp, the
    solar, wind and load forecasts, then [Renewables], the sum of solar and
    wind in which a missing value counts as zero, then [NetLoad], the load
    forecast minus [Renewables], missing when the load forecast is.  Every
    row of the solar table is kept.  The labels of a table are taken to be
    distinct, as the tables of the API have them. *)
Theorem get_net_load_forecast_arithmetic (date_from : string)
    (date_to : option string) (st st1 st2 st3 st' : state)
    (solar wind load_forecast out : DataFrame) (cs cw : string) :
  get_vintage_forecast "solar_system_forecast" date_from date_to
    (mkState (heap st) (stdout st ++ [greeting date_from date_to]))
  = (Ok solar, st1) ->
  get_vintage_forecast "wind_system_forecast" date_from date_to st1
  = (Ok wind, st2) ->
  get_vintage_forecast "ercot_zone_load_forecast" date_from date_to st2
  = (Ok load_forecast, st3) ->
  NoDup (columns solar) -> NoDup (columns wind) ->
  filter load.is_cop_hsl (columns solar) = [cs] ->
  filter load.is_cop_hsl (columns wind) = [cw] ->
  columns load_forecast = ["DATETIME"; "MedianLoadForecast"] ->
  load.get_net_load_forecast get_vintage_forecast date_from date_to st
  = (Ok out, st') ->
  st' = st3 /\
  columns out = merged_columns ++ ["Renewables"; "NetLoad"] /\
  Forall net_load_row (rows out) /\
  (List.length (rows solar) <= List.length (rows out))%nat.
Proof.
  intros Gs Gw Gl _ _ Hcs Hcw Hcl Run.
  unfold load.get_net_load_forecast in Run.
  unfold bindM at 1 in Run.
  assert (Hp : (match date_to with
                | Some (String _ _ as d) =>
                    print ("Getting net load forecast for range: " ++ date_from
                           ++ " to " ++ d)
                | _ => print ("Getting net load forecast for: " ++ date_from)
                end) st
               = (Ok tt, mkState (heap st) (stdout st ++ [greeting date_from date_to])))
    by (destruct date_to as [[|] |]; reflexivity).
  rewrite Hp in Run. clear Hp.
  unfold bindM at 1 in Run. rewrite Gs in Run. rewrite Hcs in Run.
  unfold bindM at 1 in Run. unfold bindM at 1 in Run. unfold lift at 1 in Run.
  destruct (select solar ["DATETIME"; cs]) as [g1 |] eqn:Es; [| discriminate].
  unfold ret at 1 in Run.
  destruct (hsl_table "SolarHSLSystemWide" cs solar g1 Hcs Es) as (rs1 & E1 & Hrs1 & Hl1).
  rewrite E1 in Run. clear E1.
  unfold bindM at 1 in Run. rewrite Gw in Run. rewrite Hcw in Run.
  unfold bindM at 1 in Run. unfold bindM at 1 in Run. unfold lift at 1 in Run.
  destruct (select wind ["DATETIME"; cw]) as [g2 |] eqn:Ew; [| discriminate].
  unfold ret at 1 in Run.
  destruct (hsl_table "WindHSLSystemWide" cw wind g2 Hcw Ew) as (rs2 & E2 & Hrs2 & Hl2).
  rewrite E2 in Run. clear E2.
  unfold bindM at 1 in Run. rewrite Gl in Run.
  unfold bindM at 1 in Run. unfold lift at 1 in Run.
  rewrite (merge_left_new_column ["SolarHSLSystemWide"] "WindHSLSystemWide" rs1
             (mkFrame ["DATETIME"; "WindHSLSystemWide"] rs2) eq_refl eq_refl) in Run.
  cbn [app] in Run.
  unfold bindM at 1 in Run. unfold lift at 1 in Run.
  rewrite (merge_left_new_column ["SolarHSLSystemWide"; "WindHSLSystemWide"]
             "MedianLoadForecast" _ load_forecast eq_refl Hcl) in Run.
  cbn [app] in Run. fold merged_columns in Run.
  set (rs := flat_map (joined load_forecast) _) in Run.
  assert (Hrs : Forall (fun r => List.length r = 4%nat) rs /\
                (List.length rs1 <= List.length rs)%nat).
  { destruct (joined_rows (mkFrame ["DATETIME"; "WindHSLSystemWide"] rs2) 2 rs1 Hrs1)
      as [F1 L1].
    destruct (joined_rows load_forecast 3 _ F1) as [F2 L2].
    split; [exact F2 | ]. subst rs. lia. }
  destruct Hrs as [Hrs Hlen].
  cbn [columns rows] in Run.
  change (filter (Py.contains "HSLSystemWide") merged_columns)
    with ["SolarHSLSystemWide"; "WindHSLSystemWide"] in Run.
  unfold bindM at 1 in Run. unfold lift at 1 in Run.
  destruct (mapM _ rs) as [renewables |] eqn:H1; [| discriminate].
  set (rs' := zip_with (fun c row => row ++ [c]) renewables rs).
  change (setitem (mkFrame merged_columns rs) "Renewables" renewables)
    with (mkFrame (merged_columns ++ ["Renewables"]) rs') in Run.
  change (getitem (mkFrame (merged_columns ++ ["Renewables"]) rs')
            "MedianLoadForecast")
    with (Ok (A := Series) (map (cell_at 3) rs')) in Run.
  change (getitem (mkFrame (merged_columns ++ ["Renewables"]) rs') "Renewables")
    with (Ok (A := Series) (map (cell_at 4) rs')) in Run.
  unfold bindM, lift in Run.
  destruct (mapM _ (combine _ _)) as [net |] eqn:H2; [| discriminate].
  unfold ret in Run. injection Run as <- <-.
  destruct (net_load_rows rs renewables net Hrs H1 H2) as [P L].
  change (setitem (mkFrame (merged_columns ++ ["Renewables"]) rs') "NetLoad" net)
    with (mkFrame ((merged_columns ++ ["Renewables"]) ++ ["NetLoad"])
            (zip_with (fun c row => row ++ [c]) net rs')).
  cbn [columns rows].
  split; [reflexivity |]. split; [reflexivity |].
  split; [exact P |].
  change (List.length (rows solar)
          <= List.length (zip_with (fun c row => row ++ [c]) net rs'))%nat.
  subst rs'. cbv zeta in L. rewrite L. lia.
Qed.

(** X16.  When the solar table has no [DATETIME] column, as the table of
    an empty answer has none, [get_net_load_forecast] raises [KeyError]
    right after the solar request: the wind and load forecasts are not
    requested.  One warning is printed before, when the table has no COP
    HSL column either. *)
Theorem get_net_load_forecast_needs_datetime (date_from : string)
    (date_to : option string) (st st1 : state) (solar : DataFrame) :
  get_vintage_forecast "solar_system_forecast" date_from date_to
    (mkState (heap st) (stdout st ++ [greeting date_from date_to]))
  = (Ok solar, st1) ->
  has_column "DATETIME" solar = false ->
  exists lines,
    load.get_net_load_forecast get_vintage_forecast date_from date_to st
    = (Raise (KeyError "DATETIME"), mkState (heap st1) (stdout st1 ++ lines)) /\
    List.length lines
    = match filter load.is_cop_hsl (columns solar) with
      | [] => 1%nat
      | _ => 0%nat
      end.
Proof.
  intros Gs Hd. unfold load.get_net_load_forecast.
  unfold bindM at 1.
  assert (Hp : (match date_to with
                | Some (String _ _ as d) =>
                    print ("Getting net load forecast for range: " ++ date_from
                           ++ " to " ++ d)
                | _ => print ("Getting net load forecast for: " ++ date_from)
                end) st
               = (Ok tt, mkState (heap st) (stdout st ++ [greeting date_from date_to])))
    by (destruct date_to as [[|] |]; reflexivity).
  rewrite Hp. clear Hp.
  unfold bindM at 1. rewrite Gs.
  assert (Hsel : forall names, select solar ("DATETIME" :: names)
                               = Raise (KeyError "DATETIME")).
  { intros names. unfold select. cbn [mapM]. unfold has_column in Hd.
    destruct (col_index "DATETIME" (columns solar)); [discriminate | reflexivity]. }
  destruct (filter load.is_cop_hsl (columns solar)) as [| c l].
  - unfold bindM at 1. unfold bindM at 1. unfold print at 1.
    unfold bindM at 1. unfold lift at 1. rewrite Hsel.
    eexists. split; reflexivity.
  - unfold bindM at 1. unfold bindM at 1. unfold lift at 1.
    rewrite Hsel. exists []. rewrite app_nil_r. destruct st1. split; reflexivity.
Qed.

End NetLoadFacts.

(** The forecasts of the example: 3000 MW of solar and 7000 MW of wind
    against a load of 50000 MW. *)
Definition example_forecasts (endpoint_name date_from : string)
    (date_to : option string) : M DataFrame :=
  let hour := CTime (mk_datetime 2024 2 1 13 0) in
  ret (if String.eqb endpoint_name "solar_system_forecast"
       then mkFrame ["DATETIME"; "COPHSLSystemWide"] [[hour; CInt 3000]]
       else if String.eqb endpoint_name "wind_system_forecast"
       then mkFrame ["DATETIME"; "COPHSLSystemWide"] [[hour; CInt 7000]]
       else mkFrame ["DATETIME"; "MedianLoadForecast"] [[hour; CInt 50000]]).

Lemma get_net_load_forecast_arithmetic_witness :
  let hour := CTime (mk_datetime 2024 2 1 13 0) in
  let st := mkState [] [greeting "2024-02-01" None] in
  let out :=
    mkFrame (merged_columns ++ ["Renewables"; "NetLoad"])
      [[hour; CInt 3000; CInt 7000; CInt 50000; CInt 10000; CInt 40000]] in
  load.get_net_load_forecast example_forecasts "2024-02-01" None (init [])
  = (Ok out, st) /\
  st = st /\
  columns out = merged_columns ++ ["Renewables"; "NetLoad"] /\
  Forall net_load_row (rows out) /\
  (List.length [[hour; CInt 3000]] <= List.length (rows out))%nat.
Proof.
  cbv zeta. split; [vm_compute; reflexivity |].
  apply (get_net_load_forecast_arithmetic example_forecasts "2024-02-01" None
           (init [])
           (mkState [] [greeting "2024-02-01" None])
           (mkState [] [greeting "2024-02-01" None])
           (mkState [] [greeting "2024-02-01" None])
           (mkState [] [greeting "2024-02-01" None])
           (mkFrame ["DATETIME"; "COPHSLSystemWide"]
              [[CTime (mk_datetime 2024 2 1 13 0); CInt 3000]])
           (mkFrame ["DATETIME"; "COPHSLSystemWide"]
              [[CTime (mk_datetime 2024 2 1 13 0); CInt 7000]])
           (mkFrame ["DATETIME"; "MedianLoadForecast"]
              [[CTime (mk_datetime 2024 2 1 13 0); CInt 50000]])
           (mkFrame (merged_columns ++ ["Renewables"; "NetLoad"])
              [[CTime (mk_datetime 2024 2 1 13 0); CInt 3000; CInt 7000;
                CInt 50000; CInt 10000; CInt 40000]])
           "COPHSLSystemWide" "COPHSLSystemWide").
  - reflexivity.
  - reflexivity.
  - reflexivity.
  - repeat constructor; cbn; intuition discriminate.
  - repeat constructor; cbn; intuition discriminate.
  - reflexivity.
  - reflexivity.
  - reflexivity.
  - vm_compute. reflexivity.
Defined.

Lemma get_net_load_forecast_needs_datetime_witness :
  exists lines,
    load.get_net_load_forecast (fun _ _ _ => ret (mkFrame [] [])) "2024-02-01" None
      (init [])
    = (Raise (KeyError "DATETIME"),
       mkState [] ([greeting "2024-02-01" None] ++ lines)) /\
    List.length lines = 1%nat.
Proof.
  apply (get_net_load_forecast_needs_datetime (fun _ _ _ => ret (mkFrame [] []))
           "2024-02-01" None (init [])
           (mkState [] [greeting "2024-02-01" None]) (mkFrame [] [])).
  - reflexivity.
  - reflexivity.
Defined.

(** ** What the callers' tables become *)

Section InPlace.
Context {parser : DatetimeParser}.

(** The run of [filter_forecast_by_posted] on a forecast table with
    rows: the converted column goes into the caller's table, then the
    sorted table and the table of the groups are made. *)
Lemma filter_forecast_by_posted_run (st : state) (l : ref) (df : DataFrame)
    (K : list key) :
  nth_error (heap st) l = Some df ->
  forecast_table df K ->
  rows df <> [] ->
  let df1 := setitem df "PostedDatetime" (map of_time (map snd K)) in
  exists sorted out ps,
    load.filter_forecast_by_posted l st
    = (Ok (S (List.length (heap st))),
       mkState ((set_nth l df1 (heap st) ++ [sorted]) ++ [out]) (stdout st)) /\
    getitem out "DATETIME" = Ok (map CTime (delivery_times (sort key_leb K))) /\
    getitem out "PostedDatetime" = Ok ps /\
    Forall2 (fun t c => latest (posted_for (sort key_leb K) t) c)
      (delivery_times (sort key_leb K)) ps.
Proof.
  intros E HT Hrows df1. pose proof HT as (WF & HD & HP & HK).
  unfold load.filter_forecast_by_posted.
  unfold bindM at 1. unfold deref at 1. rewrite E.
  replace (empty df) with false.
  2: { unfold empty. unfold has_column in HD.
       destruct (columns df); [discriminate |].
       destruct (rows df); [contradiction | reflexivity]. }
  destruct (col_index "DATETIME" (columns df)) as [i |] eqn:Hi;
    [| unfold has_column in HD; rewrite Hi in HD; discriminate].
  destruct (col_index "PostedDatetime" (columns df)) as [j |] eqn:Hj;
    [| unfold has_column in HP; rewrite Hj in HP; discriminate].
  destruct (forecast_table_convert df K i j HT Hi Hj) as [Hconv Hkeyed].
  rewrite HP. unfold bindM at 1. unfold bindM at 1.
  unfold getitemM at 1. unfold bindM at 1. unfold deref at 1. rewrite E.
  unfold lift at 1. unfold getitem at 1. rewrite Hj.
  unfold bindM at 1. unfold lift at 1. rewrite Hconv.
  unfold setitemM at 1. unfold update at 1. rewrite E.
  fold df1.
  set (h1 := set_nth l df1 (heap st)).
  assert (E1 : nth_error h1 l = Some df1) by (eapply nth_error_set_nth; eauto).
  assert (Hh1 : List.length h1 = List.length (heap st)) by apply set_nth_length.
  unfold bindM at 1. unfold deref at 1. cbn [heap stdout]. rewrite E1.
  assert (Hdf1 : df1 = mkFrame (columns df)
                   (zip_with (set_nth j) (map of_time (map snd K)) (rows df))).
  { unfold df1, setitem. now rewrite Hj. }
  assert (Hsort := sort_values2_keyed df1 i j K).
  rewrite Hdf1 in Hsort. cbn [columns rows] in Hsort.
  specialize (Hsort Hi Hj Hkeyed). rewrite <- Hdf1 in Hsort.
  unfold bindM at 1. unfold lift at 1. rewrite Hsort.
  unfold bindM at 1. unfold new_frame at 1. cbn [heap stdout].
  unfold bindM at 1. unfold deref at 1. cbn [heap]. rewrite nth_error_snoc.
  set (rs2 := sort (row_leb i j) _).
  assert (HK2 : Forall2 (keyed i j) rs2 (sort key_leb K))
    by (apply sort_keyed, Hkeyed).
  destruct (groupby_last_keyed (columns df) rs2 i j (sort key_leb K) Hi Hj HK2)
    as (out & ps & Hg & G1 & G2 & G3).
  { apply sort_sorted; [apply key_leb_total | apply key_leb_trans]. }
  unfold bindM at 1. unfold lift at 1. rewrite Hg.
  unfold bindM at 1. unfold new_frame at 1. cbn [heap stdout]. unfold ret.
  exists (mkFrame (columns df) rs2), out, ps.
  split; [| auto].
  rewrite length_app, Hh1. cbn [List.length]. rewrite Nat.add_1_r. reflexivity.
Qed.

(** X17.  [filter_forecast_by_posted] works on the caller's table.  On a
    forecast table without rows it returns the very table it was given.
    On one with rows it returns a new table, but first assigns the
    converted [PostedDatetime] column to the caller's table, which is
    left on the heap with that column replaced by timestamps; two tables
    are created and nothing is printed. *)
Theorem filter_forecast_by_posted_in_place (st : state) (l : ref)
    (df : DataFrame) (K : list key) :
  nth_error (heap st) l = Some df ->
  forecast_table df K ->
  (rows df = [] -> load.filter_forecast_by_posted l st = (Ok l, st)) /\
  (rows df <> [] ->
   exists st',
     load.filter_forecast_by_posted l st = (Ok (S (List.length (heap st))), st') /\
     S (List.length (heap st)) <> l /\
     nth_error (heap st') l
     = Some (setitem df "PostedDatetime" (map of_time (map snd K))) /\
     List.length (heap st') = S (S (List.length (heap st))) /\
     stdout st' = stdout st).
Proof.
  intros E HT.
  assert (Hl : (l < List.length (heap st))%nat)
    by (apply nth_error_Some; congruence).
  split.
  - intros Hrows. destruct HT as (_ & HD & _).
    unfold load.filter_forecast_by_posted.
    unfold bindM at 1. unfold deref at 1. rewrite E.
    replace (empty df) with true; [reflexivity |].
    unfold empty. rewrite Hrows. now destruct (columns df).
  - intros Hrows.
    destruct (filter_forecast_by_posted_run st l df K E HT Hrows)
      as (sorted & out & ps & Run & _).
    cbv zeta in Run. eexists. split; [exact Run |]. cbn [heap stdout].
    split; [lia |].
    assert (Hlen : List.length (set_nth l
                     (setitem df "PostedDatetime" (map of_time (map snd K)))
                     (heap st)) = List.length (heap st))
      by apply set_nth_length.
    split; [| split; [| reflexivity]].
    + rewrite <- app_assoc. rewrite nth_error_app1 by lia.
      eapply nth_error_set_nth; eauto.
    + rewrite !length_app, Hlen. cbn. lia.
Qed.

End InPlace.

Lemma filter_forecast_by_posted_in_place_witness :
  exists st',
    load.filter_forecast_by_posted (parser := iso) 0%nat (init [two_vintages])
    = (Ok 2%nat, st') /\
    2%nat <> 0%nat /\
    nth_error (heap st') 0%nat
    = Some (mkFrame ["DATETIME"; "PostedDatetime"]
              [[CTime (mk_datetime 2024 2 2 1 0); CTime (mk_datetime 2024 2 1 8 0)];
               [CTime (mk_datetime 2024 2 2 1 0); CTime (mk_datetime 2024 2 1 6 0)]]) /\
    List.length (heap st') = 3%nat /\
    stdout st' = [].
Proof.
  apply (proj2 (filter_forecast_by_posted_in_place (parser := iso)
                  (init [two_vintages]) 0%nat two_vintages two_vintages_keys
                  eq_refl two_vintages_table)).
  discriminate.
Defined.

Section InPlaceSplits.
Context {parser : DatetimeParser}.

Lemma forM_split_at_grows (l : ref) (df : DataFrame) (U : list cell) (k : Z)
    (e : bool) (idxs : list Z) :
  has_column "Date" df = true ->
  forall s, nth_error (heap s) l = Some df ->
  exists r extra,
    forM (forecasting.split_at l U k e) idxs s
    = (r, mkState (heap s ++ extra) (stdout s)).
Proof.
  intros HD. induction idxs as [| i idxs IH]; intros s E.
  - exists (Ok []), []. cbn. rewrite app_nil_r. now destruct s.
  - cbn [forM]. unfold bindM at 1.
    destruct (py_index U i) as [td | x] eqn:Hi.
    + rewrite (split_at_run s l df U k e i td E HD Hi). cbv zeta.
      set (s1 := mkState _ (stdout s)).
      destruct (IH s1) as (r & extra & Hr).
      { cbn [s1 heap]. rewrite <- app_assoc. rewrite nth_error_app1; [exact E |].
        apply nth_error_Some. congruence. }
      unfold bindM at 1. rewrite Hr. cbn [s1 heap stdout].
      rewrite <- !app_assoc.
      destruct r as [ys | x]; eexists; eexists; unfold ret; reflexivity.
    + unfold forecasting.split_at. unfold bindM at 1. unfold lift at 1.
      rewrite Hi. exists (Raise x), []. rewrite app_nil_r. now destruct s.
Qed.

(** X18.  [create_rolling_splits] writes the [Date] column into the
    caller's table.  Whether the call returns splits or raises, the table
    behind the caller's reference is afterwards the given one with the
    calendar dates of [DATETIME] assigned to a new last column [Date],
    unless it had that column already, and then it is as it was.
    Nothing is printed. *)
Theorem create_rolling_splits_in_place (st : state) (l : ref) (df : DataFrame)
    (ds : list Z) (k : Z) (e : bool) :
  nth_error (heap st) l = Some df ->
  dated df ds ->
  let st' := snd (forecasting.create_rolling_splits l k e st) in
  nth_error (heap st') l
  = Some (if has_column "Date" df then df else setitem df "Date" (map CDate ds)) /\
  (has_column "Date" df = false ->
   columns (setitem df "Date" (map CDate ds)) = columns df ++ ["Date"] /\
   getitem (setitem df "Date" (map CDate ds)) "Date" = Ok (map CDate ds)) /\
  stdout st' = stdout st.
Proof.
  intros E HD st'. subst st'.
  rewrite (create_rolling_splits_run st l df ds k e E HD). cbv zeta.
  set (U := map CDate (sorted_dates ds)).
  set (n := Z.of_nat (List.length U)).
  set (st1 := dated_state st l df (map CDate ds)).
  assert (E1 : nth_error (heap st1) l = Some (with_date df (map CDate ds))).
  { cbn [st1 dated_state heap]. eapply nth_error_set_nth; eauto. }
  assert (Hl : (l < List.length (heap st1))%nat)
    by (apply nth_error_Some; congruence).
  fold (with_date df (map CDate ds)).
  split; [| split].
  - destruct (n <=? k); [exact E1 |].
    destruct (forM_split_at_grows l _ U k e (py_range k n)
                (has_column_with_date _ _) st1 E1) as (r & extra & ->).
    destruct r; cbn [snd heap]; now rewrite nth_error_app1.
  - intros Hno. split.
    + unfold setitem. unfold has_column in Hno.
      destruct (col_index "Date" (columns df)); [discriminate | reflexivity].
    + destruct HD as [WF HD']. pose proof (getitem_with_date df _ WF HD') as G.
      unfold with_date in G. now rewrite Hno in G.
  - destruct (n <=? k); [reflexivity |].
    destruct (forM_split_at_grows l _ U k e (py_range k n)
                (has_column_with_date _ _) st1 E1) as (r & extra & ->).
    destruct r; reflexivity.
Qed.

End InPlaceSplits.

Lemma create_rolling_splits_in_place_witness :
  let st' := snd (forecasting.create_rolling_splits (parser := iso) 0%nat 2 true
                    (init [five_days])) in
  nth_error (heap st') 0%nat
  = Some (if has_column "Date" five_days then five_days
          else setitem five_days "Date" (map CDate five_dates)) /\
  (has_column "Date" five_days = false ->
   columns (setitem five_days "Date" (map CDate five_dates))
   = columns five_days ++ ["Date"] /\
   getitem (setitem five_days "Date" (map CDate five_dates)) "Date"
   = Ok (map CDate five_dates)) /\
  stdout st' = stdout (init [five_days]).
Proof.
  apply (create_rolling_splits_in_place (parser := iso) (init [five_days]) 0%nat
           five_days five_dates 2 true eq_refl five_days_dated).
Defined.

(** ** Column names *)

(** The three characters [to_pascal_case] treats as separators. *)
Definition separator (x : ascii) : bool :=
  Ascii.eqb x "_"%char || Ascii.eqb x " "%char || Ascii.eqb x "-"%char.

(** A property of characters checked on all 256 of them. *)
Definition all_ascii (p : ascii -> bool) : bool :=
  forallb (fun n => p (ascii_of_nat n)) (seq 0 256).

Lemma all_ascii_spec (p : ascii -> bool) :
  all_ascii p = true -> forall c, p c = true.
Proof.
  unfold all_ascii. intros H c. rewrite forallb_forall in H.
  rewrite <- (ascii_nat_embedding c). apply H. apply in_seq.
  pose proof (nat_ascii_bounded c). lia.
Qed.

Lemma to_upper_separator (x c : ascii) :
  separator x = true -> Ascii.eqb x (Py.to_upper c) = Ascii.eqb x c.
Proof.
  intros H.
  assert (A : all_ascii (fun c =>
                forallb (fun x => Bool.eqb (Ascii.eqb x (Py.to_upper c)) (Ascii.eqb x c))
                        ["_"; " "; "-"]%char) = true)
    by (vm_compute; reflexivity).
  pose proof (all_ascii_spec _ A c) as B. cbv beta in B. cbn [forallb] in B.
  apply andb_prop in B as [B1 B]. apply andb_prop in B as [B2 B].
  apply andb_prop in B as [B3 _].
  apply Bool.eqb_prop in B1, B2, B3.
  unfold separator in H.
  apply orb_prop in H as [H | H]; [apply orb_prop in H as [H | H] |];
    apply Ascii.eqb_eq in H; subst x; assumption.
Qed.

Lemma to_lower_separator (x c : ascii) :
  separator x = true -> Ascii.eqb x (Py.to_lower c) = Ascii.eqb x c.
Proof.
  intros H.
  assert (A : all_ascii (fun c =>
                forallb (fun x => Bool.eqb (Ascii.eqb x (Py.to_lower c)) (Ascii.eqb x c))
                        ["_"; " "; "-"]%char) = true)
    by (vm_compute; reflexivity).
  pose proof (all_ascii_spec _ A c) as B. cbv beta in B. cbn [forallb] in B.
  apply andb_prop in B as [B1 B]. apply andb_prop in B as [B2 B].
  apply andb_prop in B as [B3 _].
  apply Bool.eqb_prop in B1, B2, B3.
  unfold separator in H.
  apply orb_prop in H as [H | H]; [apply orb_prop in H as [H | H] |];
    apply Ascii.eqb_eq in H; subst x; assumption.
Qed.

Lemma to_upper_letter (c : ascii) :
  Py.is_upper c || Py.is_lower c = true -> Py.is_upper (Py.to_upper c) = true.
Proof.
  assert (A : all_ascii (fun c => implb (Py.is_upper c || Py.is_lower c)
                                        (Py.is_upper (Py.to_upper c))) = true)
    by (vm_compute; reflexivity).
  pose proof (all_ascii_spec _ A c) as B. cbv beta in B. intros H. now rewrite H in B.
Qed.

Lemma letter_not_separator (c : ascii) :
  Py.is_upper c || Py.is_lower c = true -> separator c = false.
Proof.
  assert (A : all_ascii (fun c => implb (Py.is_upper c || Py.is_lower c)
                                        (negb (separator c))) = true)
    by (vm_compute; reflexivity).
  pose proof (all_ascii_spec _ A c) as B. cbv beta in B. intros H. rewrite H in B.
  now apply negb_true_iff in B.
Qed.

Lemma contains_char_lower (x : ascii) (s : string) :
  separator x = true ->
  Py.contains_char x (Py.lower s) = Py.contains_char x s.
Proof.
  intros H. induction s as [| c s IH]; cbn; [reflexivity |].
  unfold Py.lower in IH. now rewrite IH, to_lower_separator.
Qed.

Lemma contains_char_capitalize (x : ascii) (s : string) :
  separator x = true ->
  Py.contains_char x (Py.capitalize s) = Py.contains_char x s.
Proof.
  intros H. destruct s as [| c s]; cbn; [reflexivity |].
  now rewrite to_upper_separator, contains_char_lower.
Qed.

Lemma contains_char_append (x : ascii) (s t : string) :
  Py.contains_char x (String.append s t)
  = Py.contains_char x s || Py.contains_char x t.
Proof.
  induction s as [| c s IH]; cbn; [reflexivity |].
  now rewrite IH, orb_assoc.
Qed.

Lemma contains_char_join (x : ascii) (parts : list string) :
  Py.contains_char x (Py.join parts) = existsb (Py.contains_char x) parts.
Proof.
  induction parts as [| p ps IH]; cbn; [reflexivity |].
  unfold Py.join in IH. now rewrite contains_char_append, IH.
Qed.

(** A replaced character is gone, and no other character appears. *)
Lemma contains_char_replace (x a b : ascii) (s : string) :
  Py.contains_char x (Py.replace_char a b s)
  = if Ascii.eqb x b then Py.contains_char a s || Py.contains_char b s
    else if Ascii.eqb x a then false
    else Py.contains_char x s.
Proof.
  induction s as [| c s IH]; cbn.
  - destruct (Ascii.eqb x b), (Ascii.eqb x a); reflexivity.
  - unfold Py.replace_char in IH. rewrite IH. clear IH.
    destruct (Ascii.eqb_spec c a) as [-> | Hca].
    + destruct (Ascii.eqb_spec x b) as [-> | Hxb].
      * rewrite Ascii.eqb_refl. cbn.
        destruct (Ascii.eqb a b); reflexivity.
      * destruct (Ascii.eqb_spec x a) as [-> | Hxa]; [reflexivity |].
        destruct (Ascii.eqb_spec x b); [contradiction | reflexivity].
    + destruct (Ascii.eqb_spec x b) as [-> | Hxb].
      * destruct (Ascii.eqb_spec a c); [congruence |]. cbn.
        destruct (Ascii.eqb b c), (Py.contains_char a s); reflexivity.
      * destruct (Ascii.eqb_spec x a) as [-> | Hxa].
        { destruct (Ascii.eqb_spec a c); [congruence | reflexivity]. }
        reflexivity.
Qed.

Lemma replace_char_absent (a b : ascii) (s : string) :
  Py.contains_char a s = false -> Py.replace_char a b s = s.
Proof.
  induction s as [| c s IH]; cbn; [reflexivity |].
  intros H. apply orb_false_elim in H as [H1 H2].
  unfold Py.replace_char in IH. rewrite (IH H2).
  rewrite Ascii.eqb_sym, H1. reflexivity.
Qed.

(** The pieces of a split hold no separator and nothing the string did not
    hold. *)
Lemma contains_char_split (x sep : ascii) (s p : string) :
  In p (Py.split sep s) ->
  Py.contains_char x p = true ->
  Py.contains_char x s = true /\ x <> sep.
Proof.
  revert p. induction s as [| c s IH]; cbn; intros p Hin Hx.
  - destruct Hin as [<- | []]. discriminate.
  - destruct (Ascii.eqb_spec c sep) as [-> | Hne].
    + destruct Hin as [<- | Hin]; [discriminate |].
      destruct (IH p Hin Hx) as [H1 H2]. rewrite H1, orb_true_r. auto.
    + destruct (Py.split sep s) as [| q qs] eqn:Es.
      * destruct Hin as [<- | []]. cbn in Hx. rewrite orb_false_r in Hx.
        apply Ascii.eqb_eq in Hx. subst x. rewrite Ascii.eqb_refl. auto.
      * destruct Hin as [<- | Hin].
        -- cbn in Hx. apply orb_prop in Hx as [Hx | Hx].
           ++ apply Ascii.eqb_eq in Hx. subst x. rewrite Ascii.eqb_refl. auto.
           ++ destruct (IH q (or_introl eq_refl) Hx) as [H1 H2].
              rewrite H1, orb_true_r. auto.
        -- destruct (IH p (or_intror Hin) Hx) as [H1 H2].
           rewrite H1, orb_true_r. auto.
Qed.

Lemma camel_boundaries_eq (c d : ascii) (s : string) :
  utils.camel_boundaries (String c (String d s))
  = if (Py.is_lower c || Py.is_digit c) && Py.is_upper d
    then String c (String "_"%char (String d (utils.camel_boundaries s)))
    else String c (utils.camel_boundaries (String d s)).
Proof. reflexivity. Qed.

Lemma contains_char_camel (x : ascii) (s : string) :
  Ascii.eqb x "_"%char = false ->
  Py.contains_char x (utils.camel_boundaries s) = Py.contains_char x s.
Proof.
  intros Hx. remember (String.length s) as n eqn:Hn.
  revert s Hn. induction n as [n IH] using lt_wf_ind. intros s Hn.
  destruct s as [| c [| d s2]]; [reflexivity | reflexivity |].
  rewrite camel_boundaries_eq.
  destruct ((Py.is_lower c || Py.is_digit c) && Py.is_upper d).
  - cbn [Py.contains_char]. rewrite Hx. cbn [orb].
    rewrite (IH (String.length s2)); [reflexivity | cbn in Hn; lia | reflexivity].
  - change (Py.contains_char x (String c (utils.camel_boundaries (String d s2))))
      with (Ascii.eqb x c || Py.contains_char x (utils.camel_boundaries (String d s2))).
    rewrite (IH (String.length (String d s2))); [reflexivity | cbn in *; lia | reflexivity].
Qed.

Lemma camel_boundaries_head (c : ascii) (s : string) :
  exists t, utils.camel_boundaries (String c s) = String c t.
Proof.
  destruct s as [| d s2]; cbn [utils.camel_boundaries]; [eauto |].
  destruct ((Py.is_lower c || Py.is_digit c) && Py.is_upper d); eauto.
Qed.

Lemma split_head (sep c : ascii) (s : string) :
  Ascii.eqb c sep = false ->
  exists p ps, Py.split sep (String c s) = String c p :: ps.
Proof.
  intros H. cbn [Py.split]. rewrite H.
  destruct (Py.split sep s); eauto.
Qed.

(** The names of the model are byte strings; they stand for Python strings
    of ASCII characters. *)
Fixpoint is_ascii (s : string) : bool :=
  match s with
  | EmptyString => true
  | String c s' => (nat_of_ascii c <? 128)%nat && is_ascii s'
  end.

Definition starts_upper (s : string) : bool :=
  match s with
  | EmptyString => true
  | String c _ => Py.is_upper c
  end.

Definition starts_with_letter (s : string) : bool :=
  match s with
  | EmptyString => true
  | String c _ => Py.is_upper c || Py.is_lower c
  end.

(** X19.  The name [to_pascal_case] returns holds no underscore, space or
    hyphen.  When it is empty or starts with an upper-case letter, as it
    does for every name that starts with a letter, [to_pascal_case] leaves
    it as it is: on such names the conversion is idempotent. *)
Theorem to_pascal_case_normal_form (name : string) :
  is_ascii name = true ->
  let r := utils.to_pascal_case name in
  (forall x, separator x = true -> Py.contains_char x r = false) /\
  (starts_upper r = true -> utils.to_pascal_case r = r) /\
  (starts_with_letter name = true ->
   starts_upper r = true /\ utils.to_pascal_case r = r).
Proof.
  intros _ r.
  set (name' := Py.replace_char " "%char "_"%char
                  (Py.replace_char "-"%char "_"%char name)).
  assert (Hsp : Py.contains_char " "%char name' = false).
  { unfold name'. rewrite contains_char_replace. reflexivity. }
  assert (Hhy : Py.contains_char "-"%char name' = false).
  { unfold name'. rewrite contains_char_replace. cbn [Ascii.eqb Bool.eqb].
    rewrite contains_char_replace. reflexivity. }
  assert (Hr : r = if Py.nonempty name'
                      && match name' with
                         | String c _ => Py.is_upper c
                         | EmptyString => false
                         end
                      && negb (Py.contains_char "_"%char (Py.lower name'))
                   then name'
                   else Py.join (map Py.capitalize
                          (filter Py.nonempty
                             (Py.split "_"%char (utils.camel_boundaries name')))))
    by reflexivity.
  (* no separator is left *)
  assert (Hsep : forall x, separator x = true -> Py.contains_char x r = false).
  { intros x Hx. rewrite Hr.
    destruct (Py.nonempty name' && _ && _) eqn:Hc.
    - apply andb_prop in Hc as [_ Hc]. apply negb_true_iff in Hc.
      rewrite contains_char_lower in Hc by reflexivity.
      unfold separator in Hx.
      apply orb_prop in Hx as [Hx | Hx]; [apply orb_prop in Hx as [Hx | Hx] |];
        apply Ascii.eqb_eq in Hx; subst x; assumption.
    - rewrite contains_char_join. apply not_true_is_false. intros H.
      apply existsb_exists in H as (q & Hq & Hxq).
      apply in_map_iff in Hq as (p & <- & Hp).
      apply filter_In in Hp as [Hp _].
      rewrite contains_char_capitalize in Hxq by exact Hx.
      destruct (contains_char_split x "_"%char _ p Hp Hxq) as [H1 H2].
      assert (Hx' : Ascii.eqb x "_"%char = false)
        by (destruct (Ascii.eqb_spec x "_"%char); [contradiction | reflexivity]).
      rewrite contains_char_camel in H1 by exact Hx'.
      unfold separator in Hx. rewrite Hx' in Hx. cbn [orb] in Hx.
      apply orb_prop in Hx as [Hx | Hx]; apply Ascii.eqb_eq in Hx; subst x;
        congruence. }
  (* a name without separators that starts in upper case is returned *)
  assert (Hfix : starts_upper r = true -> utils.to_pascal_case r = r).
  { intros Hu. unfold utils.to_pascal_case.
    rewrite (replace_char_absent "-"%char "_"%char r) by (now apply Hsep).
    rewrite (replace_char_absent " "%char "_"%char r) by (now apply Hsep).
    rewrite contains_char_lower by reflexivity.
    rewrite (Hsep "_"%char eq_refl).
    destruct r as [| c t]; [reflexivity |].
    cbn [starts_upper] in Hu. cbn [Py.nonempty]. rewrite Hu. reflexivity. }
  split; [exact Hsep |]. split; [exact Hfix |].
  intros Hl. assert (Hu : starts_upper r = true); [| auto].
  destruct name as [| c s]; [reflexivity |]. cbn [starts_with_letter] in Hl.
  pose proof (letter_not_separator c Hl) as Hns. unfold separator in Hns.
  apply orb_false_elim in Hns as [Hns Hc3].
  apply orb_false_elim in Hns as [Hc1 Hc2].
  assert (Hn' : exists t, name' = String c t).
  { unfold name'. cbn [Py.replace_char Py.map_string].
    rewrite Hc3. rewrite Hc2. eauto. }
  destruct Hn' as [t Hn']. rewrite Hr, Hn'.
  destruct (Py.nonempty (String c t) && Py.is_upper c && _) eqn:Hc.
  - apply andb_prop in Hc as [Hc _]. apply andb_prop in Hc as [_ Hc]. exact Hc.
  - destruct (camel_boundaries_head c t) as [t' ->].
    destruct (split_head "_"%char c t' Hc1) as (p & ps & ->).
    cbn [filter Py.nonempty map Py.capitalize Py.join fold_right String.append
         starts_upper].
    now apply to_upper_letter.
Qed.

Lemma to_pascal_case_normal_form_witness :
  let r := utils.to_pascal_case "settlement_point-price" in
  (forall x, separator x = true -> Py.contains_char x r = false) /\
  (starts_upper r = true -> utils.to_pascal_case r = r) /\
  (starts_with_letter "settlement_point-price" = true ->
   starts_upper r = true /\ utils.to_pascal_case r = r).
Proof.
  apply (to_pascal_case_normal_form "settlement_point-price"). reflexivity.
Defined.

(** ** The vintage forecast *)

Lemma get_endpoint_spec_parameters (n : string) (spec : endpoints.EndpointSpec) :
  endpoints.get_endpoint_spec n = Ok spec ->
  endpoints.valid_parameters spec
  = match dict_get (endpoints.date_key spec) endpoints.COMMON_PARAMETERS with
    | Some ps => ps
    | None => []
    end.
Proof.
  unfold endpoints.get_endpoint_spec.
  destruct (dict_get n endpoints.ANNOTATED_ENDPOINTS) as [[dk u] |]; [| discriminate].
  intros [= <-]. reflexivity.
Qed.

Lemma get_endpoint_spec_date_key (n : string) (spec : endpoints.EndpointSpec) :
  endpoints.get_endpoint_spec n = Ok spec ->
  endpoints.get_date_key n = Ok (endpoints.date_key spec).
Proof.
  unfold endpoints.get_endpoint_spec, endpoints.get_date_key.
  destruct (dict_get n endpoints.ANNOTATED_ENDPOINTS) as [[dk u] |]; [| discriminate].
  intros [= <-]. reflexivity.
Qed.

Section VintageFacts.
Context {parser : DatetimeParser}.
Variable ercot_api_call : string -> dict string -> M client.response.
Variable strptime : string -> result datetime.
Variable strftime : datetime -> string.
Variable median_load_forecast : ref -> M ref.

(** X20.  For an endpoint whose date key is [deliveryDate], as the solar,
    wind and load forecast endpoints have it, [get_vintage_forecast] sends
    one request, and the request carries [postedDatetimeTo], the text of
    7 a.m. on the day before the end date, next to the date range, whose
    end is the start date when no end date is given.  The table is then
    handled by the selection alone: no later step looks at the cutoff.  A
    keyword named like a date parameter would replace the date. *)
Theorem get_vintage_forecast_request (endpoint_name date_from : string)
    (date_to : option string) (settlement_point resource_type : option string)
    (size : Z) (kwargs : dict pyval) (end_date : datetime) (st : state) :
  let date_to' := match date_to with Some d => d | None => date_from end in
  endpoints.get_date_key endpoint_name = Ok "deliveryDate" ->
  strptime date_to' = Ok end_date ->
  NoDup (dict_keys kwargs) ->
  (forall k, In k (dict_keys kwargs) ->
             ~ In k ("postedDatetimeTo" :: client.reserved_keywords)) ->
  exists spec params st1,
    endpoints.get_endpoint_spec endpoint_name = Ok spec /\
    vintage.get_vintage_forecast ercot_api_call strptime strftime
      median_load_forecast endpoint_name date_from date_to settlement_point
      resource_type size kwargs st
    = (let* dat := (let* resp := ercot_api_call (endpoints.url spec) params in
                    client.parse_ercot_response resp) in
       vintage.select_vintage median_load_forecast endpoint_name dat) st1 /\
    heap st1 = heap st /\
    dict_get "postedDatetimeTo" params
    = Some (strftime (end_date - timedelta_of 1 0 0 + timedelta_of 0 7 0)) /\
    (keyword "deliveryDateFrom" kwargs = None ->
     dict_get "deliveryDateFrom" params = Some date_from) /\
    (keyword "deliveryDateTo" kwargs = None ->
     dict_get "deliveryDateTo" params = Some (range_end date_from (Some date_to'))).
Proof.
  intros date_to' Hdk Hend ND Hres.
  set (cutoff := strftime (load.posted_datetime_cutoff end_date)).
  set (kwargs' := ("postedDatetimeTo", VStr cutoff) :: kwargs).
  assert (Hv : endpoints.validate_endpoint endpoint_name = true).
  { unfold endpoints.get_date_key in Hdk. unfold endpoints.validate_endpoint.
    destruct (dict_get endpoint_name endpoints.ANNOTATED_ENDPOINTS); [reflexivity | discriminate]. }
  assert (ND' : NoDup (dict_keys kwargs')).
  { cbn. constructor; [| exact ND]. intros H. apply (Hres _ H). now left. }
  assert (Hres' : forall k, In k (dict_keys kwargs') -> ~ In k client.reserved_keywords).
  { intros k [<- | Hk]; [cbn; intuition discriminate |].
    intros H. apply (Hres k Hk). now right. }
  destruct (fetch_data_run ercot_api_call endpoint_name date_from
              (Some date_to') settlement_point resource_type size kwargs' st
              Hv ND' Hres')
    as (spec & st1 & Hspec & NDkw & _ & _ & _ & _ & Hrun & Hheap).
  cbv zeta in *.
  pose proof (get_endpoint_spec_date_key _ _ Hspec) as Hdk'.
  rewrite Hdk in Hdk'. injection Hdk' as Hdk'.
  pose proof (get_endpoint_spec_parameters _ _ Hspec) as Hvp.
  rewrite <- Hdk' in Hvp, Hrun. cbn in Hvp.
  set (built := query.build_query_params endpoint_name "deliveryDate" date_from
                  (Some date_to')
                  (keywords settlement_point resource_type size kwargs')) in *.
  exists spec, (filter (allowed (endpoints.valid_parameters spec)) built), st1.
  split; [exact Hspec |]. split.
  { unfold vintage.get_vintage_forecast. fold date_to'.
    unfold bindM at 1. unfold lift at 1. rewrite Hend.
    fold cutoff. fold kwargs'.
    replace (existsb _ (dict_keys kwargs)) with false.
    - unfold bindM at 1. rewrite Hrun. reflexivity.
    - symmetry. apply not_true_is_false. intros H.
      apply existsb_exists in H as (k & Hk & Hm). apply mem_string_In in Hm.
      apply (Hres k Hk). cbn in Hm. cbn. intuition. }
  split; [exact Hheap |].
  assert (L : forall k, mem_string k client.reserved_keywords = false ->
              key_allowed (endpoints.valid_parameters spec) k = true ->
              dict_get k (filter (allowed (endpoints.valid_parameters spec)) built)
              = match keyword k kwargs' with
                | Some s => Some s
                | None =>
                    if String.eqb k "deliveryDateFrom" then Some date_from
                    else if String.eqb k "deliveryDateTo"
                         then Some (range_end date_from (Some date_to'))
                         else None
                end).
  { intros k Hr Ha. rewrite dict_get_allowed, Ha. unfold built.
    rewrite (build_query_params_get _ _ _ _ _ _ NDkw).
    now rewrite keyword_not_reserved by exact Hr. }
  split; [| split].
  - rewrite L; [reflexivity | reflexivity | now rewrite Hvp].
  - intros Hk. rewrite L; [| reflexivity | now rewrite Hvp].
    unfold keyword, kwargs'. cbn [dict_get String.eqb Ascii.eqb Bool.eqb].
    fold (keyword "deliveryDateFrom" kwargs). now rewrite Hk.
  - intros Hk. rewrite L; [| reflexivity | now rewrite Hvp].
    unfold keyword, kwargs'. cbn [dict_get String.eqb Ascii.eqb Bool.eqb].
    fold (keyword "deliveryDateTo" kwargs). now rewrite Hk.
Qed.

End VintageFacts.

(** An answer with two vintages of one delivery hour. *)
Definition two_vintages_call (url : string) (params : dict string)
  : M client.response :=
  ret (client.mkResponse (Some ["DATETIME"; "PostedDatetime"])
         (Some (rows two_vintages))).

(** The text of the one time stamp the example needs. *)
Definition example_strftime (t : datetime) : string :=
  if t =? mk_datetime 2024 2 1 7 0 then "2024-02-01T07:00:00"
  else "1970-01-01T00:00:00".

Definition iso_strptime (s : string) : result datetime :=
  match iso_parse s with
  | Some t => Ok t
  | None => Raise (ValueError "time data does not match format")
  end.

Lemma get_vintage_forecast_request_witness :
  exists spec params st1,
    endpoints.get_endpoint_spec "solar_system_forecast" = Ok spec /\
    vintage.get_vintage_forecast (parser := iso) two_vintages_call iso_strptime
      example_strftime (fun l => ret l) "solar_system_forecast" "2024-02-02" None None
      None 100000 [] (init [])
    = (let* dat := (let* resp := two_vintages_call (endpoints.url spec) params in
                    client.parse_ercot_response (parser := iso) resp) in
       vintage.select_vintage (parser := iso) (fun l => ret l)
         "solar_system_forecast" dat) st1 /\
    heap st1 = heap (init []) /\
    dict_get "postedDatetimeTo" params
    = Some "2024-02-01T07:00:00" /\
    (keyword "deliveryDateFrom" [] = None ->
     dict_get "deliveryDateFrom" params = Some "2024-02-02") /\
    (keyword "deliveryDateTo" [] = None ->
     dict_get "deliveryDateTo" params
     = Some (range_end "2024-02-02" (Some "2024-02-02"))).
Proof.
  apply (get_vintage_forecast_request (parser := iso) two_vintages_call
           iso_strptime example_strftime (fun l => ret l) "solar_system_forecast"
           "2024-02-02" None None None 100000 [] (mk_datetime 2024 2 2 0 0)
           (init [])).
  - reflexivity.
  - vm_compute. reflexivity.
  - constructor.
  - intros k [].
Defined.

(** *** Dropping columns *)

Lemma keep_where_col_index (names cols : list string) (c : string) (i : nat) :
  col_index c cols = Some i ->
  mem_string c names = false ->
  let mask := map (fun x => negb (mem_string x names)) cols in
  exists i',
    col_index c (vintage.keep_where mask cols) = Some i' /\
    forall row : list cell,
      cell_at i' (vintage.keep_where mask row) = cell_at i row.
Proof.
  intros Hi Hc. revert i Hi.
  induction cols as [| x cols IH]; intros i Hi; [discriminate |].
  cbn [col_index] in Hi. cbn [map vintage.keep_where].
  destruct (String.eqb_spec x c) as [-> | Hne].
  - injection Hi as <-. rewrite Hc. cbn [negb col_index].
    rewrite String.eqb_refl. exists O. split; [reflexivity |].
    intros [| r rs]; reflexivity.
  - destruct (col_index c cols) as [i0 |] eqn:E0; [| discriminate].
    injection Hi as <-. destruct (IH i0 eq_refl) as (i' & Hi' & Hcell).
    destruct (negb (mem_string x names)).
    + exists (S i'). cbn [col_index].
      destruct (String.eqb_spec x c); [contradiction |].
      rewrite Hi'. split; [reflexivity |].
      intros [| r rs]; [reflexivity |]. apply Hcell.
    + exists i'. split; [exact Hi' |].
      intros [| r rs]; [| apply Hcell].
      unfold cell_at. now destruct i'.
Qed.

Lemma keep_where_col_index_none (names cols : list string) (c : string) :
  col_index c cols = None \/ mem_string c names = true ->
  col_index c (vintage.keep_where (map (fun x => negb (mem_string x names)) cols) cols)
  = None.
Proof.
  intros H. induction cols as [| x cols IH]; [reflexivity |].
  cbn [map vintage.keep_where].
  assert (H' : col_index c cols = None \/ mem_string c names = true).
  { destruct H as [H | H]; [| now right]. left. cbn [col_index] in H.
    destruct (String.eqb x c); [discriminate |].
    now destruct (col_index c cols). }
  destruct (negb (mem_string x names)) eqn:Ex; [| exact (IH H')].
  cbn [col_index]. rewrite (IH H').
  destruct (String.eqb_spec x c) as [-> | _]; [| reflexivity].
  destruct H as [H | H].
  - cbn [col_index] in H. now rewrite String.eqb_refl in H.
  - rewrite H in Ex. discriminate.
Qed.

Lemma has_column_drop (names : list string) (df : DataFrame) (c : string) :
  has_column c (vintage.drop names df)
  = has_column c df && negb (mem_string c names).
Proof.
  unfold has_column, vintage.drop. cbn [columns].
  destruct (mem_string c names) eqn:Hc.
  - rewrite keep_where_col_index_none by now right. now rewrite andb_false_r.
  - destruct (col_index c (columns df)) as [i |] eqn:Hi.
    + destruct (keep_where_col_index names _ c i Hi Hc) as (i' & -> & _).
      reflexivity.
    + rewrite keep_where_col_index_none by now left. reflexivity.
Qed.

Lemma getitem_drop (names : list string) (df : DataFrame) (c : string) :
  mem_string c names = false ->
  getitem (vintage.drop names df) c = getitem df c.
Proof.
  intros Hc. unfold getitem, vintage.drop. cbn [columns rows].
  destruct (col_index c (columns df)) as [i |] eqn:Hi.
  - destruct (keep_where_col_index names _ c i Hi Hc) as (i' & -> & Hcell).
    f_equal. rewrite map_map. apply map_ext. exact Hcell.
  - rewrite keep_where_col_index_none by now left. reflexivity.
Qed.

Section VintageSelection.
Context {parser : DatetimeParser}.
Variable median_load_forecast : ref -> M ref.

(** X21.  What [get_vintage_forecast] makes of a solar or wind forecast
    table once it is fetched.  A table without rows is returned as it is.
    Otherwise the result is a new table with exactly one row for each
    delivery time of the input, which holds for it the greatest
    publication time among the input rows of that delivery time; the
    columns [DSTFlag], [HourEnding] and [DeliveryDate] are not in it. *)
Theorem select_vintage_renewables (endpoint_name : string) (dat : ref)
    (st : state) (df : DataFrame) (K : list key) :
  String.eqb endpoint_name "ercot_zone_load_forecast" = false ->
  nth_error (heap st) dat = Some df ->
  forecast_table df K ->
  (rows df = [] ->
   vintage.select_vintage median_load_forecast endpoint_name dat st = (Ok dat, st)) /\
  (rows df <> [] ->
   exists l' st' out ts ps,
     vintage.select_vintage median_load_forecast endpoint_name dat st = (Ok l', st') /\
     (List.length (heap st) < l')%nat /\
     nth_error (heap st') l' = Some out /\
     getitem out "DATETIME" = Ok (map CTime ts) /\
     NoDup ts /\
     (forall t, In t ts <-> exists b, In (Some t, b) K) /\
     getitem out "PostedDatetime" = Ok ps /\
     Forall2 (fun t c => latest (posted_for K t) c) ts ps /\
     forall c, In c ["DSTFlag"; "HourEnding"; "DeliveryDate"] ->
               has_column c out = false).
Proof.
  intros Hname E HT. split.
  - intros Hrows. destruct HT as (_ & HD & _).
    unfold vintage.select_vintage.
    unfold bindM at 1. unfold deref at 1. rewrite E.
    replace (empty df) with true; [reflexivity |].
    unfold empty. rewrite Hrows. now destruct (columns df).
  - intros Hrows.
    destruct (filter_forecast_by_posted_run st dat df K E HT Hrows)
      as (sorted & out & ps & Run & G1 & G2 & G3).
    cbv zeta in Run.
    set (h1 := set_nth dat (setitem df "PostedDatetime" (map of_time (map snd K)))
                 (heap st)) in *.
    assert (Hh1 : List.length h1 = List.length (heap st)) by apply set_nth_length.
    assert (Hemp : empty df = false).
    { destruct HT as (_ & HD & _). unfold empty. unfold has_column in HD.
      destruct (columns df); [discriminate |].
      destruct (rows df); [contradiction | reflexivity]. }
    assert (HP2 : forall k, In k (sort key_leb K) <-> In k K).
    { intros k. split; apply Permutation_in; [| symmetry]; apply sort_perm. }
    assert (G3' : Forall2 (fun t c => latest (posted_for K t) c)
                    (delivery_times (sort key_leb K)) ps).
    { eapply Forall2_impl; [| exact G3]. intros t c. apply latest_perm.
      intros b. rewrite !posted_for_In. apply HP2. }
    assert (Hts : forall t, In t (delivery_times (sort key_leb K))
                            <-> exists b, In (Some t, b) K).
    { intros t. rewrite delivery_times_In. split; intros (b & Hb); exists b;
        now apply HP2. }
    assert (Eout : nth_error ((h1 ++ [sorted]) ++ [out]) (S (List.length (heap st)))
                   = Some out).
    { replace (S (List.length (heap st))) with (List.length (h1 ++ [sorted]))
        by (rewrite length_app, Hh1; cbn; lia).
      apply nth_error_snoc. }
    set (drop_cols := ["DSTFlag"; "HourEnding"; "DeliveryDate"]).
    set (cols_to_drop := filter (fun col => has_column col out) drop_cols).
    assert (Hsub : forall c, mem_string c drop_cols = false ->
                             mem_string c cols_to_drop = false).
    { intros c Hc. apply not_true_is_false. intros H.
      apply mem_string_In in H. apply filter_In in H as [H _].
      apply mem_string_In in H. congruence. }
    assert (Hrun : vintage.select_vintage median_load_forecast endpoint_name dat st
                   = match cols_to_drop with
                     | [] => ret (S (List.length (heap st)))
                     | _ => new_frame (vintage.drop cols_to_drop out)
                     end (mkState ((h1 ++ [sorted]) ++ [out]) (stdout st))).
    { unfold vintage.select_vintage.
      unfold bindM at 1. unfold deref at 1. rewrite E, Hemp, Hname.
      unfold bindM at 1. rewrite Run.
      unfold bindM at 1. unfold deref at 1. cbn [heap]. rewrite Eout.
      reflexivity. }
    rewrite Hrun. clear Hrun.
    destruct cols_to_drop as [| c0 cs] eqn:Ecols.
    + exists (S (List.length (heap st))), (mkState ((h1 ++ [sorted]) ++ [out]) (stdout st)),
        out, (delivery_times (sort key_leb K)), ps.
      split; [reflexivity |]. split; [lia |]. cbn [heap].
      split; [exact Eout |]. split; [exact G1 |].
      split; [apply delivery_times_NoDup |]. split; [exact Hts |].
      split; [exact G2 |]. split; [exact G3' |].
      intros c Hc. apply not_true_is_false. intros H.
      assert (Hin : In c cols_to_drop) by (apply filter_In; auto).
      rewrite Ecols in Hin. exact Hin.
    + rewrite <- Ecols in *.
      exists (S (S (List.length (heap st)))),
        (mkState (((h1 ++ [sorted]) ++ [out]) ++ [vintage.drop cols_to_drop out])
                 (stdout st)),
        (vintage.drop cols_to_drop out), (delivery_times (sort key_leb K)), ps.
      split.
      { unfold new_frame. cbn [heap stdout]. rewrite !length_app, Hh1.
        cbn [List.length]. rewrite !Nat.add_1_r. reflexivity. }
      split; [lia |]. cbn [heap]. split.
      { replace (S (S (List.length (heap st))))
          with (List.length ((h1 ++ [sorted]) ++ [out]))
          by (rewrite !length_app, Hh1; cbn; lia).
        apply nth_error_snoc. }
      split; [rewrite getitem_drop by (apply Hsub; reflexivity); exact G1 |].
      split; [apply delivery_times_NoDup |]. split; [exact Hts |].
      split; [rewrite getitem_drop by (apply Hsub; reflexivity); exact G2 |].
      split; [exact G3' |].
      intros c Hc. rewrite has_column_drop.
      destruct (has_column c out) eqn:Hhc; [| reflexivity]. cbn [andb].
      apply negb_false_iff. apply mem_string_In. unfold cols_to_drop.
      apply filter_In. auto.
Qed.

End VintageSelection.

Lemma select_vintage_renewables_witness :
  exists l' st' out ts ps,
    vintage.select_vintage (parser := iso) (fun l => ret l) "wind_system_forecast"
      0%nat (init [two_vintages]) = (Ok l', st') /\
    (List.length (heap (init [two_vintages])) < l')%nat /\
    nth_error (heap st') l' = Some out /\
    getitem out "DATETIME" = Ok (map CTime ts) /\
    NoDup ts /\
    (forall t, In t ts <-> exists b, In (Some t, b) two_vintages_keys) /\
    getitem out "PostedDatetime" = Ok ps /\
    Forall2 (fun t c => latest (posted_for two_vintages_keys t) c) ts ps /\
    forall c, In c ["DSTFlag"; "HourEnding"; "DeliveryDate"] ->
              has_column c out = false.
Proof.
  apply (proj2 (select_vintage_renewables (parser := iso) (fun l => ret l)
                  "wind_system_forecast" 0%nat (init [two_vintages]) two_vintages
                  two_vintages_keys eq_refl eq_refl two_vintages_table)).
  discriminate.
Defined.

(** ** Walking forward through the dates *)

Lemma skipn_nth_error {A : Type} (l : list A) (a : nat) (x : A) :
  nth_error l a = Some x -> skipn a l = x :: skipn (S a) l.
Proof.
  revert a. induction l as [| y l IH]; intros [| a] H; cbn in *;
    try discriminate.
  - now injection H as ->.
  - now apply IH.
Qed.

Lemma mapM_py_index_from {A : Type} (U : list A) (m a : nat) :
  (a + m = List.length U)%nat ->
  mapM (py_index U) (map (fun j => Z.of_nat a + Z.of_nat j) (seq 0 m))
  = Ok (skipn a U).
Proof.
  revert a. induction m as [| m IH]; intros a H.
  - cbn. rewrite skipn_all2 by lia. reflexivity.
  - cbn [seq map mapM].
    destruct (py_index_spec U (Z.of_nat a + Z.of_nat 0)) as (x & Hx & Hn); [lia |].
    cbv zeta in Hn.
    replace (Z.of_nat a + Z.of_nat 0 <? 0) with false in Hn
      by (symmetry; apply Z.ltb_ge; lia).
    replace (Z.to_nat (Z.of_nat a + Z.of_nat 0)) with a in Hn by lia.
    rewrite Hx. cbn [bind].
    rewrite <- seq_shift, map_map.
    rewrite (map_ext _ (fun j => Z.of_nat (S a) + Z.of_nat j)) by (intros; lia).
    rewrite IH by lia. cbn [bind].
    now rewrite (skipn_nth_error U a x Hn).
Qed.

Section WalkForward.
Context {parser : DatetimeParser}.

(** When every split has training and test rows, each index yields its
    split. *)
Lemma forM_split_at_all (l : ref) (df : DataFrame) (U : list cell) (k : Z)
    (e : bool) (idxs : list Z) :
  has_column "Date" df = true ->
  (forall i, In i idxs ->
     exists td, py_index U i = Ok td /\
                rows (train_frame df U k e i) <> [] /\
                rows (test_frame df td) <> []) ->
  forall s, nth_error (heap s) l = Some df ->
  exists res extra,
    forM (forecasting.split_at l U k e) idxs s
    = (Ok res, mkState (heap s ++ extra) (stdout s)) /\
    mapM (py_index U) idxs = Ok (map snd (forecasting.somes res)).
Proof.
  intros HD. induction idxs as [| i idxs IH]; intros Hidx s E.
  - exists [], []. cbn. rewrite app_nil_r. destruct s; cbn. split; reflexivity.
  - destruct (Hidx i (or_introl eq_refl)) as (td & Htd & Htr & Hte).
    cbn [forM mapM]. unfold bindM at 1.
    rewrite (split_at_run s l df U k e i td E HD Htd). cbv zeta.
    replace ((0 <? List.length (rows (train_frame df U k e i)))%nat
             && (0 <? List.length (rows (test_frame df td)))%nat) with true.
    2: { symmetry. apply andb_true_intro. split; apply Nat.ltb_lt.
         - destruct (rows (train_frame df U k e i)); [contradiction | cbn; lia].
         - destruct (rows (test_frame df td)); [contradiction | cbn; lia]. }
    set (s1 := mkState _ (stdout s)).
    assert (E1 : nth_error (heap s1) l = Some df).
    { cbn [s1 heap]. rewrite <- app_assoc.
      rewrite nth_error_app1; [exact E | apply nth_error_Some; congruence]. }
    destruct (IH (fun j Hj => Hidx j (or_intror Hj)) s1 E1)
      as (res & extra & Hrun & Hres).
    unfold bindM at 1. rewrite Hrun. cbn [s1 heap stdout].
    rewrite Htd, Hres. cbn [bind]. unfold ret.
    eexists. eexists. split.
    + rewrite <- !app_assoc. reflexivity.
    + reflexivity.
Qed.

(** X22.  With at least one training day and more distinct dates than
    training days, [create_rolling_splits] returns one split for each
    date after the first [initial_training_days] dates, in the order of
    the calendar: the test dates of the splits are the ascending list of
    distinct dates without its first [initial_training_days] entries.
    So every later day is forecast exactly once. *)
Theorem create_rolling_splits_walk_forward (st : state) (l : ref)
    (df : DataFrame) (ds : list Z) (k : Z) (e : bool) :
  nth_error (heap st) l = Some df ->
  dated df ds ->
  1 <= k < Z.of_nat (List.length (distinct ds)) ->
  exists splits st',
    forecasting.create_rolling_splits l k e st = (Ok splits, st') /\
    map snd splits = map CDate (skipn (Z.to_nat k) (sorted_dates ds)) /\
    Z.of_nat (List.length splits) = Z.of_nat (List.length (distinct ds)) - k.
Proof.
  intros E HD Hk.
  rewrite (create_rolling_splits_run st l df ds k e E HD). cbv zeta.
  set (sd := sorted_dates ds). set (U := map CDate sd).
  set (df1 := with_date df (map CDate ds)).
  set (st1 := dated_state st l df (map CDate ds)).
  assert (Hn : Z.of_nat (List.length U) = Z.of_nat (List.length (distinct ds)))
    by apply sorted_dates_count.
  set (n := Z.of_nat (List.length U)) in *.
  replace (n <=? k) with false by (symmetry; apply Z.leb_gt; lia).
  assert (E1 : nth_error (heap st1) l = Some df1).
  { cbn [st1 dated_state heap]. eapply nth_error_set_nth; eauto. }
  assert (HC : has_column "Date" df1 = true) by apply has_column_with_date.
  assert (F1 : map (cell_of df1 "Date") (rows df1) = map CDate ds).
  { destruct HD as [WF HD']. pose proof (getitem_with_date df _ WF HD') as G.
    fold df1 in G. rewrite (getitem_has_column _ _ HC) in G. congruence. }
  assert (Hsd : forall p t, nth_error sd p = Some t -> In t ds).
  { intros p t H. apply sorted_dates_In. eapply nth_error_In; eauto. }
  assert (Hrows : forall (p : cell -> bool) (t : Z),
            In t ds -> p (CDate t) = true ->
            filter (fun r => p (cell_of df1 "Date" r)) (rows df1) <> []).
  { intros p t Hin Hp Hnil.
    pose proof (filter_dates p (cell_of df1 "Date") (rows df1) ds F1) as G.
    rewrite Hnil in G. cbn [map] in G. symmetry in G. apply map_eq_nil in G.
    assert (Hf : In t (filter (fun d => p (CDate d)) ds))
      by (apply filter_In; auto).
    rewrite G in Hf. exact Hf. }
  destruct (forM_split_at_all l df1 U k e (py_range k n) HC) with (s := st1)
    as (res & extra & Hres & Hdates); [| exact E1 |].
  { intros i Hi. apply py_range_In in Hi.
    destruct (py_index_spec U i) as (x & Hx & Hnth); [fold n; lia |].
    cbv zeta in Hnth.
    replace (i <? 0) with false in Hnth by (symmetry; apply Z.ltb_ge; lia).
    assert (Ht : exists t, x = CDate t /\ nth_error sd (Z.to_nat i) = Some t).
    { unfold U in Hnth. rewrite nth_error_map in Hnth.
      destruct (nth_error sd (Z.to_nat i)) as [t |]; [| discriminate].
      injection Hnth as <-. eauto. }
    destruct Ht as (t & -> & Ht).
    exists (CDate t). split; [exact Hx |]. split.
    - (* the date just before the test date is a training date *)
      assert (Hp : exists a, nth_error sd (Z.to_nat (i - 1)) = Some a).
      { destruct (nth_error sd (Z.to_nat (i - 1))) as [a |] eqn:Ea; [eauto |].
        apply nth_error_None in Ea. unfold n, U in Hi. rewrite length_map in Hi.
        lia. }
      destruct Hp as [a Ha].
      unfold train_frame. cbn [rows].
      apply (Hrows (fun c => cell_in c (train_dates U k e i)) a (Hsd _ _ Ha)).
      apply cell_in_In. unfold train_dates.
      assert (Bi : slice_bound n i = i).
      { rewrite slice_bound_index by lia.
        destruct (Z.ltb_spec i 0); [lia | reflexivity]. }
      destruct e; apply py_slice_In; fold n; rewrite Bi;
        exists (Z.to_nat (i - 1));
        (split; [| now apply nth_error_map_CDate]).
      + unfold slice_bound. cbn. lia.
      + unfold slice_bound. destruct (Z.ltb_spec (Z.max 0 (i - k)) 0); lia.
    - unfold test_frame. cbn [rows].
      apply (Hrows (fun c => cell_eqb c (CDate t)) t (Hsd _ _ Ht)).
      cbn. apply Z.eqb_refl. }
  rewrite Hres. eexists. eexists. split; [reflexivity |].
  assert (Hall : mapM (py_index U) (py_range k n) = Ok (skipn (Z.to_nat k) U)).
  { unfold py_range.
    rewrite (map_ext _ (fun j => Z.of_nat (Z.to_nat k) + Z.of_nat j))
      by (intros; lia).
    apply mapM_py_index_from. lia. }
  rewrite Hall in Hdates. injection Hdates as Hdates.
  split.
  - rewrite <- Hdates. unfold U. now rewrite skipn_map.
  - apply (f_equal (@List.length _)) in Hdates.
    rewrite length_map, length_skipn in Hdates.
    assert (HU : List.length U = List.length (distinct ds))
      by (unfold U, sd; now rewrite length_map, sorted_dates_length).
    rewrite HU in Hdates. unfold forecasting.split in *. lia.
Qed.

End WalkForward.

Lemma create_rolling_splits_walk_forward_witness :
  exists splits st',
    forecasting.create_rolling_splits (parser := iso) 0%nat 2 false
      (init [five_days]) = (Ok splits, st') /\
    map snd splits = map CDate (skipn (Z.to_nat 2) (sorted_dates five_dates)) /\
    Z.of_nat (List.length splits)
    = Z.of_nat (List.length (distinct five_dates)) - 2.
Proof.
  apply (create_rolling_splits_walk_forward (parser := iso) (init [five_days])
           0%nat five_days five_dates 2 false eq_refl five_days_dated).
  vm_compute. split; [discriminate | reflexivity].
Defined.
